(** * NASA POWER to DSSAT weather file: a shallow embedding of
      [dssat_nasapower_extract.py] and the properties of its fetcher,
      writer and orchestration.

    Conventions of the embedding.
    - A timestamp of a [DatetimeIndex] at daily frequency is the proleptic
      Gregorian ordinal of its day ([date.toordinal()], day 1 is 0001-01-01),
      a [Z].  The calendar arithmetic follows CPython's [datetime] module.
    - A numeric cell is [option Q]: [None] is NaN (a missing observation),
      [Some q] a number, read as the binary64 float nearest to [q], as Python
      reads a decimal literal.  Every arithmetic operation rounds its exact
      result to the nearest binary64 number, ties to even.  Infinities and the
      sign of zero are outside the model.
    - Effects (HTTP requests, standard output, the file system, exceptions) are
      threaded through a small state-and-exception monad over a [world].
    - The file system is a tree of directories and regular files addressed by
      the components of a path; permissions, links and the limits on the
      length of names are outside the model. *)

From Stdlib Require Import ZArith QArith Qabs Lia List String Ascii Bool Sorted.
From stdpp Require Import base option list gmap strings.

Local Open Scope Z_scope.

(** ** Calendar arithmetic (CPython [datetime]: [_is_leap], [_days_before_year],
       [_days_in_month], [_days_before_month], [_ymd2ord], [_ord2ymd]) *)

Module Calendar.

Definition is_leap (year : Z) : bool :=
  (year mod 4 =? 0) && (negb (year mod 100 =? 0) || (year mod 400 =? 0)).

Definition days_before_year (year : Z) : Z :=
  let y := year - 1 in
  y * 365 + y / 4 - y / 100 + y / 400.

(** [_DAYS_IN_MONTH] and [_DAYS_BEFORE_MONTH]; index 0 is the placeholder -1. *)
Definition DAYS_IN_MONTH : list Z :=
  [-1; 31; 28; 31; 30; 31; 30; 31; 31; 30; 31; 30; 31].

Definition DAYS_BEFORE_MONTH : list Z :=
  [-1; 0; 31; 59; 90; 120; 151; 181; 212; 243; 273; 304; 334].

Definition tbl (t : list Z) (i : Z) : Z := nth (Z.to_nat i) t (-1).

Definition b2z (b : bool) : Z := if b then 1 else 0.

Definition days_in_month (year month : Z) : Z :=
  if (month =? 2) && is_leap year then 29 else tbl DAYS_IN_MONTH month.

Definition days_before_month (year month : Z) : Z :=
  tbl DAYS_BEFORE_MONTH month + b2z ((2 <? month) && is_leap year).

Definition days_in_year (year : Z) : Z := if is_leap year then 366 else 365.

Definition ymd2ord (year month day : Z) : Z :=
  days_before_year year + days_before_month year month + day.

Definition DI400Y : Z := Eval cbv in days_before_year 401.
Definition DI100Y : Z := Eval cbv in days_before_year 101.
Definition DI4Y : Z := Eval cbv in days_before_year 5.

(** The tail of [_ord2ymd]: month and day from the 0-based day of the year. *)
Definition month_day (leapyear : bool) (n : Z) : Z * Z :=
  let month := Z.shiftr (n + 50) 5 in
  let preceding := tbl DAYS_BEFORE_MONTH month + b2z ((2 <? month) && leapyear) in
  if n <? preceding then
    let month := month - 1 in
    let preceding :=
      preceding - (tbl DAYS_IN_MONTH month + b2z ((month =? 2) && leapyear)) in
    (month, n - preceding + 1)
  else (month, n - preceding + 1).

Definition ord2ymd (ordinal : Z) : Z * Z * Z :=
  let n := ordinal - 1 in
  let n400 := n / DI400Y in
  let n := n mod DI400Y in
  let year := n400 * 400 + 1 in
  let n100 := n / DI100Y in
  let n := n mod DI100Y in
  let n4 := n / DI4Y in
  let n := n mod DI4Y in
  let n1 := n / 365 in
  let n := n mod 365 in
  let year := year + n100 * 100 + n4 * 4 + n1 in
  if (n1 =? 4) || (n100 =? 4) then (year - 1, 12, 31)
  else
    let leapyear := (n1 =? 3) && (negb (n4 =? 24) || (n100 =? 3)) in
    let '(month, day) := month_day leapyear n in
    (year, month, day).

(** The dates of the calendar, years [MINYEAR] = 1 to [MAXYEAR] = 9999. *)
Definition valid_ymd (y m d : Z) : Prop :=
  1 <= y <= 9999 /\ 1 <= m <= 12 /\ 1 <= d <= days_in_month y m.

Definition valid_ymdb (y m d : Z) : bool :=
  (1 <=? y) && (y <=? 9999) && (1 <=? m) && (m <=? 12) &&
  (1 <=? d) && (d <=? days_in_month y m).

(** Accessors of a timestamp. *)
Definition year_of (t : Z) : Z := fst (fst (ord2ymd t)).
Definition month_of (t : Z) : Z := snd (fst (ord2ymd t)).
Definition day_of (t : Z) : Z := snd (ord2ymd t).

(** [timetuple().tm_yday]: [_days_before_month(y, m) + d]. *)
Definition tm_yday (t : Z) : Z :=
  days_before_month (year_of t) (month_of t) + day_of t.

(** Month tables by leap flag, and the checks that are decided by running
    over the days of a year and over the months. *)
Definition dim_l (leap : bool) (m : Z) : Z :=
  if (m =? 2) && leap then 29 else tbl DAYS_IN_MONTH m.
Definition dbm_l (leap : bool) (m : Z) : Z :=
  tbl DAYS_BEFORE_MONTH m + b2z ((2 <? m) && leap).

Definition month_day_ok (leap : bool) (n : Z) : bool :=
  let '(m, d) := month_day leap n in
  (1 <=? m) && (m <=? 12) && (1 <=? d) && (d <=? dim_l leap m) &&
  (dbm_l leap m + d =? n + 1).

Definition months_fit (leap : bool) (m : Z) : bool :=
  (0 <=? dbm_l leap m) && (dbm_l leap m + dim_l leap m <=? 365 + b2z leap).

Definition months_ordered (leap : bool) (m1 : Z) : bool :=
  forallb (fun m2 => (m2 <=? m1) || (dbm_l leap m1 + dim_l leap m1 <=? dbm_l leap m2))
          (seqZ 1 12).

End Calendar.

Import Calendar.

(** ** Binary64 floating point: rounding to nearest, ties to even *)

Module Binary64.

(** Rounding of a rational to the nearest integer, ties to even. *)
Definition round_half_even (q : Q) : Z :=
  let n := Qnum q in
  let d := Zpos (Qden q) in
  let fl := n / d in
  let rem := n mod d in
  match 2 * rem ?= d with
  | Lt => fl
  | Gt => fl + 1
  | Eq => if Z.even fl then fl else fl + 1
  end.

(** The integer part of the binary logarithm of the positive rational [n/d]. *)
Definition ilog2 (n d : Z) : Z :=
  let k := Z.log2 n - Z.log2 d in
  if d * 2 ^ Z.max k 0 <=? n * 2 ^ Z.max (- k) 0 then k else k - 1.

(** [(n/d) / 2^e]. *)
Definition scale2 (n d e : Z) : Q :=
  (n * 2 ^ Z.max (- e) 0) # Z.to_pos (d * 2 ^ Z.max e 0).

(** The binary64 number nearest to [x], as a rational in lowest terms: a
    significand of at most 53 bits times a power of two that is at least
    [2^-1074] (below [2^-1022] the numbers are subnormal).  A result beyond
    the largest finite binary64 number, which the hardware turns into an
    infinity, is outside the model. *)
Definition binary64 (x : Q) : Q :=
  let x := Qred x in
  let n := Z.abs (Qnum x) in
  let d := Zpos (Qden x) in
  if n =? 0 then 0%Q
  else
    let e := Z.max (ilog2 n d - 52) (-1074) in
    let m := round_half_even (scale2 n d e) in
    let v := Qred ((m * 2 ^ Z.max e 0) # Z.to_pos (2 ^ Z.max (- e) 0)) in
    if Qnum x <? 0 then Qopp v else v.

(** The arithmetic of floats: the exact result of the operation on the two
    floats, rounded. *)
Definition fadd (x y : Q) : Q := binary64 (binary64 x + binary64 y).
Definition fsub (x y : Q) : Q := binary64 (binary64 x - binary64 y).
Definition fdiv (x y : Q) : Q := binary64 (binary64 x / binary64 y).

End Binary64.

Import Binary64.

(** ** Text formatting (Python [str], [format] with [d] and [f] presentation,
       [str.join]) *)

Module Fmt.

Definition digit (n : Z) : ascii := ascii_of_nat (48 + Z.to_nat n).

Fixpoint digits_aux (fuel : nat) (n : Z) (acc : string) : string :=
  match fuel with
  | O => acc
  | S fuel' =>
      let acc' := String (digit (n mod 10)) acc in
      if n <? 10 then acc' else digits_aux fuel' (n / 10) acc'
  end.

(** Decimal digits of a non-negative integer. *)
Definition digits (n : Z) : string :=
  digits_aux (S (Z.to_nat (Z.log2 n))) n EmptyString.

(** [str(n)] for an integer. *)
Definition str_int (n : Z) : string :=
  if n <? 0 then String "-" (digits (- n)) else digits n.

Fixpoint replicate_char (n : nat) (c : ascii) : string :=
  match n with
  | O => EmptyString
  | S n' => String c (replicate_char n' c)
  end.

(** Padding on the left up to a minimum width. *)
Definition lpad (c : ascii) (width : nat) (s : string) : string :=
  replicate_char (width - String.length s) c +:+ s.

(** [f"{n:0Wd}"] for a non-negative integer [n]. *)
Definition format_0d (width : nat) (n : Z) : string :=
  lpad "0" width (digits n).

(** Fixed-point rendering with [prec] decimals: the body of the [f]
    presentation type for a finite number. *)
Definition fixed (prec : nat) (q : Q) : string :=
  let scale := 10 ^ Z.of_nat prec in
  let r := round_half_even (Qabs q * inject_Z scale) in
  let sign := if Qlt_le_dec q 0 then "-" else "" in
  let int_part := digits (r / scale) in
  match prec with
  | O => sign +:+ int_part
  | _ => sign +:+ int_part +:+ "." +:+ format_0d prec (r mod scale)
  end.

(** [f"{x:W.Pf}"]: [None] is NaN, rendered [nan]; a number is rendered from
    the exact value of its float, correctly rounded; the default alignment of
    numbers is to the right. *)
Definition format_f (width prec : nat) (x : option Q) : string :=
  lpad " " width (match x with
                  | None => "nan"
                  | Some q => fixed prec (binary64 q)
                  end).

Definition newline : string := String (ascii_of_nat 10) EmptyString.

End Fmt.

Import Fmt.

(** ** Parsing of [YYYYMMDD] date strings *)

Module DateStr.

Definition digit_val (c : ascii) : option Z :=
  let n := Z.of_nat (nat_of_ascii c) in
  if (48 <=? n) && (n <=? 57) then Some (n - 48) else None.

Fixpoint number (cs : list ascii) (acc : Z) : option Z :=
  match cs with
  | [] => Some acc
  | c :: cs' =>
      match digit_val c with
      | Some v => number cs' (acc * 10 + v)
      | None => None
      end
  end.

(** [datetime.strptime(s, '%Y%m%d')] on the 8-digit spelling the program and
    the service use: four digits of year, two of month, two of day, and the
    result must be a date of the calendar (years 1 to 9999).  [None] stands
    for the [ValueError] that [strptime] raises.  Shorter spellings that
    [strptime] also tolerates (one-digit months or days) are not modelled. *)
Definition strptime (s : string) : option (Z * Z * Z) :=
  let cs := list_ascii_of_string s in
  if negb (Nat.eqb (length cs) 8) then None
  else
    match number (take 4 cs) 0, number (take 2 (drop 4 cs)) 0,
          number (drop 6 cs) 0 with
    | Some y, Some m, Some d =>
        if valid_ymdb y m d then Some (y, m, d) else None
    | _, _, _ => None
    end.

Definition toordinal (dt : Z * Z * Z) : Z :=
  let '(y, m, d) := dt in ymd2ord y m d.

(** [pd.to_datetime] / [pd.Timestamp] of a date string, as the timestamp of
    that day.  pandas reads an 8-digit string as [YYYYMMDD]; any other key
    spelling is modelled as a parse failure.  The bounds of the nanosecond
    resolution of pandas timestamps are not modelled. *)
Definition to_datetime (s : string) : option Z :=
  toordinal <$> strptime s.

End DateStr.

Import DateStr.

(** ** Data frames (the part of pandas the program uses) *)

Module Frame.

(** A numeric cell; [None] is NaN. *)
Abbreviation cell := (option Q).

(** A frame: column labels and rows in order, each row with its index label
    and one cell per column. *)
Record DataFrame (L : Type) : Type := mkDF {
  columns : list string;
  rows : list (L * list cell)
}.
Arguments mkDF {L} _ _.
Arguments columns {L} _.
Arguments rows {L} _.

Definition index {L} (df : DataFrame L) : list L := (rows df).*1.

Fixpoint position (name : string) (cols : list string) : option nat :=
  match cols with
  | [] => None
  | c :: cols' =>
      if String.eqb c name then Some O else S <$> position name cols'
  end.

(** [row.get(name, default)] on the row of [iterrows]: the default is used
    when the row has no such label, not when the cell is NaN. *)
Definition row_get (cols : list string) (r : list cell) (name : string)
    (default : cell) : cell :=
  match position name cols with
  | Some i => match r !! i with Some c => c | None => default end
  | None => default
  end.

(** [df[name]]: the cells of a column, or [None] for [KeyError]. *)
Definition getitem {L} (df : DataFrame L) (name : string) : option (list cell) :=
  match position name (columns df) with
  | Some i => Some ((fun r => default None (r.2 !! i)) <$> rows df)
  | None => None
  end.

(** [df.rename(columns=mapping)]: labels absent from the mapping are kept. *)
Definition rename {L} (df : DataFrame L) (mapping : list (string * string))
    : DataFrame L :=
  let new_label c :=
    match List.find (fun kv => String.eqb kv.1 c) mapping with
    | Some kv => kv.2
    | None => c
    end in
  mkDF (new_label <$> columns df) (rows df).

(** [pd.DataFrame(d)] for a dict of dicts [d]: a column per outer key, in
    order; the index is the union of the inner keys; a cell is NaN where the
    inner dict has no such key. *)
Definition from_dict (d : list (string * gmap string cell)) : DataFrame string :=
  let keys := elements (⋃ ((fun kv => dom kv.2) <$> d) : gset string) in
  mkDF (d.*1)
       ((fun k => (k, (fun kv => default None (kv.2 !! k)) <$> d)) <$> keys).

(** [pd.date_range(start, end)] at the default daily frequency. *)
Definition date_range (start_ stop : Z) : list Z :=
  seqZ start_ (stop - start_ + 1).

Definition has_dupb (l : list Z) : bool :=
  negb (bool_decide (NoDup l)).

(** [df.reindex(new_index)]: rows are looked up by label, a label the frame
    lacks gets a row of NaN; pandas refuses when the frame's own index has a
    repeated label ([None] stands for that [ValueError]). *)
Definition reindex (df : DataFrame Z) (new_index : list Z) : option (DataFrame Z) :=
  if has_dupb (index df) then None
  else
    let nan_row := replicate (length (columns df)) (None : cell) in
    let lookup t :=
      match List.find (fun r => r.1 =? t) (rows df) with
      | Some r => r.2
      | None => nan_row
      end in
    Some (mkDF (columns df) ((fun t => (t, lookup t)) <$> new_index)).

(** [pd.concat([a, b])] along the rows: the columns are those of [a] followed
    by the new ones of [b]; every row is laid out on these columns, NaN where
    its frame has no such column. *)
Definition concat2 {L} (a b : DataFrame L) : DataFrame L :=
  let cols :=
    columns a ++ List.filter (fun c => negb (bool_decide (c ∈ columns a))) (columns b) in
  let lay (src : list string) (r : L * list cell) :=
    (r.1, (fun c => row_get src r.2 c None) <$> cols) in
  mkDF cols ((lay (columns a) <$> rows a) ++ (lay (columns b) <$> rows b)).

(** The cells of a float column, as the binary64 numbers they hold. *)
Definition as_floats (s : list cell) : list cell := option_map binary64 <$> s.

(** [Series.count()]: the number of cells that are not NaN. *)
Definition count (s : list cell) : Z := Z.of_nat (length (omap id s)).

(** Reductions of a column, skipping NaN as pandas does by default.

    [Series.mean()] divides the floating-point sum of the cells that are not
    NaN by their count.  The sum is the work of the numeric library ([fsum]):
    numpy adds pairwise, bottleneck one cell after the other, so the order of
    the additions, hence the rounding of the sum, is the library's. *)
Definition series_mean (fsum : list cell -> Q) (s : list cell) : cell :=
  let s := as_floats s in
  let n := count s in
  if n =? 0 then None else Some (fdiv (fsum s) (inject_Z n)).

(** The sum of a library that adds the cells one after the other. *)
Definition sequential_sum (s : list cell) : Q :=
  fold_left (fun acc c =>
               match c with
               | Some q => fadd acc q
               | None => acc
               end) s 0%Q.

Definition Qmaxb (a b : Q) : Q := if Qle_bool a b then b else a.
Definition Qminb (a b : Q) : Q := if Qle_bool a b then a else b.

Definition reduce_step (f : Q -> Q -> Q) (acc c : cell) : cell :=
  match c with
  | None => acc
  | Some q =>
      match acc with
      | None => Some q
      | Some a => Some (f a q)
      end
  end.

Definition nanreduce (f : Q -> Q -> Q) (s : list cell) : cell :=
  fold_left (reduce_step f) s None.

Definition series_max (s : list cell) : cell := nanreduce Qmaxb (as_floats s).
Definition series_min (s : list cell) : cell := nanreduce Qminb (as_floats s).

(** Float arithmetic with NaN propagation: the exact result, rounded. *)
Definition cell_sub (a b : cell) : cell :=
  match a, b with
  | Some x, Some y => Some (fsub x y)
  | _, _ => None
  end.
Definition cell_div (a : cell) (k : Q) : cell :=
  match a with
  | Some x => Some (fdiv x k)
  | None => None
  end.

End Frame.

Import Frame.

(** ** The world of the program: HTTP service, standard output, file system *)

Module World.

Inductive exn : Type :=
| ValueError (msg : string)
| KeyError (key : string)
| UnboundLocalError (name : string)
| OSError (msg : string)
| RequestException (msg : string).

(** The GET request of the fetcher: URL, query parameters and timeout. *)
Record request : Type := mkRequest {
  req_url : string;
  req_parameters : string;
  req_community : string;
  req_longitude : Q;
  req_latitude : Q;
  req_start : string;
  req_end : string;
  req_format : string;
  req_timeout : Z
}.

(** The JSON body of a response, as far as the program reads it: an object
    without the key [properties], an object whose [properties] has no key
    [parameter], or the object at [data['properties']['parameter']], from
    parameter names to the values by date.  The body is taken as already
    parsed: a body that is not JSON, or in which one of these is not an
    object, is outside the model. *)
Inductive body : Type :=
| NoProperties
| NoParameter
| ParameterBlock (block : gmap string (gmap string cell)).

(** What [requests.get] does with a request: it raises a [RequestException]
    whose text is [err] (connection error, timeout, ...), or it returns a
    response with a status code, a reason phrase, the final URL, and a JSON
    body. *)
Record response : Type := mkResponse {
  status_code : Z;
  reason : string;
  resp_url : string;
  resp_json : body
}.

(** The parameter block of a response; empty when the body has none. *)
Definition resp_parameter (r : response) : gmap string (gmap string cell) :=
  match resp_json r with
  | ParameterBlock block => block
  | _ => ∅
  end.

Inductive reply : Type :=
| NoResponse (err : string)
| Response (r : response).

Inductive node : Type :=
| Dir
| File (content : string).

(** The parts of a path between slashes. *)
Fixpoint split_slash (s : string) : list string :=
  match s with
  | EmptyString => [EmptyString]
  | String c s' =>
      if Ascii.eqb c "/" then EmptyString :: split_slash s'
      else match split_slash s' with
           | h :: t => String c h :: t
           | [] => [String c EmptyString]
           end
  end.

Definition is_name (part : string) : bool :=
  negb (String.eqb part "") && negb (String.eqb part ".").

Definition absolute (path : string) : bool :=
  match path with
  | String "/" _ => true
  | _ => false
  end.

(** The components of a path, from the working directory, or from the root
    for an absolute path (then the first component is the root, [/]): empty
    parts and [.] name no step.  A [..] is kept as a component: a path through
    [..] is not resolved, and the statements about arbitrary paths exclude
    it. *)
Definition components (path : string) : list string :=
  (if absolute path then ["/"%string] else []) ++
  List.filter is_name (split_slash path).

(** The entries of the file system, by components.  The working directory
    (no component) and the root are directories that always exist. *)
Abbreviation tree := (gmap (list string) node).

Definition always_dir (p : list string) : bool :=
  match p with
  | [] => true
  | [c] => String.eqb c "/"
  | _ => false
  end.

Definition node_at (t : tree) (p : list string) : option node :=
  if always_dir p then Some Dir else t !! p.

(** What a path string names (what [os.stat] finds). *)
#[export] Instance tree_lookup : Lookup string node tree :=
  fun path t => if String.eqb path "" then None else node_at t (components path).

Record world : Type := mkWorld {
  requests : list request;      (* requests issued so far, oldest first *)
  stdout : list string;         (* lines printed so far, oldest first *)
  fs : tree                     (* the file system *)
}.

Inductive result (A : Type) : Type :=
| Return (a : A)
| Raise (e : exn).
Arguments Return {A} _.
Arguments Raise {A} _.

Definition M (A : Type) : Type := world -> result A * world.

Definition ret {A} (a : A) : M A := fun w => (Return a, w).
Definition raise {A} (e : exn) : M A := fun w => (Raise e, w).
Definition bind {A B} (m : M A) (k : A -> M B) : M B :=
  fun w => match m w with
           | (Return a, w') => k a w'
           | (Raise e, w') => (Raise e, w')
           end.

(** [try: body except C as e: handler(e)] where [handles] tells the
    exceptions of class [C]. *)
Definition try_except {A} (body : M A) (handles : exn -> option string)
    (handler : string -> M A) : M A :=
  fun w => match body w with
           | (Return a, w') => (Return a, w')
           | (Raise e, w') =>
               match handles e with
               | Some msg => handler msg w'
               | None => (Raise e, w')
               end
           end.

Definition print (line : string) : M unit :=
  fun w => (Return tt, mkWorld (requests w) (stdout w ++ [line]) (fs w)).

(** The walk of [os.makedirs] down a path: [above] is where the walk stands,
    [below] the components still to visit.  A missing directory is made, an
    existing one is entered, a regular file stops the walk: with
    [FileExistsError] when it is the last component, with
    [NotADirectoryError] when it is an ancestor. *)
Fixpoint make_chain (above below : list string) (t : tree) : result tree :=
  match below with
  | [] => Return t
  | c :: below' =>
      let p := above ++ [c] in
      match node_at t p with
      | Some Dir => make_chain p below' t
      | Some (File _) =>
          Raise (OSError (match below' with
                          | [] => "FileExistsError"
                          | _ => "NotADirectoryError"
                          end))
      | None => make_chain p below' (<[p := Dir]> t)
      end
  end.

(** [os.makedirs(path, exist_ok=True)]: every missing directory on the way is
    made, an existing directory is accepted, the empty path is refused. *)
Definition makedirs (path : string) : M unit :=
  fun w =>
    if String.eqb path "" then (Raise (OSError "FileNotFoundError"), w)
    else match make_chain [] (components path) (fs w) with
         | Return t => (Return tt, mkWorld (requests w) (stdout w) t)
         | Raise e => (Raise e, w)
         end.

(** The part of a path after its last slash names a file: it is not empty
    and is neither [.] nor [..]. *)
Definition names_file (path : string) : bool :=
  match last (split_slash path) with
  | Some part => is_name part && negb (String.eqb part "..")
  | None => false
  end.

(** [with open(path, 'w') as f: f.write(...)]: the directory of the file must
    exist; the file is created or truncated, then holds what was written. *)
Definition write_file (path content : string) : M unit :=
  fun w =>
    let p := components path in
    if String.eqb path "" then (Raise (OSError "FileNotFoundError"), w)
    else if negb (names_file path) then (Raise (OSError "IsADirectoryError"), w)
    else
      match node_at (fs w) (removelast p) with
      | None => (Raise (OSError "FileNotFoundError"), w)
      | Some (File _) => (Raise (OSError "NotADirectoryError"), w)
      | Some Dir =>
          match node_at (fs w) p with
          | Some Dir => (Raise (OSError "IsADirectoryError"), w)
          | _ => (Return tt, mkWorld (requests w) (stdout w)
                               (<[p := File content]> (fs w)))
          end
      end.

(** [os.path.join(a, b)] on POSIX. *)
Definition ends_with_slash (s : string) : bool :=
  match last (list_ascii_of_string s) with
  | Some c => Ascii.eqb c "/"
  | None => false
  end.

Definition path_join (a b : string) : string :=
  match b with
  | String "/" _ => b
  | _ => if String.eqb a "" || ends_with_slash a then a +:+ b
         else a +:+ "/" +:+ b
  end.

End World.

Import World.

Declare Scope prog_scope.
Delimit Scope prog_scope with prog.
Notation "'let*' x ':=' m 'in' k" := (bind m (fun x => k))
  (at level 10, x pattern, m at level 100, k at level 200) : prog_scope.
Notation "m ';;' k" := (bind m (fun _ => k))
  (at level 100, k at level 200, right associativity) : prog_scope.
Local Open Scope prog_scope.

(** ** The program *)

Section Program.

(** The remote service. *)
Variable net : request -> reply.

(** [daily_data.describe()] rendered as text. *)
Variable describe : DataFrame Z -> string.

(** The floating-point sum of the cells of a column that are not NaN, as the
    numeric library under pandas computes it. *)
Variable nansum : list cell -> Q.

Definition parameters : list string :=
  ["T2M"; "T2M_MAX"; "T2M_MIN"; "PRECTOTCORR"; "ALLSKY_SFC_SW_DWN"; "RH2M"; "WS2M"]%string.

Definition base_url : string := "https://power.larc.nasa.gov/api/temporal/daily/point".

(** [requests.get(base_url, params=params, timeout=30)]. *)
Definition requests_get (rq : request) : M response :=
  fun w =>
    let w' := mkWorld (requests w ++ [rq]) (stdout w) (fs w) in
    match net rq with
    | NoResponse err => (Raise (RequestException err), w')
    | Response r => (Return r, w')
    end.

(** [response.raise_for_status()]: an [HTTPError], which is a
    [RequestException], for the 4xx and 5xx codes. *)
Definition raise_for_status (r : response) : M unit :=
  if (400 <=? status_code r) && (status_code r <? 500) then
    raise (RequestException
             (str_int (status_code r) +:+ " Client Error: " +:+ reason r
                +:+ " for url: " +:+ resp_url r))
  else if (500 <=? status_code r) && (status_code r <? 600) then
    raise (RequestException
             (str_int (status_code r) +:+ " Server Error: " +:+ reason r
                +:+ " for url: " +:+ resp_url r))
  else ret tt.

Definition is_RequestException (e : exn) : option string :=
  match e with RequestException msg => Some msg | _ => None end.

(** [datetime.strptime(s, '%Y%m%d')] as a step of the program. *)
Definition parse_date (s : string) : M (Z * Z * Z) :=
  match strptime s with
  | Some dt => ret dt
  | None => raise (ValueError ("time data does not match format: " +:+ s))
  end.

(** [data['properties']['parameter'][param]]: three lookups, each of which
    raises [KeyError] with the key it misses. *)
Definition parameter_values (data : body) (param : string)
    : M (gmap string cell) :=
  match data with
  | NoProperties => raise (KeyError "properties")
  | NoParameter => raise (KeyError "parameter")
  | ParameterBlock block =>
      match block !! param with
      | Some d => ret d
      | None => raise (KeyError param)
      end
  end.

(** [{param: data['properties']['parameter'][param] for param in parameters}] *)
Fixpoint select_parameters (data : body) (params : list string)
    : M (list (string * gmap string cell)) :=
  match params with
  | [] => ret []
  | p :: ps =>
      let* d := parameter_values data p in
      let* rest := select_parameters data ps in
      ret ((p, d) :: rest)
  end.

(** [df.index = pd.to_datetime(df.index)] *)
Definition index_to_datetime (df : DataFrame string) : M (DataFrame Z) :=
  match mapM (fun r => (fun t => (t, r.2)) <$> to_datetime r.1) (rows df) with
  | Some rs => ret (mkDF (columns df) rs)
  | None => raise (ValueError "Unknown datetime string format")
  end.

Definition max_period_days : Z := 365 * 30.

(** The [params] dict of the request, with the timeout of the call. *)
Definition request_params (latitude longitude : Q) (start_date end_date : string)
    : request :=
  mkRequest base_url (String.concat "," parameters) "AG" longitude latitude
            start_date end_date "JSON" 30.

Definition get_daily_nasa_power_data (latitude longitude : Q)
    (start_date end_date : string) : M (option (DataFrame Z)) :=
  let* start_dt := parse_date start_date in
  let* end_dt := parse_date end_date in
  if toordinal end_dt - toordinal start_dt >? max_period_days then
    raise (ValueError "maximum period is 30 years")
  else
    let params := request_params latitude longitude start_date end_date in
    try_except
      (let* response := requests_get params in
       raise_for_status response ;;
       let data := resp_json response in
       let* daily_data := select_parameters data parameters in
       let df := from_dict daily_data in
       let* df := index_to_datetime df in
       let full_range := date_range (toordinal start_dt) (toordinal end_dt) in
       match reindex df full_range with
       | Some df => ret (Some df)
       | None => raise (ValueError "cannot reindex on an axis with duplicate labels")
       end)
      is_RequestException
      (fun e => print ("Erro na requisição: " +:+ e) ;; ret None).

(** The renaming table of the writer. *)
Definition required_columns : list (string * string) :=
  [("T2M", "TAVG"); ("T2M_MAX", "TMAX"); ("T2M_MIN", "TMIN");
   ("PRECTOTCORR", "RAIN"); ("ALLSKY_SFC_SW_DWN", "SRAD"); ("RH2M", "RHUM");
   ("WS2M", "WIND")]%string.

(** [date.strftime('%y')] followed by [f"{julian_day:03d}"]. *)
Definition dssat_date (date : Z) : string :=
  let julian_day := tm_yday date in
  let short_year := format_0d 2 (year_of date mod 100) in
  short_year +:+ format_0d 3 julian_day.

(** The default of [row.get(..., -99)]. *)
Definition sentinel : cell := Some (-99 # 1)%Q.

(** One pass of the loop over [df.iterrows()]. *)
Definition data_line (cols : list string) (date : Z) (row : list cell) : string :=
  let srad := row_get cols row "SRAD" sentinel in
  let tmax := row_get cols row "TMAX" sentinel in
  let tmin := row_get cols row "TMIN" sentinel in
  let rain := row_get cols row "RAIN" sentinel in
  let rhum := row_get cols row "RHUM" sentinel in
  let wind := row_get cols row "WIND" sentinel in
  dssat_date date +:+ " " +:+ format_f 5 1 srad +:+ " " +:+ format_f 5 1 tmax
    +:+ " " +:+ format_f 5 1 tmin +:+ " " +:+ format_f 5 1 rain
    +:+ " " +:+ format_f 5 0 rhum +:+ " " +:+ format_f 5 1 wind.

(** [data_lines] once the loop is over; [df] is the renamed frame. *)
Definition data_lines (df : DataFrame Z) : list string :=
  (fun r => data_line (columns df) r.1 r.2) <$> rows df.

Definition header (site_code : string) (latitude longitude elevation : Q)
    (tavg amp : cell) : string :=
  "*WEATHER DATA : " +:+ site_code +:+ newline
  +:+ "@ INSI      LAT     LONG  ELEV   TAV   AMP REFHT WNDHT" +:+ newline
  +:+ "  " +:+ site_code +:+ "  " +:+ format_f 6 3 (Some latitude) +:+ " "
  +:+ format_f 6 3 (Some longitude) +:+ " " +:+ format_f 5 0 (Some elevation)
  +:+ "  " +:+ format_f 4 1 tavg +:+ "  " +:+ format_f 4 1 amp
  +:+ "     2     2" +:+ newline
  +:+ "@DATE  SRAD  TMAX  TMIN  RAIN  RHUM  WIND" +:+ newline.

(** [df[name]] as a step of the program. *)
Definition column (df : DataFrame Z) (name : string) : M (list cell) :=
  match getitem df name with
  | Some s => ret s
  | None => raise (KeyError name)
  end.

(** The two statistics of the header (the assignments to [tavg] and [amp]):
    [df['TAVG'].mean()] and [(df['TMAX'].max() - df['TMIN'].min()) / 2]. *)
Definition header_statistics (df : DataFrame Z) : M (cell * cell) :=
  let* tavg_col := column df "TAVG" in
  let tavg := series_mean nansum tavg_col in
  let* tmax_col := column df "TMAX" in
  let* tmin_col := column df "TMIN" in
  let amp := cell_div (cell_sub (series_max tmax_col) (series_min tmin_col)) 2 in
  ret (tavg, amp).

Definition output_name (site_code : string) : string :=
  "W" +:+ site_code +:+ "01.WTH".

Definition save_wth_file (df : DataFrame Z) (site_code : string)
    (latitude longitude elevation : Q) (output_folder : string) : M unit :=
  makedirs output_folder ;;
  let df := rename df required_columns in
  let* (tavg, amp) := header_statistics df in
  let header := header site_code latitude longitude elevation tavg amp in
  let data_lines := data_lines df in
  let output_file := path_join output_folder (output_name site_code) in
  write_file output_file (header +:+ String.concat newline data_lines) ;;
  print ("WTH file created successfully: " +:+ output_file).

(** A local variable of [main] that is assigned on one branch only: [None]
    while unbound. *)
Definition read_local {A} (name : string) (v : option A) : M A :=
  match v with
  | Some a => ret a
  | None => raise (UnboundLocalError name)
  end.

Definition main : M unit :=
  let latitude := (-1354 # 100)%Q in
  let longitude := (-5882 # 100)%Q in
  let site_code := "BRMT"%string in
  let elevation := (370 # 1)%Q in
  let* period1_data :=
    get_daily_nasa_power_data latitude longitude "19940101" "20141231" in
  let* period2_data :=
    get_daily_nasa_power_data latitude longitude "20150101" "20241231" in
  let daily_data : option (option (DataFrame Z)) :=
    match period1_data, period2_data with
    | Some p1, Some p2 => Some (Some (concat2 p1 p2))
    | _, _ => None
    end in
  let* current := read_local "daily_data" daily_data in
  match current with
  | Some df =>
      save_wth_file df site_code latitude longitude elevation "./output" ;;
      print (newline +:+ "Summary of the collected data:") ;;
      print (describe df)
  | None => ret tt
  end.

End Program.

(** ** Descriptions used in the statements *)

(** The world after the request [rq] has been issued. *)
Definition sent (rq : request) (w : world) : world :=
  mkWorld (requests w ++ [rq]) (stdout w) (fs w).

Definition said (line : string) (w : world) : world :=
  mkWorld (requests w) (stdout w ++ [line]) (fs w).

(** What the fetcher does with a response that passed the status check. *)
Definition process_response (r : response) (lo hi : Z) : M (option (DataFrame Z)) :=
  let* daily_data := select_parameters (resp_json r) parameters in
  let* df := index_to_datetime (from_dict daily_data) in
  match reindex df (date_range lo hi) with
  | Some df => ret (Some df)
  | None => raise (ValueError "cannot reindex on an axis with duplicate labels")
  end.

Definition bad_status (r : response) : bool :=
  ((400 <=? status_code r) && (status_code r <? 500)) ||
  ((500 <=? status_code r) && (status_code r <? 600)).

Definition status_message (r : response) : string :=
  str_int (status_code r) +:+
  (if (400 <=? status_code r) && (status_code r <? 500)
   then " Client Error: " else " Server Error: ") +:+ reason r
  +:+ " for url: " +:+ resp_url r.

(** The DSSAT date token as the spec words it: the two decimal digits of the
    year modulo 100, then the three decimal digits of the day of the year. *)
Definition yy_ddd (year yday : Z) : string :=
  let yy := year mod 100 in
  string_of_list_ascii
    [digit (yy / 10); digit (yy mod 10);
     digit (yday / 100); digit (yday / 10 mod 10); digit (yday mod 10)].

Definition two_digit_ok (n : Z) : bool :=
  String.eqb (format_0d 2 n) (string_of_list_ascii [digit (n / 10); digit (n mod 10)]).

Definition three_digit_ok (n : Z) : bool :=
  String.eqb (format_0d 3 n)
    (string_of_list_ascii [digit (n / 100); digit (n / 10 mod 10); digit (n mod 10)]).

Definition digit_code_ok (n : Z) : bool :=
  Z.of_nat (nat_of_ascii (digit n)) =? 48 + n.









(** A reply after which the fetcher returns the null result. *)
Definition soft_failure (rep : reply) : Prop :=
  (exists err, rep = NoResponse err) \/
  (exists r, rep = Response r /\ bad_status r = true).

(** The file system once [os.makedirs] has made the folder and the missing
    directories above it. *)
Definition made (folder : string) (t : tree) : tree :=
  match make_chain [] (components folder) t with
  | Return t' => t'
  | Raise _ => t
  end.

(** A name without a slash: it is one component of a path. *)
Definition no_slash (s : string) : bool :=
  forallb (fun c => negb (Ascii.eqb c "/")) (list_ascii_of_string s).

(** A path the system calls accept as it is spelt: no NUL character, fewer
    than 4096 characters, parts of at most 255 characters, and no step back
    to a parent directory ([..]), which the model does not resolve. *)
Definition acceptable (path : string) : bool :=
  forallb (fun c => negb (Ascii.eqb c zero)) (list_ascii_of_string path) &&
  (String.length path <? 4096)%nat &&
  forallb (fun part => (String.length part <=? 255)%nat &&
                       negb (String.eqb part ".."))
          (split_slash path).

(** The file system lets the writer put the file of [site] in [folder]: the
    folder is named, the site code keeps the file's name one component, the
    path of the file is acceptable, no regular file stands where the folder
    or a directory above it has to be, and no directory stands where the file
    has to be. *)
Definition writable (folder site : string) (t : tree) : Prop :=
  folder <> ""%string /\
  no_slash site = true /\
  acceptable (path_join folder (output_name site)) = true /\
  (forall k c, node_at t (take k (components folder)) <> Some (File c)) /\
  t !! path_join folder (output_name site) <> Some Dir.

(** The world after the writer has run to the end. *)
Definition written (folder path content : string) (w : world) : world :=
  mkWorld (requests w)
          (stdout w ++ ["WTH file created successfully: " +:+ path])
          (<[components path := File content]> (made folder (fs w))).

(** The service returned the date [t]: some requested parameter has, in the
    response, a key that reads as [t]. *)
Definition served (r : response) (t : Z) : Prop :=
  exists p d k,
    p ∈ parameters /\ resp_parameter r !! p = Some d /\
    is_Some (d !! k) /\ to_datetime k = Some t.

(** ** Concrete inputs *)

Definition empty_world : world := mkWorld [] [] ∅.

(** A service that knows two days, 2020-01-01 and 2020-01-03, with the same
    values for every parameter. *)
Definition two_days : gmap string cell :=
  {[ "20200101"%string := Some (25 # 1)%Q; "20200103"%string := Some (27 # 1)%Q ]}.

Definition gap_service (rq : request) : reply :=
  Response (mkResponse 200 "OK" (req_url rq)
              (ParameterBlock (list_to_map ((fun p => (p, two_days)) <$> parameters)))).

(** A service that cannot be reached, and one that answers 404. *)
Definition down_service (rq : request) : reply :=
  NoResponse "Connection refused".

Definition not_found_service (rq : request) : reply :=
  Response (mkResponse 404 "Not Found" (req_url rq) NoProperties).

(** Three days of temperatures, with a fourth day that has none. *)
Definition stats_example : DataFrame Z :=
  let v (n : Z) : cell := Some (inject_Z n) in
  mkDF parameters
    [ (737425, [v 10; v 35; v 8; None; None; None; None]);
      (737426, [v 20; v 30; v 5; None; None; None; None]);
      (737427, [None; None; None; None; None; None; None]);
      (737428, [v 30; v 25; v 15; None; None; None; None]) ].


(** What [gap_service] yields for 2020-01-01..2020-01-04. *)
Definition gap_frame : DataFrame Z :=
  let v (n : Z) : list cell := replicate 7 (Some (inject_Z n)) in
  mkDF parameters
    [ (737425, v 25); (737426, replicate 7 None);
      (737427, v 27); (737428, replicate 7 None) ].

Definition site_latitude : Q := (-1354 # 100)%Q.
Definition site_longitude : Q := (-5882 # 100)%Q.

(** A frame over a range of dates in which every cell is missing. *)
Definition blank_frame (lo hi : Z) : DataFrame Z :=
  mkDF parameters ((fun t => (t, replicate 7 (None : cell))) <$> date_range lo hi).

(** ** Further descriptions and inputs *)

(** An 8-character string of decimal digits: the spelling of a date for which
    [strptime] is modelled. *)
Definition eight_digits (s : string) : bool :=
  Nat.eqb (String.length s) 8 &&
  forallb (fun c => bool_decide (is_Some (digit_val c))) (list_ascii_of_string s).

(** The value the service gave for parameter [p] under the key [k]; NaN when
    the parameter has no such key. *)
Definition served_value (r : response) (k p : string) : cell :=
  match resp_parameter r !! p with
  | Some d => default None (d !! k)
  | None => None
  end.

(** The key that the selection of the parameters misses first: [properties]
    in the body, then [parameter] under it, then the first of the requested
    parameters that the block lacks. *)
Definition first_missing (data : body) (params : list string) (k : string)
    : Prop :=
  match data with
  | NoProperties => params <> [] /\ k = "properties"%string
  | NoParameter => params <> [] /\ k = "parameter"%string
  | ParameterBlock block =>
      exists before after,
        params = before ++ k :: after /\
        Forall (fun q => is_Some (block !! q)) before /\
        block !! k = None
  end.

(** The folder can be made: it is named, its path is acceptable, and no
    regular file stands where it or a directory above it has to be. *)
Definition can_make (folder : string) (t : tree) : Prop :=
  folder <> ""%string /\
  acceptable folder = true /\
  forall k c, node_at t (take k (components folder)) <> Some (File c).

(** The three columns the statistics of the header read, in the order in
    which the writer reads them. *)
Definition statistic_columns : list string := ["TAVG"; "TMAX"; "TMIN"]%string.

(** The line of a day for which every field is missing. *)
Definition nan_line (t : Z) : string :=
  dssat_date t +:+ "   nan   nan   nan   nan   nan   nan".

(** The world once the output folder has been made. *)
Definition with_folder (folder : string) (w : world) : world :=
  mkWorld (requests w) (stdout w) (made folder (fs w)).

(** The two requests of [main]. *)
Definition period1_request : request :=
  request_params site_latitude site_longitude "19940101" "20141231".
Definition period2_request : request :=
  request_params site_latitude site_longitude "20150101" "20241231".

(** A service whose response lacks the wind speed. *)
Definition no_wind_service (rq : request) : reply :=
  Response (mkResponse 200 "OK" (req_url rq)
              (ParameterBlock (list_to_map ((fun p => (p, two_days)) <$> take 6 parameters)))).

(** A service whose response is an object without [properties]. *)
Definition bare_service (rq : request) : reply :=
  Response (mkResponse 200 "OK" (req_url rq) NoProperties).

(** A service that answers every request with the seven parameters and no
    date at all. *)
Definition silent_block : gmap string (gmap string cell) :=
  list_to_map ((fun p => (p, ∅)) <$> parameters).

Definition silent_service (rq : request) : reply :=
  Response (mkResponse 200 "OK" (req_url rq) (ParameterBlock silent_block)).

(** A frame with a date out of order and a date missing. *)
Definition shuffled_frame : DataFrame Z :=
  mkDF parameters
    [ (737427, replicate 7 None); (737425, replicate 7 None);
      (737430, replicate 7 None) ].

(** A frame without the minimum temperature, and a frame with no row. *)
Definition two_column_frame : DataFrame Z :=
  mkDF ["T2M"; "T2M_MAX"]%string [].

Definition empty_frame : DataFrame Z := mkDF parameters [].

(** A service that answers the first period of [main] and fails on any other
    request. *)
Definition first_period_service (rq : request) : reply :=
  if String.eqb (req_start rq) "19940101" then silent_service rq
  else NoResponse "Connection refused".

(** A world in which the output file of site BRMT already exists. *)
Definition world_with_old_file : world :=
  mkWorld [] []
          (<[["output"; "WBRMT01.WTH"]%string := File "old"]>
             (<[["output"]%string := Dir]> ∅)).

(** A world in which a regular file stands where [main] puts its folder. *)
Definition world_with_blocked_folder : world :=
  mkWorld [] [] (<[["output"]%string := File "notes"]> ∅).

(** * Properties *)

(** ** The calendar *)

Section CalendarFacts.

Lemma days_before_year_succ y :
  days_before_year (y + 1) = days_before_year y + days_in_year y.
Proof.
  unfold days_before_year, days_in_year, is_leap.
  replace (y + 1 - 1) with y by lia.
  destruct (y mod 4 =? 0) eqn:E4; destruct (y mod 100 =? 0) eqn:E100;
    destruct (y mod 400 =? 0) eqn:E400; simpl;
    Z.div_mod_to_equations; lia.
Qed.

Lemma days_before_year_mono y1 y2 :
  y1 <= y2 -> days_before_year y1 <= days_before_year y2.
Proof. unfold days_before_year. intros H. Z.div_mod_to_equations. lia. Qed.

Lemma days_before_year_century y1 y2 :
  y1 + 100 <= y2 -> days_before_year y1 + 36524 <= days_before_year y2.
Proof. unfold days_before_year. intros H. Z.div_mod_to_equations. lia. Qed.

Lemma days_in_year_bounds y : 365 <= days_in_year y <= 366.
Proof. unfold days_in_year. destruct (is_leap y); lia. Qed.

(** Bounded universal statements over an interval of [Z], decided by
    evaluation. *)
Lemma forall_range (P : Z -> bool) (lo len : Z) :
  forallb P (seqZ lo len) = true ->
  forall k, lo <= k < lo + len -> P k = true.
Proof.
  intros H k Hk. rewrite forallb_forall in H. apply H.
  apply list_elem_of_In, elem_of_seqZ. lia.
Qed.

Lemma month_day_spec leap n :
  0 <= n < 365 + b2z leap ->
  let '(m, d) := month_day leap n in
  1 <= m <= 12 /\ 1 <= d <= dim_l leap m /\ dbm_l leap m + d = n + 1.
Proof.
  intros Hn.
  assert (H : month_day_ok leap n = true).
  { destruct leap.
    - apply (forall_range (month_day_ok true) 0 366); [now vm_compute | simpl in Hn; lia].
    - apply (forall_range (month_day_ok false) 0 365); [now vm_compute | simpl in Hn; lia]. }
  unfold month_day_ok in H. destruct (month_day leap n) as [m d].
  repeat (apply andb_prop in H; destruct H as [H ?]). lia.
Qed.

(** The year found by [_ord2ymd] and the 0-based day within it. *)
Lemma is_leap_digits n400 n100 n4 n1 :
  0 <= n100 <= 3 -> 0 <= n4 <= 24 -> 0 <= n1 <= 3 ->
  is_leap (n400 * 400 + 1 + n100 * 100 + n4 * 4 + n1) =
  (n1 =? 3) && (negb (n4 =? 24) || (n100 =? 3)).
Proof.
  intros H100 H4 H1. unfold is_leap.
  set (y := n400 * 400 + 1 + n100 * 100 + n4 * 4 + n1).
  assert (E4 : y mod 4 = (n1 + 1) mod 4).
  { unfold y. replace (n400 * 400 + 1 + n100 * 100 + n4 * 4 + n1)
      with ((n1 + 1) + (n400 * 100 + n100 * 25 + n4) * 4) by lia.
    apply Z_mod_plus_full. }
  assert (E100 : y mod 100 = (n4 * 4 + n1 + 1) mod 100).
  { unfold y. replace (n400 * 400 + 1 + n100 * 100 + n4 * 4 + n1)
      with ((n4 * 4 + n1 + 1) + (n400 * 4 + n100) * 100) by lia.
    apply Z_mod_plus_full. }
  assert (E400 : y mod 400 = (n100 * 100 + n4 * 4 + n1 + 1) mod 400).
  { unfold y. replace (n400 * 400 + 1 + n100 * 100 + n4 * 4 + n1)
      with ((n100 * 100 + n4 * 4 + n1 + 1) + n400 * 400) by lia.
    apply Z_mod_plus_full. }
  rewrite E4, E100, E400. clearbody y. clear E4 E100 E400.
  destruct (n1 =? 3) eqn:A1; destruct (n4 =? 24) eqn:A4;
    destruct (n100 =? 3) eqn:A100; simpl;
    repeat match goal with
           | |- context [?a mod ?b =? 0] => destruct (Z.eqb_spec (a mod b) 0)
           end; simpl; try reflexivity; exfalso;
    Z.div_mod_to_equations; lia.
Qed.

Lemma days_before_year_digits n400 n100 n4 n1 :
  0 <= n100 <= 3 -> 0 <= n4 <= 24 -> 0 <= n1 <= 3 ->
  days_before_year (n400 * 400 + 1 + n100 * 100 + n4 * 4 + n1) =
  n400 * DI400Y + n100 * DI100Y + n4 * DI4Y + n1 * 365.
Proof.
  intros H100 H4 H1. unfold days_before_year, DI400Y, DI100Y, DI4Y.
  replace (n400 * 400 + 1 + n100 * 100 + n4 * 4 + n1 - 1)
    with (n400 * 400 + n100 * 100 + n4 * 4 + n1) by lia.
  Z.div_mod_to_equations. lia.
Qed.

Lemma days_in_month_leap y m : days_in_month y m = dim_l (is_leap y) m.
Proof. reflexivity. Qed.

Lemma days_before_month_leap y m : days_before_month y m = dbm_l (is_leap y) m.
Proof. reflexivity. Qed.

(** [_ord2ymd] inverts [_ymd2ord]: the date it returns is a calendar date
    whose ordinal is the argument. *)
Lemma ord2ymd_sound n :
  1 <= n ->
  let '(y, m, d) := ord2ymd n in
  1 <= y /\ 1 <= m <= 12 /\ 1 <= d <= days_in_month y m /\ ymd2ord y m d = n.
Proof.
  intros Hn. unfold ord2ymd.
  set (n0 := n - 1).
  set (n400 := n0 / DI400Y). set (r400 := n0 mod DI400Y).
  set (n100 := r400 / DI100Y). set (r100 := r400 mod DI100Y).
  set (n4 := r100 / DI4Y). set (r4 := r100 mod DI4Y).
  set (n1 := r4 / 365). set (r1 := r4 mod 365).
  assert (D400 : n0 = DI400Y * n400 + r400 /\ 0 <= r400 < DI400Y)
    by (split; [apply Z.div_mod | apply Z.mod_pos_bound]; now unfold DI400Y).
  assert (D100 : r400 = DI100Y * n100 + r100 /\ 0 <= r100 < DI100Y)
    by (split; [apply Z.div_mod | apply Z.mod_pos_bound]; now unfold DI100Y).
  assert (D4 : r100 = DI4Y * n4 + r4 /\ 0 <= r4 < DI4Y)
    by (split; [apply Z.div_mod | apply Z.mod_pos_bound]; now unfold DI4Y).
  assert (D1 : r4 = 365 * n1 + r1 /\ 0 <= r1 < 365)
    by (split; [apply Z.div_mod | apply Z.mod_pos_bound]; lia).
  clearbody n400 r400 n100 r100 n4 r4 n1 r1.
  assert (Hn0 : 0 <= n0) by (unfold n0; lia).
  assert (Hn' : n = n0 + 1) by (unfold n0; lia).
  clearbody n0. subst n. clear Hn.
  unfold DI400Y, DI100Y, DI4Y in D400, D100, D4.
  assert (B400 : 0 <= n400) by nia.
  assert (B100 : 0 <= n100 <= 4) by nia.
  assert (B4 : 0 <= n4 <= 24) by nia.
  assert (B1 : 0 <= n1 <= 4) by nia.
  destruct (Z.eqb_spec n1 4) as [E1 | E1]; simpl orb.
  - (* last day of a leap year that closes a 4-year cycle *)
    assert (B4' : n4 <= 23 \/ n100 = 3) by lia.
    assert (B100' : n100 <= 3) by lia.
    replace (n400 * 400 + 1 + n100 * 100 + n4 * 4 + n1 - 1)
      with (n400 * 400 + 1 + n100 * 100 + n4 * 4 + 3) by lia.
    unfold ymd2ord.
    rewrite days_in_month_leap, days_before_month_leap,
      is_leap_digits, days_before_year_digits by lia.
    replace ((3 =? 3) && (negb (n4 =? 24) || (n100 =? 3))) with true
      by (destruct (Z.eqb_spec n4 24), (Z.eqb_spec n100 3); simpl; lia).
    unfold DI400Y, DI100Y, DI4Y.
    change (dim_l true 12) with 31. change (dbm_l true 12) with 335. lia.
  - destruct (Z.eqb_spec n100 4) as [E100 | E100].
    + (* last day of a 400-year cycle *)
      replace (n400 * 400 + 1 + n100 * 100 + n4 * 4 + n1 - 1)
        with (n400 * 400 + 1 + 3 * 100 + 24 * 4 + 3) by lia.
      unfold ymd2ord.
      rewrite days_in_month_leap, days_before_month_leap,
        is_leap_digits, days_before_year_digits by lia.
      unfold DI400Y, DI100Y, DI4Y.
      change (dim_l _ 12) with 31. change (dbm_l _ 12) with 335. lia.
    + set (leap := (n1 =? 3) && (negb (n4 =? 24) || (n100 =? 3))).
      pose proof (month_day_spec leap r1) as Hmd.
      destruct (month_day leap r1) as [m d].
      destruct Hmd as (Hm & Hd & Hsum); [destruct leap; simpl; lia |].
      unfold ymd2ord.
      rewrite days_in_month_leap, days_before_month_leap,
        is_leap_digits, days_before_year_digits by lia.
      fold leap. unfold DI400Y, DI100Y, DI4Y. lia.
Qed.

(** Day of the year and year of a timestamp: the ordinal splits into the days
    before its year and a day number between 1 and the length of the year. *)
Lemma year_yday_split t :
  1 <= t ->
  1 <= year_of t /\
  1 <= tm_yday t <= days_in_year (year_of t) /\
  t = days_before_year (year_of t) + tm_yday t.
Proof.
  intros Ht. pose proof (ord2ymd_sound t Ht) as H.
  unfold tm_yday, year_of, month_of, day_of.
  destruct (ord2ymd t) as [[y m] d]. simpl.
  destruct H as (Hy & Hm & Hd & Hord). unfold ymd2ord in Hord.
  assert (Hfit : months_fit (is_leap y) m = true).
  { destruct (is_leap y).
    - apply (forall_range (months_fit true) 1 12); [now vm_compute | lia].
    - apply (forall_range (months_fit false) 1 12); [now vm_compute | lia]. }
  unfold months_fit in Hfit. apply andb_prop in Hfit as [F1 F2].
  rewrite days_in_month_leap in Hd. rewrite days_before_month_leap in *.
  unfold days_in_year. destruct (is_leap y); simpl b2z in *; lia.
Qed.

Lemma tm_yday_range t : 1 <= t -> 1 <= tm_yday t <= 366.
Proof.
  intros Ht. destruct (year_yday_split t Ht) as (_ & H & _).
  pose proof (days_in_year_bounds (year_of t)). lia.
Qed.

(** Two timestamps less than a century (36524 days) apart that agree on the
    day of the year and on the last two digits of the year are equal. *)
Lemma same_yy_yday_within_century t1 t2 :
  1 <= t1 -> 1 <= t2 -> Z.abs (t2 - t1) < 36524 ->
  year_of t1 mod 100 = year_of t2 mod 100 ->
  tm_yday t1 = tm_yday t2 ->
  t1 = t2.
Proof.
  intros H1 H2 Hclose Hyy Hyd.
  destruct (year_yday_split t1 H1) as (Y1 & D1 & E1).
  destruct (year_yday_split t2 H2) as (Y2 & D2 & E2).
  assert (Hy : year_of t1 = year_of t2).
  { destruct (Z.lt_trichotomy (year_of t1) (year_of t2)) as [Hlt | [Heq | Hgt]];
      [exfalso | exact Heq | exfalso].
    - assert (year_of t1 + 100 <= year_of t2) by (Z.div_mod_to_equations; lia).
      pose proof (days_before_year_century _ _ H). lia.
    - assert (year_of t2 + 100 <= year_of t1) by (Z.div_mod_to_equations; lia).
      pose proof (days_before_year_century _ _ H). lia. }
  rewrite E1, E2, Hy, Hyd. reflexivity.
Qed.

End CalendarFacts.

(** ** The fetcher *)

Section FetchFacts.

Variable net : request -> reply.

Lemma bind_ret {A B} (a : A) (k : A -> M B) : bind (ret a) k = k a.
Proof. reflexivity. Qed.

Lemma parameter_values_inv data p w :
  exists out, parameter_values data p w = (out, w) /\
    match out with
    | Return d => exists block, data = ParameterBlock block /\ block !! p = Some d
    | Raise e =>
        match data with
        | NoProperties => e = KeyError "properties"
        | NoParameter => e = KeyError "parameter"
        | ParameterBlock block => e = KeyError p /\ block !! p = None
        end
    end.
Proof.
  destruct data as [| | block]; simpl.
  - eexists; split; [reflexivity |]. reflexivity.
  - eexists; split; [reflexivity |]. reflexivity.
  - destruct (block !! p) as [d |] eqn:E.
    + eexists; split; [reflexivity |]. exists block.
      split; [reflexivity | first [exact E | reflexivity]].
    + eexists; split; [reflexivity |].
      split; [reflexivity | first [exact E | reflexivity]].
Qed.

(** The selection of the parameters: it returns the values of every
    parameter, or raises [KeyError] with the key of the path the body lacks,
    or with the first parameter the block lacks. *)
Lemma select_parameters_inv data ps w :
  exists out, select_parameters data ps w = (out, w) /\
    match out with
    | Return l =>
        l.*1 = ps /\
        Forall (fun kv => match data with
                          | ParameterBlock block => block !! kv.1 = Some kv.2
                          | _ => False
                          end) l
    | Raise e =>
        match data with
        | NoProperties => e = KeyError "properties"
        | NoParameter => e = KeyError "parameter"
        | ParameterBlock block =>
            exists before p after,
              e = KeyError p /\ ps = before ++ p :: after /\
              block !! p = None /\
              Forall (fun q => is_Some (block !! q)) before
        end
    end.
Proof.
  induction ps as [| p ps IH]; simpl.
  - eexists; split; [reflexivity |]. split; [reflexivity | constructor].
  - unfold bind at 1.
    destruct (parameter_values_inv data p w) as (o1 & -> & H1).
    destruct o1 as [d | e1].
    + destruct H1 as (block & -> & E).
      destruct IH as (out & Hrun & Hout). unfold bind. rewrite Hrun.
      destruct out as [l | e].
      * eexists; split; [reflexivity |]. destruct Hout as [K1 K2].
        split; [simpl; rewrite <- K1; reflexivity | constructor; [exact E | exact K2]].
      * eexists; split; [reflexivity |].
        destruct Hout as (before & q & after & -> & -> & Hn & Hb).
        exists (p :: before), q, after. split; [reflexivity |].
        split; [reflexivity |]. split; [exact Hn |].
        constructor; [rewrite E; eauto | exact Hb].
    + eexists; split; [reflexivity |].
      destruct data as [| | block]; [exact H1 | exact H1 |].
      destruct H1 as [-> Hn]. exists [], p, ps. repeat split; auto.
Qed.

Lemma index_to_datetime_inv df w :
  exists out, index_to_datetime df w = (out, w) /\
    match out with
    | Return df' =>
        columns df' = columns df /\
        Forall2 (fun r r' => to_datetime r.1 = Some r'.1 /\ r'.2 = r.2)
                (rows df) (rows df')
    | Raise e => e = ValueError "Unknown datetime string format"
    end.
Proof.
  unfold index_to_datetime.
  destruct (mapM _ (rows df)) as [rs |] eqn:E.
  - eexists; split; [reflexivity |]. split; [reflexivity |]. simpl.
    apply mapM_Some in E. eapply Forall2_impl; [exact E |].
    intros r r' H. simpl in H.
    destruct (to_datetime r.1) as [t |]; simpl in H; [| discriminate].
    injection H as <-. auto.
  - eexists; split; [reflexivity |]. reflexivity.
Qed.

Lemma process_response_inv r lo hi w :
  exists out, process_response r lo hi w = (out, w) /\
    match out with
    | Return None => False
    | Return (Some df) =>
        exists daily df1,
          daily.*1 = parameters /\
          Forall (fun kv => resp_parameter r !! kv.1 = Some kv.2) daily /\
          columns df1 = parameters /\
          Forall2 (fun r r' => to_datetime r.1 = Some r'.1 /\ r'.2 = r.2)
                  (rows (from_dict daily)) (rows df1) /\
          reindex df1 (date_range lo hi) = Some df
    | Raise e =>
        (exists p, e = KeyError p) \/
        e = ValueError "Unknown datetime string format" \/
        e = ValueError "cannot reindex on an axis with duplicate labels"
    end.
Proof.
  unfold process_response, bind.
  destruct (select_parameters_inv (resp_json r) parameters w)
    as (o1 & -> & H1).
  destruct o1 as [daily | e1].
  2:{ eexists; split; [reflexivity |]. simpl. left.
      destruct (resp_json r) as [| | block]; [subst e1; eauto | subst e1; eauto |].
      destruct H1 as (before & q & after & -> & _). eauto. }
  destruct (index_to_datetime_inv (from_dict daily) w) as (o2 & -> & H2).
  destruct o2 as [df | e2].
  2:{ eexists; split; [reflexivity |]. subst e2. simpl. auto. }
  destruct (reindex df (date_range lo hi)) as [df' |] eqn:E;
    (eexists; split; [reflexivity |]); [| simpl; auto].
  destruct H1 as [K1 K2]. destruct H2 as [C2 R2].
  exists daily, df. repeat split; try assumption.
  - unfold resp_parameter. eapply Forall_impl; [exact K2 |].
    intros kv Hkv. simpl in Hkv.
    destruct (resp_json r); [contradiction | contradiction | exact Hkv].
  - rewrite C2. exact K1.
Qed.

Lemma process_response_pure r lo hi w :
  exists out, process_response r lo hi w = (out, w) /\
    match out with
    | Return None => False
    | Return (Some _) => True
    | Raise e => is_RequestException e = None
    end.
Proof.
  destruct (process_response_inv r lo hi w) as (out & Hrun & Hout).
  exists out. split; [exact Hrun |].
  destruct out as [[df |] | e]; [exact I | exact Hout |].
  destruct Hout as [[p ->] | [-> | ->]]; reflexivity.
Qed.

(** The fetcher, once both dates parse and the period check passes: one
    request is issued, and the outcome depends on the reply alone. *)
Lemma fetch_eval lat lon s e sd ed w :
  strptime s = Some sd -> strptime e = Some ed ->
  toordinal ed - toordinal sd <= max_period_days ->
  let rq := request_params lat lon s e in
  get_daily_nasa_power_data net lat lon s e w =
  match net rq with
  | NoResponse err =>
      (Return None, said ("Erro na requisição: " +:+ err) (sent rq w))
  | Response r =>
      if bad_status r then
        (Return None, said ("Erro na requisição: " +:+ status_message r) (sent rq w))
      else process_response r (toordinal sd) (toordinal ed) (sent rq w)
  end.
Proof.
  intros Hs He Hle rq.
  unfold get_daily_nasa_power_data, parse_date. rewrite Hs, He, !bind_ret.
  destruct (Z.gtb_spec (toordinal ed - toordinal sd) max_period_days) as [Hgt | _];
    [lia |].
  change (try_except
            (let* response := requests_get net rq in
             raise_for_status response ;;
             process_response response (toordinal sd) (toordinal ed))
            is_RequestException
            (fun e => print ("Erro na requisição: " +:+ e) ;; ret None) w = 
          match net rq with
          | NoResponse err =>
              (Return None, said ("Erro na requisição: " +:+ err) (sent rq w))
          | Response r =>
              if bad_status r then
                (Return None,
                 said ("Erro na requisição: " +:+ status_message r) (sent rq w))
              else process_response r (toordinal sd) (toordinal ed) (sent rq w)
          end).
  unfold try_except, bind at 1, requests_get. fold (sent rq w).
  destruct (net rq) as [err | r]; [reflexivity |].
  unfold bind at 1, raise_for_status, bad_status, status_message.
  destruct ((400 <=? status_code r) && (status_code r <? 500)) eqn:E4;
    [reflexivity |].
  destruct ((500 <=? status_code r) && (status_code r <? 600)) eqn:E5;
    [reflexivity |].
  cbn [orb ret].
  destruct (process_response_pure r (toordinal sd) (toordinal ed) (sent rq w))
    as (out & -> & Hout).
  destruct out as [[df |] | ex]; [reflexivity | contradiction |].
  now rewrite Hout.
Qed.

(** The outcome of a fetch whose dates parse and whose period passes the
    check: what it returns or raises, and the world it leaves. *)
Lemma fetch_outcome lat lon s e sd ed w :
  strptime s = Some sd -> strptime e = Some ed ->
  toordinal ed - toordinal sd <= max_period_days ->
  let rq := request_params lat lon s e in
  exists out w',
    get_daily_nasa_power_data net lat lon s e w = (out, w') /\
    requests w' = requests w ++ [rq] /\ fs w' = fs w /\
    match out with
    | Return None =>
        (exists err, net rq = NoResponse err /\
           stdout w' = stdout w ++ ["Erro na requisição: " +:+ err]) \/
        (exists r, net rq = Response r /\ bad_status r = true /\
           stdout w' = stdout w ++ ["Erro na requisição: " +:+ status_message r])
    | Return (Some df) =>
        stdout w' = stdout w /\
        exists r daily df1,
          net rq = Response r /\ bad_status r = false /\
          daily.*1 = parameters /\
          Forall (fun kv => resp_parameter r !! kv.1 = Some kv.2) daily /\
          columns df1 = parameters /\
          Forall2 (fun r r' => to_datetime r.1 = Some r'.1 /\ r'.2 = r.2)
                  (rows (from_dict daily)) (rows df1) /\
          reindex df1 (date_range (toordinal sd) (toordinal ed)) = Some df
    | Raise ex =>
        (exists p, ex = KeyError p) \/
        ex = ValueError "Unknown datetime string format" \/
        ex = ValueError "cannot reindex on an axis with duplicate labels"
    end.
Proof.
  intros Hs He Hle rq. rewrite (fetch_eval lat lon s e sd ed w Hs He Hle).
  fold rq. destruct (net rq) as [err | r] eqn:Hnet.
  - do 2 eexists. split; [reflexivity |]. repeat split. left. eauto.
  - destruct (bad_status r) eqn:Hbad.
    + do 2 eexists. split; [reflexivity |]. repeat split. right. eauto.
    + destruct (process_response_inv r (toordinal sd) (toordinal ed) (sent rq w))
        as (out & -> & Hout).
      do 2 eexists. split; [reflexivity |]. repeat split.
      destruct out as [[df |] | ex]; [| contradiction | exact Hout].
      split; [reflexivity |]. destruct Hout as (daily & df1 & Hout).
      exists r, daily, df1. auto.
Qed.

End FetchFacts.


(** ** Frames *)

Section FrameFacts.

Lemma date_range_elem lo hi t : t ∈ date_range lo hi <-> lo <= t <= hi.
Proof. unfold date_range. rewrite elem_of_seqZ. lia. Qed.

Lemma date_range_NoDup lo hi : NoDup (date_range lo hi).
Proof. apply NoDup_seqZ. Qed.

Lemma date_range_lookup lo hi (i : nat) t :
  date_range lo hi !! i = Some t -> t = lo + Z.of_nat i.
Proof. unfold date_range. intros H. apply lookup_seqZ in H. lia. Qed.

Lemma date_range_length lo hi :
  Z.of_nat (length (date_range lo hi)) = Z.max 0 (hi - lo + 1).
Proof. unfold date_range. rewrite length_seqZ. lia. Qed.

Lemma date_range_empty lo hi : hi < lo -> date_range lo hi = [].
Proof.
  intros H. apply length_zero_iff_nil.
  pose proof (date_range_length lo hi). lia.
Qed.

Lemma date_range_sorted lo hi : StronglySorted Z.lt (date_range lo hi).
Proof.
  unfold date_range. generalize (hi - lo + 1). intros len.
  destruct (Z.le_gt_cases len 0) as [Hle | Hgt].
  { replace (seqZ lo len) with (@nil Z); [constructor |].
    symmetry. apply length_zero_iff_nil. rewrite length_seqZ. lia. }
  rewrite <- (Z2Nat.id len) by lia. generalize (Z.to_nat len). clear.
  intros n. revert lo. induction n as [| n IH]; intros lo.
  - constructor.
  - rewrite Nat2Z.inj_succ, seqZ_cons by lia.
    replace (Z.pred (Z.succ (Z.of_nat n))) with (Z.of_nat n) by lia.
    constructor; [apply IH |].
    apply Forall_forall. intros t Ht. apply elem_of_seqZ in Ht. lia.
Qed.

(** Reindexing gives exactly the requested index; a requested label the frame
    lacks gets a row of NaN. *)
Lemma reindex_inv df idx df' :
  reindex df idx = Some df' ->
  columns df' = columns df /\
  index df' = idx /\
  forall t row, (t, row) ∈ rows df' ->
    (t, row) ∈ rows df \/
    ((t ∉ index df) /\ row = replicate (length (columns df)) None).
Proof.
  unfold reindex. destruct (has_dupb (index df)); [discriminate |].
  intros [= <-]. simpl. split; [reflexivity |]. split.
  - unfold index. simpl. rewrite <- list_fmap_compose. apply list_fmap_id.
  - intros t row Hin. apply list_elem_of_fmap in Hin as (t' & [= -> ->] & _).
    destruct (List.find _ (rows df)) as [r |] eqn:E.
    + left. apply find_some in E as [Hr Ht]. apply Z.eqb_eq in Ht.
      apply list_elem_of_In in Hr. destruct r as [t0 row0]. simpl in *.
      now subst t0.
    + right. split; [| reflexivity]. intros Hidx.
      apply list_elem_of_fmap in Hidx as (r & -> & Hr).
      apply list_elem_of_In in Hr.
      pose proof (find_none _ _ E r Hr) as Hn. simpl in Hn. lia.
Qed.

Lemma from_dict_key daily k row :
  (k, row) ∈ rows (from_dict daily) ->
  exists kv, kv ∈ daily /\ is_Some (kv.2 !! k).
Proof.
  unfold from_dict. simpl. intros Hin.
  apply list_elem_of_fmap in Hin as (k' & [= -> _] & Hk).
  apply elem_of_elements, elem_of_union_list in Hk as (X & HX & Hk).
  apply list_elem_of_fmap in HX as (kv & -> & Hkv).
  exists kv. split; [exact Hkv |]. now apply elem_of_dom.
Qed.

End FrameFacts.

(** ** Dates and their tokens *)

Section TokenFacts.

Lemma yday_fits y m d :
  1 <= m <= 12 -> 1 <= d <= days_in_month y m ->
  1 <= days_before_month y m + d <= days_in_year y.
Proof.
  intros Hm Hd.
  assert (Hfit : months_fit (is_leap y) m = true).
  { destruct (is_leap y).
    - apply (forall_range (months_fit true) 1 12); [now vm_compute | lia].
    - apply (forall_range (months_fit false) 1 12); [now vm_compute | lia]. }
  unfold months_fit in Hfit. apply andb_prop in Hfit as [F1 F2].
  rewrite days_in_month_leap in Hd. rewrite days_before_month_leap.
  unfold days_in_year. destruct (is_leap y); simpl b2z in *; lia.
Qed.

Lemma months_apart leap m1 m2 :
  1 <= m1 <= 12 -> 1 <= m2 <= 12 -> m1 < m2 ->
  dbm_l leap m1 + dim_l leap m1 <= dbm_l leap m2.
Proof.
  intros H1 H2 Hlt.
  assert (Hrow : months_ordered leap m1 = true).
  { destruct leap.
    - apply (forall_range (months_ordered true) 1 12); [now vm_compute | lia].
    - apply (forall_range (months_ordered false) 1 12); [now vm_compute | lia]. }
  unfold months_ordered in Hrow.
  pose proof (forall_range _ 1 12 Hrow m2 ltac:(lia)) as H. simpl in H.
  apply orb_prop in H as [H | H]; lia.
Qed.

Lemma ymd2ord_inj y1 m1 d1 y2 m2 d2 :
  1 <= m1 <= 12 -> 1 <= d1 <= days_in_month y1 m1 ->
  1 <= m2 <= 12 -> 1 <= d2 <= days_in_month y2 m2 ->
  ymd2ord y1 m1 d1 = ymd2ord y2 m2 d2 ->
  (y1, m1, d1) = (y2, m2, d2).
Proof.
  intros Hm1 Hd1 Hm2 Hd2 Heq. unfold ymd2ord in Heq.
  pose proof (yday_fits y1 m1 d1 Hm1 Hd1) as F1.
  pose proof (yday_fits y2 m2 d2 Hm2 Hd2) as F2.
  assert (Hy : y1 = y2).
  { destruct (Z.lt_trichotomy y1 y2) as [Hlt | [Hy | Hgt]]; [exfalso | exact Hy | exfalso].
    - pose proof (days_before_year_succ y1).
      pose proof (days_before_year_mono (y1 + 1) y2 ltac:(lia)). lia.
    - pose proof (days_before_year_succ y2).
      pose proof (days_before_year_mono (y2 + 1) y1 ltac:(lia)). lia. }
  subst y2.
  rewrite days_in_month_leap in Hd1, Hd2. rewrite !days_before_month_leap in Heq.
  assert (Hm : m1 = m2).
  { destruct (Z.lt_trichotomy m1 m2) as [Hlt | [Hm | Hgt]]; [exfalso | exact Hm | exfalso].
    - pose proof (months_apart (is_leap y1) m1 m2 Hm1 Hm2 Hlt). lia.
    - pose proof (months_apart (is_leap y1) m2 m1 Hm2 Hm1 ltac:(lia)). lia. }
  subst m2. f_equal. lia.
Qed.

(** [_ord2ymd] after [_ymd2ord] is the identity on calendar dates. *)
Lemma ord2ymd_ymd2ord y m d :
  1 <= y -> 1 <= m <= 12 -> 1 <= d <= days_in_month y m ->
  ord2ymd (ymd2ord y m d) = (y, m, d).
Proof.
  intros Hy Hm Hd.
  assert (Hpos : 1 <= ymd2ord y m d).
  { unfold ymd2ord. pose proof (yday_fits y m d Hm Hd).
    pose proof (days_before_year_mono 1 y Hy).
    change (days_before_year 1) with 0 in *. lia. }
  pose proof (ord2ymd_sound _ Hpos) as H.
  destruct (ord2ymd (ymd2ord y m d)) as [[y' m'] d'].
  destruct H as (_ & Hm' & Hd' & Heq).
  now apply ymd2ord_inj.
Qed.

Lemma format_two_digits n :
  0 <= n < 100 ->
  format_0d 2 n = string_of_list_ascii [digit (n / 10); digit (n mod 10)].
Proof.
  intros Hn. apply String.eqb_eq.
  apply (forall_range two_digit_ok 0 100); [now vm_compute | lia].
Qed.

Lemma format_three_digits n :
  0 <= n < 1000 ->
  format_0d 3 n =
  string_of_list_ascii [digit (n / 100); digit (n / 10 mod 10); digit (n mod 10)].
Proof.
  intros Hn. apply String.eqb_eq.
  apply (forall_range three_digit_ok 0 1000); [now vm_compute | lia].
Qed.

Lemma digit_inj a b : 0 <= a < 10 -> 0 <= b < 10 -> digit a = digit b -> a = b.
Proof.
  intros Ha Hb Heq.
  pose proof (forall_range digit_code_ok 0 10 ltac:(now vm_compute) a ltac:(lia)) as Ca.
  pose proof (forall_range digit_code_ok 0 10 ltac:(now vm_compute) b ltac:(lia)) as Cb.
  unfold digit_code_ok in *. rewrite Heq in Ca. lia.
Qed.

(** The token of a timestamp is the five digits the spec describes. *)
Lemma dssat_date_digits t :
  1 <= t -> dssat_date t = yy_ddd (year_of t) (tm_yday t).
Proof.
  intros Ht. unfold dssat_date, yy_ddd.
  pose proof (tm_yday_range t Ht) as Hyd.
  rewrite format_two_digits by (apply Z.mod_pos_bound; lia).
  rewrite format_three_digits by lia. reflexivity.
Qed.

Lemma yy_ddd_length y yd : String.length (yy_ddd y yd) = 5%nat.
Proof. reflexivity. Qed.

Lemma yy_ddd_inj y1 yd1 y2 yd2 :
  0 <= yd1 < 1000 -> 0 <= yd2 < 1000 ->
  yy_ddd y1 yd1 = yy_ddd y2 yd2 ->
  y1 mod 100 = y2 mod 100 /\ yd1 = yd2.
Proof.
  intros H1 H2 Heq. unfold yy_ddd in Heq. simpl in Heq.
  injection Heq as E1 E2 E3 E4 E5.
  pose proof (Z.mod_pos_bound y1 100 ltac:(lia)) as B1.
  pose proof (Z.mod_pos_bound y2 100 ltac:(lia)) as B2.
  apply digit_inj in E1; [| Z.div_mod_to_equations; lia ..].
  apply digit_inj in E2; [| Z.div_mod_to_equations; lia ..].
  apply digit_inj in E3; [| Z.div_mod_to_equations; lia ..].
  apply digit_inj in E4; [| Z.div_mod_to_equations; lia ..].
  apply digit_inj in E5; [| Z.div_mod_to_equations; lia ..].
  split; Z.div_mod_to_equations; lia.
Qed.

(** Timestamps less than a century apart have different tokens. *)
Lemma dssat_date_inj_within_century t1 t2 :
  1 <= t1 -> 1 <= t2 -> Z.abs (t2 - t1) < 36524 ->
  dssat_date t1 = dssat_date t2 -> t1 = t2.
Proof.
  intros H1 H2 Hclose Heq.
  rewrite !dssat_date_digits in Heq by assumption.
  pose proof (tm_yday_range t1 H1). pose proof (tm_yday_range t2 H2).
  apply yy_ddd_inj in Heq as [Hy Hd]; [| lia ..].
  now apply same_yy_yday_within_century.
Qed.

End TokenFacts.

(** C5. The date token of every calendar date is exactly five characters: the
    two digits of the year modulo 100 followed by the three digits, zero
    padded, of the ordinal day of the year; 2020-03-05 gives 20065 and
    2020-01-01 gives 20001. *)
Theorem dssat_date_is_yy_ddd y m d :
  valid_ymd y m d ->
  let t := ymd2ord y m d in
  year_of t = y /\ tm_yday t = days_before_month y m + d /\
  1 <= tm_yday t <= 366 /\
  String.length (dssat_date t) = 5%nat /\
  dssat_date t = yy_ddd y (days_before_month y m + d) /\
  dssat_date (ymd2ord 2020 3 5) = "20065"%string /\
  dssat_date (ymd2ord 2020 1 1) = "20001"%string.
Proof.
  intros (Hy & Hm & Hd) t.
  assert (Hrt : ord2ymd t = (y, m, d)) by (apply ord2ymd_ymd2ord; lia).
  assert (Hyear : year_of t = y) by (unfold year_of; now rewrite Hrt).
  assert (Hyday : tm_yday t = days_before_month y m + d)
    by (unfold tm_yday, year_of, month_of, day_of; now rewrite Hrt).
  assert (Ht : 1 <= t).
  { unfold t, ymd2ord. pose proof (yday_fits y m d Hm Hd).
    pose proof (days_before_year_mono 1 y ltac:(lia)).
    change (days_before_year 1) with 0 in *. lia. }
  pose proof (tm_yday_range t Ht) as Hrange.
  pose proof (dssat_date_digits t Ht) as Hdig. rewrite Hyear, Hyday in Hdig.
  repeat split; try assumption; try lia.
  rewrite Hdig. apply yy_ddd_length.
Qed.

(** ** Claims about the fetcher *)

(** C1. For a valid interval of at most 30 years, a fetch that succeeds
    returns a series whose dates are exactly the inclusive calendar range from
    the start date to the end date, in ascending order, with no duplicate and
    no gap, whatever dates the service returned; a date of the range that the
    service did not return has a row of seven missing fields. *)
Theorem fetch_index_is_full_range net lat lon s e sd ed w df w' :
  strptime s = Some sd -> strptime e = Some ed ->
  toordinal sd <= toordinal ed ->
  toordinal ed - toordinal sd <= max_period_days ->
  get_daily_nasa_power_data net lat lon s e w = (Return (Some df), w') ->
  index df = date_range (toordinal sd) (toordinal ed) /\
  (forall t, t ∈ index df <-> toordinal sd <= t <= toordinal ed) /\
  StronglySorted Z.lt (index df) /\
  NoDup (index df) /\
  (forall (i : nat) t, index df !! i = Some t -> t = toordinal sd + Z.of_nat i) /\
  Z.of_nat (length (index df)) = toordinal ed - toordinal sd + 1 /\
  columns df = parameters /\
  (forall r t row,
      net (request_params lat lon s e) = Response r ->
      (t, row) ∈ rows df -> ~ served r t ->
      row = replicate 7 None).
Proof.
  intros Hs He Hord Hle Hrun.
  destruct (fetch_outcome net lat lon s e sd ed w Hs He Hle)
    as (out & w1 & Hrun' & _ & _ & Hout).
  rewrite Hrun in Hrun'. injection Hrun' as <- <-.
  destruct Hout as (_ & r & daily & df1 & Hnet & _ & Hkeys & Hblock & Hcols & Hrows & Hre).
  apply reindex_inv in Hre as (Hc & Hidx & Hrow).
  rewrite Hidx.
  split; [reflexivity |].
  split; [intros t; apply date_range_elem |].
  split; [apply date_range_sorted |].
  split; [apply date_range_NoDup |].
  split; [intros i t; apply date_range_lookup |].
  split; [rewrite date_range_length; lia |].
  split; [congruence |].
  intros r' t row Hnet' Hin Habs.
  rewrite Hnet in Hnet'. injection Hnet' as <-.
  destruct (Hrow t row Hin) as [Hold | [_ ->]].
  - exfalso. apply Habs.
    apply list_elem_of_lookup in Hold as [i Hi].
    destruct (Forall2_lookup_r _ _ _ _ _ Hrows Hi) as ([k row0] & Hk & Hparse & _).
    simpl in Hparse.
    apply list_elem_of_lookup_2, from_dict_key in Hk as ([p d] & Hkv & Hsome).
    rewrite Forall_forall in Hblock. specialize (Hblock _ Hkv). simpl in *.
    exists p, d, k. repeat split; try assumption.
    rewrite <- Hkeys. apply list_elem_of_fmap. exists (p, d). auto.
  - rewrite Hcols. reflexivity.
Qed.

(** C3. For two parseable dates, a period of more than 30 years (10950 days)
    makes the fetch raise the validation error with the world untouched, so
    that no request is issued; a period within the bound does not raise it,
    and the request is issued. *)
Theorem period_check_before_network net lat lon s e sd ed w :
  strptime s = Some sd -> strptime e = Some ed ->
  max_period_days = 10950 /\
  (max_period_days < toordinal ed - toordinal sd ->
   get_daily_nasa_power_data net lat lon s e w =
     (Raise (ValueError "maximum period is 30 years"), w)) /\
  (toordinal ed - toordinal sd <= max_period_days ->
   exists out w',
     get_daily_nasa_power_data net lat lon s e w = (out, w') /\
     out <> Raise (ValueError "maximum period is 30 years") /\
     requests w' = requests w ++ [request_params lat lon s e]).
Proof.
  intros Hs He. split; [reflexivity |]. split.
  - intros Hgt.
    unfold get_daily_nasa_power_data, parse_date. rewrite Hs, He, !bind_ret.
    destruct (Z.gtb_spec (toordinal ed - toordinal sd) max_period_days); [reflexivity | lia].
  - intros Hle.
    destruct (fetch_outcome net lat lon s e sd ed w Hs He Hle)
      as (out & w1 & Hrun & Hreq & _ & Hout).
    exists out, w1. split; [exact Hrun |]. split; [| exact Hreq].
    destruct out as [o | ex]; [discriminate |].
    destruct Hout as [[p ->] | [-> | ->]]; discriminate.
Qed.

(** C7. When the transport fails, or the response carries a 4xx or 5xx
    status, the fetch returns the null result instead of raising, prints one
    diagnostic line, and has issued exactly one request: there is no retry. *)
Theorem transport_failure_returns_none net lat lon s e sd ed w :
  strptime s = Some sd -> strptime e = Some ed ->
  toordinal ed - toordinal sd <= max_period_days ->
  soft_failure (net (request_params lat lon s e)) ->
  exists w' diagnostic,
    get_daily_nasa_power_data net lat lon s e w = (Return None, w') /\
    requests w' = requests w ++ [request_params lat lon s e] /\
    stdout w' = stdout w ++ [diagnostic] /\
    fs w' = fs w.
Proof.
  intros Hs He Hle Hfail.
  rewrite (fetch_eval net lat lon s e sd ed w Hs He Hle).
  destruct Hfail as [[err ->] | (r & -> & ->)];
    do 2 eexists; (split; [reflexivity |]); repeat split.
Qed.

(** C10. Nothing checks that the start date is not after the end date: for
    two parseable dates with the start later than the end, the validation
    error is not raised and the request is issued; the date range is then
    empty and a series the fetch returns has no row. *)
Theorem reversed_interval_not_rejected net lat lon s e sd ed w :
  strptime s = Some sd -> strptime e = Some ed ->
  toordinal ed < toordinal sd ->
  exists out w',
    get_daily_nasa_power_data net lat lon s e w = (out, w') /\
    out <> Raise (ValueError "maximum period is 30 years") /\
    requests w' = requests w ++ [request_params lat lon s e] /\
    date_range (toordinal sd) (toordinal ed) = [] /\
    (forall df, out = Return (Some df) -> rows df = [] /\ columns df = parameters).
Proof.
  intros Hs He Hrev.
  assert (Hle : toordinal ed - toordinal sd <= max_period_days)
    by (unfold max_period_days; lia).
  destruct (fetch_outcome net lat lon s e sd ed w Hs He Hle)
    as (out & w1 & Hrun & Hreq & _ & Hout).
  exists out, w1. split; [exact Hrun |]. split.
  { destruct out as [o | ex]; [discriminate |].
    destruct Hout as [[p ->] | [-> | ->]]; discriminate. }
  split; [exact Hreq |].
  split; [now apply date_range_empty |].
  intros df ->.
  destruct Hout as (_ & r & daily & df1 & _ & _ & _ & _ & Hcols & _ & Hre).
  apply reindex_inv in Hre as (Hc & Hidx & _).
  rewrite date_range_empty in Hidx by lia.
  split; [| congruence].
  unfold index in Hidx. now apply fmap_nil_inv in Hidx.
Qed.

(** ** Paths and the file system *)

Section PathFacts.

Lemma string_app_assoc (a b c : string) : (a +:+ b) +:+ c = a +:+ (b +:+ c).
Proof.
  induction a as [| x a IH]; [reflexivity |].
  change (String x ((a +:+ b) +:+ c) = String x (a +:+ (b +:+ c))).
  now rewrite IH.
Qed.

Lemma split_slash_cons s : exists h t, split_slash s = h :: t.
Proof.
  induction s as [| c s (h & t & IH)]; simpl; [eauto |].
  destruct (Ascii.eqb c "/"); [eauto |]. rewrite IH. eauto.
Qed.

Lemma split_slash_app a b :
  split_slash (a +:+ String "/" b) = split_slash a ++ split_slash b.
Proof.
  induction a as [| c a IH]; [reflexivity |].
  change (split_slash (String c (a +:+ String "/" b)) =
          split_slash (String c a) ++ split_slash b).
  cbn [split_slash]. rewrite IH.
  destruct (Ascii.eqb c "/"); [reflexivity |].
  destruct (split_slash_cons a) as (h & t & ->). reflexivity.
Qed.

Lemma split_slash_no_slash s : no_slash s = true -> split_slash s = [s].
Proof.
  unfold no_slash. induction s as [| c s IH]; [reflexivity |].
  cbn [list_ascii_of_string forallb split_slash]. intros H.
  apply andb_true_iff in H as [H1 H2].
  destruct (Ascii.eqb c "/"); [discriminate |]. now rewrite IH.
Qed.

Lemma no_slash_app a b : no_slash (a +:+ b) = no_slash a && no_slash b.
Proof.
  unfold no_slash. induction a as [| c a IH]; [reflexivity |].
  change (list_ascii_of_string (String c a +:+ b))
    with (c :: list_ascii_of_string (a +:+ b)).
  cbn [list_ascii_of_string forallb]. rewrite IH. now rewrite andb_assoc.
Qed.

Lemma no_slash_output_name site :
  no_slash site = true -> no_slash (output_name site) = true.
Proof.
  intros H. unfold output_name. rewrite !no_slash_app, H. reflexivity.
Qed.

Lemma is_name_output_name site :
  is_name (output_name site) = true /\
  String.eqb (output_name site) ".." = false /\
  String.eqb (output_name site) "/" = false.
Proof. repeat split. Qed.

Lemma ends_with_slash_inv s :
  ends_with_slash s = true -> exists s', s = s' +:+ "/".
Proof.
  unfold ends_with_slash. induction s as [| c s IH]; [discriminate |].
  cbn [list_ascii_of_string]. destruct s as [| c' s].
  - simpl. intros H. apply Ascii.eqb_eq in H as ->. now exists ""%string.
  - intros H. destruct IH as (s' & Hs'); [exact H |].
    exists (String c s').
    change (String c (String c' s) = String c (s' +:+ "/")). now rewrite <- Hs'.
Qed.

Lemma absolute_app a b : a <> ""%string -> absolute (a +:+ b) = absolute a.
Proof. destruct a; [contradiction | reflexivity]. Qed.

(** The components of the path of the output file: those of the folder, then
    those of the file name. *)
Lemma components_output folder site :
  folder <> ""%string ->
  let path := path_join folder (output_name site) in
  components path =
    components folder ++ List.filter is_name (split_slash (output_name site)) /\
  last (split_slash path) = last (split_slash (output_name site)) /\
  path <> ""%string.
Proof.
  intros Hne path.
  assert (Hpath : path = if ends_with_slash folder
                         then folder +:+ output_name site
                         else folder +:+ String "/" (output_name site)).
  { unfold path, path_join. destruct (String.eqb_spec folder ""); [contradiction |].
    reflexivity. }
  assert (Hlast : forall l, last (l ++ split_slash (output_name site))
                            = last (split_slash (output_name site))).
  { intros l. rewrite last_app.
    destruct (split_slash_cons (output_name site)) as (h & t & ->).
    destruct (last (h :: t)) eqn:E; [reflexivity |].
    apply last_None in E. discriminate. }
  clearbody path.
  destruct (ends_with_slash folder) eqn:E.
  - destruct (ends_with_slash_inv folder E) as (f' & Hf).
    assert (Hp : path = f' +:+ String "/" (output_name site)).
    { rewrite Hpath, Hf, string_app_assoc. reflexivity. }
    assert (Hsplit : split_slash folder = split_slash f' ++ [""%string]).
    { rewrite Hf. change (f' +:+ "/") with (f' +:+ String "/" "").
      now rewrite split_slash_app. }
    split; [| split].
    + unfold components. rewrite Hpath at 1. rewrite absolute_app by exact Hne.
      rewrite Hp, split_slash_app, Hsplit, !List.filter_app.
      cbn [List.filter]. change (is_name "") with false. rewrite app_nil_r.
      now rewrite app_assoc.
    + rewrite Hp, split_slash_app. apply Hlast.
    + rewrite Hp. destruct f'; discriminate.
  - split; [| split].
    + unfold components. rewrite Hpath at 1. rewrite absolute_app by exact Hne.
      rewrite Hpath, split_slash_app, !List.filter_app.
      now rewrite app_assoc.
    + rewrite Hpath, split_slash_app. apply Hlast.
    + rewrite Hpath. destruct folder; [contradiction | discriminate].
Qed.

(** With a site code that has no slash, the output file is directly inside
    the output folder. *)
Lemma components_join folder site :
  folder <> ""%string -> no_slash site = true ->
  let path := path_join folder (output_name site) in
  components path = components folder ++ [output_name site] /\
  last (split_slash path) = Some (output_name site) /\
  path <> ""%string.
Proof.
  intros Hne Hsite path.
  destruct (components_output folder site Hne) as (Hc & Hl & Hp).
  fold path in Hc, Hl, Hp.
  rewrite (split_slash_no_slash _ (no_slash_output_name site Hsite)) in Hc, Hl.
  cbn [List.filter] in Hc. rewrite (proj1 (is_name_output_name site)) in Hc.
  auto.
Qed.

(** With a site code [a/b], the output file is inside a directory of the
    output folder. *)
Lemma components_nested folder (a b : string) :
  folder <> ""%string -> no_slash a = true -> no_slash b = true ->
  let path := path_join folder (output_name (a +:+ "/" +:+ b)) in
  components path = (components folder ++ ["W" +:+ a]) ++ [b +:+ "01.WTH"] /\
  names_file path = true /\
  path <> ""%string.
Proof.
  intros Hne Ha Hb path.
  destruct (components_output folder (a +:+ "/" +:+ b) Hne) as (Hc & Hl & Hp).
  fold path in Hc, Hl, Hp.
  assert (Hname : output_name (a +:+ "/" +:+ b)
                  = ("W" +:+ a) +:+ String "/" (b +:+ "01.WTH")).
  { unfold output_name.
    change ("W" +:+ (a +:+ "/" +:+ b) +:+ "01.WTH")
      with (String "W" ((a +:+ String "/" b) +:+ "01.WTH")).
    rewrite string_app_assoc. reflexivity. }
  assert (Hsplit : split_slash (output_name (a +:+ "/" +:+ b))
                   = ["W" +:+ a; b +:+ "01.WTH"]).
  { rewrite Hname, split_slash_app.
    rewrite (split_slash_no_slash ("W" +:+ a))
      by (rewrite no_slash_app, Ha; reflexivity).
    rewrite (split_slash_no_slash (b +:+ "01.WTH"))
      by (rewrite no_slash_app, Hb; reflexivity).
    reflexivity. }
  assert (Hfile : is_name (b +:+ "01.WTH") = true /\
                  String.eqb (b +:+ "01.WTH") ".." = false).
  { assert (Hlen : (6 <= String.length (b +:+ "01.WTH"))%nat).
    { clear. induction b as [| c b IH]; simpl; lia. }
    unfold is_name.
    destruct (String.eqb_spec (b +:+ "01.WTH") "") as [E | _];
      [rewrite E in Hlen; simpl in Hlen; lia |].
    destruct (String.eqb_spec (b +:+ "01.WTH") ".") as [E | _];
      [rewrite E in Hlen; simpl in Hlen; lia |].
    destruct (String.eqb_spec (b +:+ "01.WTH") "..") as [E | _];
      [rewrite E in Hlen; simpl in Hlen; lia |].
    split; reflexivity. }
  rewrite Hsplit in Hc, Hl. cbn [List.filter] in Hc.
  change (is_name ("W" +:+ a)) with true in Hc.
  rewrite (proj1 Hfile) in Hc.
  split; [rewrite Hc; now rewrite <- app_assoc |]. split; [| exact Hp].
  unfold names_file. rewrite Hl. cbn [last]. rewrite (proj1 Hfile), (proj2 Hfile).
  reflexivity.
Qed.

Lemma always_dir_snoc p c : always_dir (p ++ [c]) = true -> p = [] /\ c = "/"%string.
Proof.
  destruct p as [| a [| b p]]; simpl.
  - intros H. apply String.eqb_eq in H. auto.
  - discriminate.
  - destruct (p ++ [c]); discriminate.
Qed.

Lemma node_at_insert_ne (t : tree) p q v :
  p <> q -> node_at (<[p := v]> t) q = node_at t q.
Proof.
  intros H. unfold node_at. destruct (always_dir q); [reflexivity |].
  now rewrite lookup_insert_ne.
Qed.

Lemma node_at_insert (t : tree) p v :
  always_dir p = false -> node_at (<[p := v]> t) p = Some v.
Proof. intros H. unfold node_at. rewrite H. apply lookup_insert_eq. Qed.

Lemma node_at_None (t : tree) p : node_at t p = None -> always_dir p = false /\ t !! p = None.
Proof. unfold node_at. destruct (always_dir p); [discriminate | auto]. Qed.

Lemma node_at_eq (t t' : tree) p : t' !! p = t !! p -> node_at t' p = node_at t p.
Proof. unfold node_at. now intros ->. Qed.

Lemma snoc_take {A} (above : list A) c below k :
  (above ++ [c]) ++ take k below = above ++ take (S k) (c :: below).
Proof. now rewrite <- app_assoc. Qed.

Lemma snoc_take_ne {A} (above : list A) c below k :
  above ++ [c] <> (above ++ [c]) ++ take (S k) below \/ below = [].
Proof.
  destruct below as [| b below]; [now right |]. left.
  intros H. apply (f_equal length) in H. rewrite !length_app in H.
  simpl in H. lia.
Qed.



(** What the walk of [os.makedirs] leaves: every entry is kept, and the new
    entries are directories on the way. *)
Lemma make_chain_grows below : forall above t t',
  make_chain above below t = Return t' ->
  forall p, t' !! p = t !! p \/
            (t !! p = None /\ t' !! p = Some Dir /\
             exists k, (0 < k <= length below)%nat /\ p = above ++ take k below).
Proof.
  induction below as [| c below IH]; intros above t t' Hrun p.
  - injection Hrun as <-. now left.
  - cbn [make_chain] in Hrun.
    destruct (node_at t (above ++ [c])) as [[| content] |] eqn:E;
      [| discriminate |].
    + destruct (IH _ _ _ Hrun p) as [H | (H1 & H2 & k & Hk & ->)]; [now left |].
      right. split; [exact H1 |]. split; [exact H2 |].
      exists (S k). split; [simpl; lia | apply snoc_take].
    + apply node_at_None in E as [_ E].
      destruct (decide (p = above ++ [c])) as [-> | Hp].
      * destruct (IH _ _ _ Hrun (above ++ [c])) as [H | (H1 & _)].
        -- right. split; [exact E |]. rewrite H, lookup_insert_eq.
           split; [reflexivity |]. exists 1%nat. split; [simpl; lia |].
           simpl. now rewrite take_0.
        -- rewrite lookup_insert_eq in H1. discriminate.
      * destruct (IH _ _ _ Hrun p) as [H | (H1 & H2 & k & Hk & ->)].
        -- left. rewrite H. now apply lookup_insert_ne.
        -- right. rewrite lookup_insert_ne in H1 by congruence.
           split; [exact H1 |]. split; [exact H2 |].
           exists (S k). split; [simpl; lia | apply snoc_take].
Qed.

(** The walk stops exactly on a regular file. *)
Lemma make_chain_ok below : forall above t,
  (forall k c, (0 < k <= length below)%nat ->
               node_at t (above ++ take k below) <> Some (File c)) ->
  exists t', make_chain above below t = Return t' /\
    forall k, (0 < k <= length below)%nat ->
              node_at t' (above ++ take k below) = Some Dir.
Proof.
  induction below as [| c below IH]; intros above t Hfree.
  - exists t. split; [reflexivity |]. simpl. lia.
  - cbn [make_chain].
    assert (H1 : forall content, node_at t (above ++ [c]) <> Some (File content)).
    { intros content. specialize (Hfree 1%nat content). simpl in Hfree.
      rewrite take_0 in Hfree. apply Hfree. lia. }
    assert (Hdeep : forall t1, (forall q, q <> above ++ [c] -> node_at t1 q = node_at t q) ->
              exists t', make_chain (above ++ [c]) below t1 = Return t' /\
                forall k, (0 < k <= length below)%nat ->
                          node_at t' ((above ++ [c]) ++ take k below) = Some Dir).
    { intros t1 Ht1. apply IH. intros k content Hk.
      rewrite Ht1.
      - rewrite snoc_take. apply Hfree. simpl. lia.
      - intros H. apply (f_equal length) in H. rewrite !length_app in H.
        rewrite length_take in H. simpl in H. lia. }
    assert (Hfinish : forall t1, node_at t1 (above ++ [c]) = Some Dir ->
              (forall q, q <> above ++ [c] -> node_at t1 q = node_at t q) ->
              exists t', make_chain (above ++ [c]) below t1 = Return t' /\
                forall k, (0 < k <= length (c :: below))%nat ->
                          node_at t' (above ++ take k (c :: below)) = Some Dir).
    { intros t1 Hdir Ht1. destruct (Hdeep t1 Ht1) as (t' & Hrun & Hdirs).
      exists t'. split; [exact Hrun |]. intros k Hk.
      destruct k as [| k]; [lia |]. rewrite <- snoc_take.
      destruct k as [| k].
      - rewrite take_0, app_nil_r.
        destruct (make_chain_grows _ _ _ _ Hrun (above ++ [c])) as [H | (H1' & H2 & _)].
        + rewrite (node_at_eq _ _ _ H). exact Hdir.
        + unfold node_at. rewrite H2. now destruct (always_dir _).
      - apply Hdirs. simpl in Hk. lia. }
    destruct (node_at t (above ++ [c])) as [[| content] |] eqn:E.
    + apply Hfinish; [exact E | reflexivity].
    + now destruct (H1 content).
    + apply node_at_None in E as [Hnd E]. apply Hfinish.
      * now apply node_at_insert.
      * intros q Hq. apply node_at_insert_ne. congruence.
Qed.

Lemma make_chain_raise below : forall above t e,
  make_chain above below t = Raise e ->
  exists k c, (0 < k <= length below)%nat /\
              node_at t (above ++ take k below) = Some (File c).
Proof.
  induction below as [| c below IH]; intros above t e Hrun; [discriminate |].
  cbn [make_chain] in Hrun.
  assert (Hdeep : forall t1, (forall q, q <> above ++ [c] -> node_at t1 q = node_at t q) ->
            make_chain (above ++ [c]) below t1 = Raise e ->
            exists k c0, (0 < k <= length (c :: below))%nat /\
                         node_at t (above ++ take k (c :: below)) = Some (File c0)).
  { intros t1 Ht1 H. destruct (IH _ _ _ H) as (k & c0 & Hk & Hfile).
    exists (S k), c0. split; [simpl; lia |]. rewrite <- snoc_take, <- Ht1; [exact Hfile |].
    intros Heq. apply (f_equal length) in Heq. rewrite !length_app in Heq.
    rewrite length_take in Heq. simpl in Heq. lia. }
  destruct (node_at t (above ++ [c])) as [[| content] |] eqn:E.
  - apply (Hdeep t); [reflexivity | exact Hrun].
  - exists 1%nat, content. split; [simpl; lia |]. simpl. now rewrite take_0.
  - apply (Hdeep (<[above ++ [c] := Dir]> t)); [| exact Hrun].
    intros q Hq. apply node_at_insert_ne. congruence.
Qed.

(** The walk stops on the first regular file on the way, with the error of
    [os.mkdir] at that point. *)
Lemma make_chain_first_file below : forall above t (k : nat) c,
  (0 < k <= length below)%nat ->
  node_at t (above ++ take k below) = Some (File c) ->
  (forall j c', (0 < j < k)%nat ->
                node_at t (above ++ take j below) <> Some (File c')) ->
  make_chain above below t =
  Raise (OSError (if (k =? length below)%nat then "FileExistsError"
                  else "NotADirectoryError")).
Proof.
  induction below as [| c0 below IH]; intros above t k c Hk Hfile Hfirst;
    [simpl in Hk; lia |].
  cbn [make_chain]. destruct k as [| k]; [lia |].
  destruct k as [| k].
  - simpl in Hfile. rewrite take_0 in Hfile. rewrite Hfile.
    destruct below; reflexivity.
  - assert (Hhere : forall c', node_at t (above ++ [c0]) <> Some (File c')).
    { intros c'. specialize (Hfirst 1%nat c'). simpl in Hfirst.
      rewrite take_0 in Hfirst. apply Hfirst. lia. }
    assert (Hdeep : forall t1,
              (forall q, q <> above ++ [c0] -> node_at t1 q = node_at t q) ->
              make_chain (above ++ [c0]) below t1 =
              Raise (OSError (if (S (S k) =? length (c0 :: below))%nat
                              then "FileExistsError" else "NotADirectoryError"))).
    { intros t1 Ht1.
      assert (Hne : forall j, above ++ [c0] <> (above ++ [c0]) ++ take (S j) below
                              \/ below = []).
      { intros j. apply snoc_take_ne. }
      simpl in Hk.
      rewrite (IH (above ++ [c0]) t1 (S k) c).
      - reflexivity.
      - lia.
      - rewrite Ht1; [rewrite snoc_take; exact Hfile |].
        destruct (Hne k) as [H | ->]; [congruence | simpl in Hk; lia].
      - intros j c' Hj. rewrite Ht1.
        + rewrite snoc_take. apply Hfirst. lia.
        + destruct j as [| j]; [lia |].
          destruct (Hne j) as [H | ->]; [congruence | simpl in Hk; lia]. }
    destruct (node_at t (above ++ [c0])) as [[| content] |] eqn:E.
    + apply Hdeep. reflexivity.
    + now destruct (Hhere content).
    + apply Hdeep. intros q Hq. apply node_at_insert_ne. congruence.
Qed.

(** [os.makedirs] on a folder that can be made. *)
Lemma makedirs_run folder w :
  folder <> ""%string ->
  (forall k c, node_at (fs w) (take k (components folder)) <> Some (File c)) ->
  makedirs folder w = (Return tt, with_folder folder w) /\
  fs (with_folder folder w) !! folder = Some Dir.
Proof.
  intros Hne Hfree.
  destruct (make_chain_ok (components folder) [] (fs w)) as (t' & Hrun & Hdirs).
  { intros k c _. apply Hfree. }
  unfold makedirs, with_folder, made.
  destruct (String.eqb_spec folder ""); [contradiction |]. rewrite Hrun.
  split; [reflexivity |]. cbn [fs].
  unfold lookup, tree_lookup. destruct (String.eqb_spec folder ""); [contradiction |].
  destruct (components folder) as [| c l] eqn:E; [reflexivity |].
  specialize (Hdirs (length (c :: l))). rewrite take_ge in Hdirs by lia.
  apply Hdirs. simpl. lia.
Qed.

End PathFacts.

(** ** The writer *)

Section WriterFacts.

Variable nansum : list cell -> Q.

Lemma string_length_app (a b : string) :
  String.length (a +:+ b) = (String.length a + String.length b)%nat.
Proof. induction a as [| c a IH]; simpl; [reflexivity | now rewrite IH]. Qed.

Lemma substring_prefix (a b : string) :
  substring 0 (String.length a) (a +:+ b) = a.
Proof.
  induction a as [| c a IH]; simpl.
  - now destruct b.
  - now rewrite IH.
Qed.


Lemma column_pure df name w :
  column df name w =
  (match getitem df name with Some s => Return s | None => Raise (KeyError name) end, w).
Proof. unfold column. now destruct (getitem df name). Qed.

(** The statistics do not touch the world, and their outcome is decided by
    the three columns. *)
Lemma header_statistics_eval df w :
  header_statistics nansum df w =
  (match getitem df "TAVG" with
   | None => Raise (KeyError "TAVG")
   | Some tavg =>
       match getitem df "TMAX" with
       | None => Raise (KeyError "TMAX")
       | Some tmax =>
           match getitem df "TMIN" with
           | None => Raise (KeyError "TMIN")
           | Some tmin =>
               Return (series_mean nansum tavg,
                       cell_div (cell_sub (series_max tmax) (series_min tmin)) 2)
           end
       end
   end, w).
Proof.
  unfold header_statistics, bind. rewrite column_pure.
  destruct (getitem df "TAVG"); [| reflexivity].
  rewrite column_pure. destruct (getitem df "TMAX"); [| reflexivity].
  rewrite column_pure. destruct (getitem df "TMIN"); reflexivity.
Qed.

(** [os.makedirs] either raises and leaves the world, or makes the folder. *)
Lemma makedirs_outcome folder w :
  (exists e, makedirs folder w = (Raise e, w)) \/
  (makedirs folder w = (Return tt, with_folder folder w) /\
   folder <> ""%string /\
   exists t', make_chain [] (components folder) (fs w) = Return t' /\
              made folder (fs w) = t').
Proof.
  unfold makedirs, with_folder, made.
  destruct (String.eqb_spec folder ""); [left; eauto |].
  destruct (make_chain [] (components folder) (fs w)) as [t' | e];
    [right | left; eauto].
  split; [reflexivity |]. split; [assumption |]. eauto.
Qed.

(** Every run of the writer, step by step. *)
Lemma save_wth_file_eval df site lat lon elev folder w :
  let df' := rename df required_columns in
  let path := path_join folder (output_name site) in
  save_wth_file nansum df site lat lon elev folder w =
  match makedirs folder w with
  | (Raise e, w1) => (Raise e, w1)
  | (Return _, w1) =>
      match fst (header_statistics nansum df' w) with
      | Raise e => (Raise e, w1)
      | Return (tav, amp) =>
          match write_file path
                  (header site lat lon elev tav amp
                     +:+ String.concat newline (data_lines df')) w1 with
          | (Raise e, w2) => (Raise e, w2)
          | (Return _, w2) =>
              (Return tt, said ("WTH file created successfully: " +:+ path) w2)
          end
      end
  end.
Proof.
  intros df' path. unfold save_wth_file. fold df' path. clearbody path df'.
  unfold bind at 1.
  destruct (makedirs_outcome folder w) as [(e & ->) | (-> & _)]; [reflexivity |].
  unfold bind at 1.
  rewrite !header_statistics_eval. cbn [fst].
  destruct (match getitem df' "TAVG" with
            | Some tavg => _
            | None => _
            end) as [[tav amp] | e]; [| reflexivity].
  unfold bind at 1.
  destruct (write_file path _ (with_folder folder w)) as [[[] | e] w2];
    reflexivity.
Qed.

Lemma tree_lookup_path (t : tree) (path : string) :
  path <> ""%string -> t !! path = node_at t (components path).
Proof.
  intros H. unfold lookup, tree_lookup.
  destruct (String.eqb_spec path ""); [contradiction | reflexivity].
Qed.

(** Writing the file of a site into a folder that exists. *)
Lemma write_file_run folder site content w :
  folder <> ""%string -> no_slash site = true ->
  node_at (fs w) (components folder) = Some Dir ->
  fs w !! path_join folder (output_name site) <> Some Dir ->
  let path := path_join folder (output_name site) in
  write_file path content w =
  (Return tt, mkWorld (requests w) (stdout w)
                (<[components path := File content]> (fs w))).
Proof.
  intros Hne Hsite Hdir Hfree path.
  destruct (components_join folder site Hne Hsite) as (Hc & Hlast & Hp).
  fold path in Hc, Hlast, Hp, Hfree.
  rewrite tree_lookup_path in Hfree by exact Hp.
  unfold write_file, names_file. rewrite Hlast.
  destruct (is_name_output_name site) as (-> & -> & _).
  clearbody path.
  destruct (String.eqb_spec path ""); [contradiction |].
  cbn [andb negb]. rewrite Hc, removelast_last, Hdir. rewrite Hc in Hfree.
  destruct (node_at (fs w) (components folder ++ [output_name site]))
    as [[| c] |]; [contradiction | reflexivity | reflexivity].
Qed.


Lemma made_dirs (folder : string) (t : tree) :
  (forall k c, node_at t (take k (components folder)) <> Some (File c)) ->
  forall k, node_at (made folder t) (take k (components folder)) = Some Dir.
Proof.
  intros Hfree k.
  destruct (make_chain_ok (components folder) [] t) as (t' & Hrun & Hdirs).
  { intros j c _. apply Hfree. }
  unfold made. rewrite Hrun.
  destruct (take k (components folder)) as [| c l] eqn:E; [reflexivity |].
  rewrite <- E.
  destruct (decide (k <= length (components folder))%nat) as [Hk | Hk].
  - apply (Hdirs k). split; [| exact Hk].
    destruct k; [rewrite take_0 in E; discriminate | lia].
  - rewrite take_ge by lia. rewrite <- (take_ge (components folder) (length (components folder))) by lia.
    apply (Hdirs (length (components folder))).
    rewrite take_ge in E by lia. rewrite E. simpl. lia.
Qed.

Lemma made_other (folder : string) (t : tree) p :
  (forall k, p <> take k (components folder)) -> made folder t !! p = t !! p.
Proof.
  intros Hp. unfold made.
  destruct (make_chain [] (components folder) t) as [t' | e] eqn:E; [| reflexivity].
  destruct (make_chain_grows _ _ _ _ E p) as [H | (_ & _ & k & _ & Heq)];
    [exact H |].
  now destruct (Hp k).
Qed.

Lemma always_dir_file folder site :
  always_dir (components folder ++ [output_name site]) = false.
Proof.
  destruct (always_dir _) eqn:E; [| reflexivity].
  apply always_dir_snoc in E as [_ E].
  pose proof (is_name_output_name site) as (_ & _ & H).
  rewrite E in H. discriminate.
Qed.

Lemma file_not_above folder site k :
  components folder ++ [output_name site] <> take k (components folder).
Proof.
  intros H. apply (f_equal length) in H. rewrite length_app, length_take in H.
  simpl in H. lia.
Qed.

(** A run of the writer that reaches the end. *)
Lemma save_wth_file_run df site lat lon elev folder w tav amp :
  let df' := rename df required_columns in
  let path := path_join folder (output_name site) in
  writable folder site (fs w) ->
  fst (header_statistics nansum df' w) = Return (tav, amp) ->
  save_wth_file nansum df site lat lon elev folder w =
  (Return tt,
   written folder path
     (header site lat lon elev tav amp +:+ String.concat newline (data_lines df')) w).
Proof.
  intros df' path (Hne & Hsite & _ & Hfree & Hfile) Hstats.
  rewrite save_wth_file_eval. fold df' path. rewrite Hstats.
  destruct (makedirs_run folder w Hne Hfree) as [-> Hdir].
  destruct (components_join folder site Hne Hsite) as (Hc & _ & Hp).
  fold path in Hc, Hp.
  fold path in Hfile. rewrite tree_lookup_path in Hfile, Hdir by assumption.
  unfold path at 1. rewrite write_file_run; try assumption; [reflexivity |].
  fold path. rewrite tree_lookup_path by exact Hp.
  rewrite Hc in *. unfold node_at in *.
  destruct (always_dir (components folder ++ [output_name site]));
    [exact Hfile |].
  cbn [fs with_folder]. rewrite made_other by apply file_not_above. exact Hfile.
Qed.


(** Once the writer has run, it can run again: the file system still lets
    it, and holds the file. *)
Lemma written_writable folder site content w :
  let path := path_join folder (output_name site) in
  writable folder site (fs w) ->
  components path = components folder ++ [output_name site] /\
  fs (written folder path content w) !! folder = Some Dir /\
  fs (written folder path content w) !! path = Some (File content) /\
  (forall p, p <> components path -> (forall k, p <> take k (components folder)) ->
             fs (written folder path content w) !! p = fs w !! p) /\
  writable folder site (fs (written folder path content w)).
Proof.
  intros path (Hne & Hsite & Hacc & Hfree & Hfile).
  destruct (components_join folder site Hne Hsite) as (Hc & _ & Hp).
  fold path in Hc, Hp.
  assert (Hdirs : forall k, node_at (fs (written folder path content w))
                              (take k (components folder)) = Some Dir).
  { intros k. cbn [fs written]. rewrite node_at_insert_ne.
    - now apply made_dirs.
    - rewrite Hc. apply file_not_above. }
  assert (Hnew : fs (written folder path content w) !! path = Some (File content)).
  { rewrite tree_lookup_path by exact Hp. cbn [fs written].
    apply node_at_insert. rewrite Hc. apply always_dir_file. }
  split; [exact Hc |]. split; [| split; [exact Hnew |]; split].
  - rewrite tree_lookup_path by exact Hne.
    rewrite <- (take_ge (components folder) (length (components folder))) by lia.
    apply Hdirs.
  - intros p Hp1 Hp2. cbn [fs written].
    rewrite lookup_insert_ne by congruence. now apply made_other.
  - split; [exact Hne |]. split; [exact Hsite |]. split; [exact Hacc |].
    split.
    + intros k c. rewrite Hdirs. discriminate.
    + fold path. rewrite Hnew. discriminate.
Qed.

End WriterFacts.

(** ** Column reductions *)

Section StatFacts.

Local Open Scope Q_scope.














End StatFacts.

(** ** Claims about the writer *)



(** C2 (what the code does). The default of [row.get] is used only when the
    column is absent; a missing observation in a column that exists stays NaN
    and is rendered [nan], not [-99]: the frame fetched from a service that
    lacks 2020-01-02 is written with a [nan] line for that day, whatever the
    summation of the library; TAV is the mean of the one value present, 25
    when the library adds one cell after the other. *)
Theorem missing_value_renders_nan :
  (forall cols row name (i : nat),
      position name cols = Some i -> row !! i = Some None ->
      format_f 5 1 (row_get cols row name sentinel) = "  nan"%string) /\
  (forall cols row name,
      position name cols = None ->
      format_f 5 1 (row_get cols row name sentinel) = "-99.0"%string /\
      format_f 5 0 (row_get cols row name sentinel) = "  -99"%string) /\
  (forall nansum, exists df w1 w2,
    get_daily_nasa_power_data gap_service (-1354 # 100) (-5882 # 100)
      "20200101" "20200102" empty_world = (Return (Some df), w1) /\
    save_wth_file nansum df "BRMT" (-1354 # 100) (-5882 # 100) (370 # 1)
      "./output" w1 = (Return tt, w2) /\
    data_lines (rename df required_columns) =
      ["20001  25.0  25.0  25.0  25.0    25  25.0";
       "20002   nan   nan   nan   nan   nan   nan"]%string /\
    fs w2 !! "./output/WBRMT01.WTH"%string =
      Some (File (header "BRMT" (-1354 # 100) (-5882 # 100) (370 # 1)
                         (series_mean nansum [Some (25 # 1)%Q; None]) (Some 0%Q)
                  +:+ "20001  25.0  25.0  25.0  25.0    25  25.0" +:+ newline
                  +:+ "20002   nan   nan   nan   nan   nan   nan"))) /\
  series_mean sequential_sum [Some (25 # 1)%Q; None] = Some (25 # 1)%Q.
Proof.
  split; [| split; [| split; [| reflexivity]]].
  - intros cols row name i Hpos Hcell. unfold row_get. now rewrite Hpos, Hcell.
  - intros cols row name Hpos. unfold row_get. rewrite Hpos. split; reflexivity.
  - intros nansum. do 3 eexists. split; [vm_compute; reflexivity |].
    match goal with
    | |- save_wth_file _ ?df _ _ _ _ _ ?w1 = _ /\ _ =>
        assert (Hw : writable "./output" "BRMT" (fs w1));
        [| assert (Hstats : fst (header_statistics nansum (rename df required_columns) w1)
                            = Return (series_mean nansum [Some (25 # 1)%Q; None],
                                      Some 0%Q));
           [| pose proof (save_wth_file_run nansum df "BRMT" (-1354 # 100)
                            (-5882 # 100) (370 # 1) "./output" w1 _ _ Hw Hstats)
                as Hrun;
              pose proof (written_writable "./output" "BRMT"
                            (header "BRMT" (-1354 # 100) (-5882 # 100) (370 # 1)
                               (series_mean nansum [Some (25 # 1)%Q; None]) (Some 0%Q)
                             +:+ String.concat newline
                                   (data_lines (rename df required_columns)))
                            w1 Hw) as (_ & _ & Hfile & _)]]
    end.
    + split; [discriminate |]. split; [reflexivity |]. split; [reflexivity |].
      split; [| vm_compute; discriminate].
      intros [| [| k]] c; vm_compute; discriminate.
    + rewrite header_statistics_eval. reflexivity.
    + cbv zeta in Hrun. split; [exact Hrun |].
      split; [vm_compute; reflexivity |].
      exact Hfile.
Qed.

(** ** Concatenation and the body of the file *)

Section BodyFacts.

Lemma index_rename {L} (df : DataFrame L) mapping :
  index (rename df mapping) = index df.
Proof. reflexivity. Qed.


Lemma index_blank_frame lo hi : index (blank_frame lo hi) = date_range lo hi.
Proof.
  unfold index, blank_frame. simpl. rewrite <- list_fmap_compose. apply list_fmap_id.
Qed.

Lemma date_range_app lo mid hi :
  lo <= mid + 1 -> mid <= hi ->
  date_range lo mid ++ date_range (mid + 1) hi = date_range lo hi.
Proof.
  intros H1 H2. unfold date_range.
  replace (hi - lo + 1) with ((mid - lo + 1) + (hi - (mid + 1) + 1)) by lia.
  rewrite (seqZ_app lo (mid - lo + 1) (hi - (mid + 1) + 1)) by lia.
  replace (lo + (mid - lo + 1)) with (mid + 1) by lia. reflexivity.
Qed.

(** The first five characters of a data line are the token of its date. *)
Lemma data_line_token cols t row :
  1 <= t -> substring 0 5 (data_line cols t row) = dssat_date t.
Proof.
  intros Ht. unfold data_line.
  assert (Hlen : String.length (dssat_date t) = 5%nat)
    by (rewrite dssat_date_digits by exact Ht; apply yy_ddd_length).
  rewrite <- Hlen at 1. apply substring_prefix.
Qed.

Lemma data_lines_tokens df :
  Forall (fun t => 1 <= t) (index df) ->
  substring 0 5 <$> data_lines df = dssat_date <$> index df.
Proof.
  unfold data_lines, index. intros Hall.
  rewrite <- !list_fmap_compose.
  induction (rows df) as [| r rs IH]; [reflexivity |].
  simpl in *. inversion Hall as [| ? ? Hr Hrs]; subst.
  f_equal; [now apply data_line_token | now apply IH].
Qed.

(** Tokens over a range of dates shorter than a century are distinct. *)
Lemma tokens_NoDup lo hi :
  1 <= lo -> hi - lo < 36524 -> NoDup (dssat_date <$> date_range lo hi).
Proof.
  intros Hlo Hspan. apply NoDup_fmap_2_strong; [| apply date_range_NoDup].
  intros t1 t2 H1 H2 Heq.
  apply date_range_elem in H1. apply date_range_elem in H2.
  apply dssat_date_inj_within_century; [lia | lia | lia | exact Heq].
Qed.


End BodyFacts.

Section ValueFacts.

Lemma reindex_NoDup df idx df' : reindex df idx = Some df' -> NoDup (index df).
Proof.
  unfold reindex, has_dupb.
  destruct (bool_decide (NoDup (index df))) eqn:E; [| discriminate].
  intros _. now apply bool_decide_eq_true in E.
Qed.

Lemma from_dict_row_inv daily k row :
  (k, row) ∈ rows (from_dict daily) ->
  row = (fun kv => default None (kv.2 !! k)) <$> daily.
Proof.
  unfold from_dict. simpl. intros Hin.
  apply list_elem_of_fmap in Hin as (k' & [= -> ->] & _). reflexivity.
Qed.

Lemma from_dict_row daily kv k :
  kv ∈ daily -> is_Some (kv.2 !! k) ->
  (k, (fun kv => default None (kv.2 !! k)) <$> daily) ∈ rows (from_dict daily).
Proof.
  intros Hkv Hk. unfold from_dict. simpl.
  apply list_elem_of_fmap. exists k. split; [reflexivity |].
  apply elem_of_elements, elem_of_union_list.
  exists (dom kv.2). split; [| now apply elem_of_dom].
  apply list_elem_of_fmap. exists kv. auto.
Qed.

(** The rows of a fetched frame have one cell per parameter. *)
Lemma from_dict_row_length daily k row :
  (k, row) ∈ rows (from_dict daily) -> length row = length daily.
Proof. intros H. apply from_dict_row_inv in H as ->. apply length_fmap. Qed.

End ValueFacts.

Section FetchedFrameFacts.

Lemma valid_ymdb_spec y m d : valid_ymdb y m d = true -> valid_ymd y m d.
Proof.
  unfold valid_ymdb, valid_ymd. intros H.
  repeat (apply andb_prop in H; destruct H as [H ?]). lia.
Qed.

Lemma strptime_valid s y m d : strptime s = Some (y, m, d) -> valid_ymd y m d.
Proof.
  unfold strptime.
  destruct (negb _); [discriminate |].
  destruct (number _ 0) as [y' |]; [| discriminate].
  destruct (number _ 0) as [m' |]; [| discriminate].
  destruct (number _ 0) as [d' |]; [| discriminate].
  destruct (valid_ymdb y' m' d') eqn:E; [| discriminate].
  intros [= <- <- <-]. now apply valid_ymdb_spec.
Qed.

Lemma ymd2ord_pos y m d : valid_ymd y m d -> 1 <= ymd2ord y m d.
Proof.
  intros (Hy & Hm & Hd). unfold ymd2ord.
  pose proof (yday_fits y m d Hm Hd).
  pose proof (days_before_year_mono 1 y ltac:(lia)).
  change (days_before_year 1) with 0 in *. lia.
Qed.

Lemma strptime_ordinal_pos s dt : strptime s = Some dt -> 1 <= toordinal dt.
Proof.
  destruct dt as [[y m] d]. intros H. apply strptime_valid in H.
  now apply ymd2ord_pos.
Qed.

Variable net : request -> reply.

(** What a frame returned by the fetcher looks like: the seven columns, the
    requested range as index, seven cells in every row, and a row of NaN for
    a date the service did not return. *)
Lemma fetched_frame_shape lat lon s e sd ed w df w' :
  strptime s = Some sd -> strptime e = Some ed ->
  toordinal ed - toordinal sd <= max_period_days ->
  get_daily_nasa_power_data net lat lon s e w = (Return (Some df), w') ->
  columns df = parameters /\
  index df = date_range (toordinal sd) (toordinal ed) /\
  Forall (fun r => length r.2 = 7%nat) (rows df) /\
  fs w' = fs w /\
  (forall r t row,
      net (request_params lat lon s e) = Response r ->
      (t, row) ∈ rows df -> ~ served r t -> row = replicate 7 None).
Proof.
  intros Hs He Hle Hrun.
  destruct (fetch_outcome net lat lon s e sd ed w Hs He Hle)
    as (out & w1 & Hrun' & _ & Hfs & Hout).
  rewrite Hrun in Hrun'. injection Hrun' as <- <-.
  destruct Hout as (_ & r & daily & df1 & Hnet & _ & Hkeys & Hblock & Hcols & Hrows & Hre).
  apply reindex_inv in Hre as (Hc & Hidx & Hrow).
  assert (Hlen : length daily = 7%nat)
    by (rewrite <- (length_fmap fst), Hkeys; reflexivity).
  split; [congruence |]. split; [exact Hidx |].
  split; [| split; [exact Hfs |]].
  - apply Forall_forall. intros [t row] Hin. simpl.
    destruct (Hrow t row Hin) as [Hold | [_ ->]].
    + apply list_elem_of_lookup in Hold as [i Hi].
      destruct (Forall2_lookup_r _ _ _ _ _ Hrows Hi) as ([k row0] & Hk & _ & Heq).
      simpl in Heq. subst row0.
      apply list_elem_of_lookup_2, from_dict_row_length in Hk. congruence.
    + rewrite Hcols. reflexivity.
  - intros r' t row Hnet' Hin Habs.
    rewrite Hnet in Hnet'. injection Hnet' as <-.
    destruct (Hrow t row Hin) as [Hold | [_ ->]]; [| rewrite Hcols; reflexivity].
    exfalso. apply Habs.
    apply list_elem_of_lookup in Hold as [i Hi].
    destruct (Forall2_lookup_r _ _ _ _ _ Hrows Hi) as ([k row0] & Hk & Hparse & _).
    simpl in Hparse.
    apply list_elem_of_lookup_2, from_dict_key in Hk as ([p d] & Hkv & Hsome).
    rewrite Forall_forall in Hblock. specialize (Hblock _ Hkv). simpl in *.
    exists p, d, k. repeat split; try assumption.
    rewrite <- Hkeys. apply list_elem_of_fmap. exists (p, d). auto.
Qed.


End FetchedFrameFacts.


(** ** The whole run *)

Section MainFacts.

Variable net : request -> reply.

(** A fetch of [main] whose request fails returns the null result, with one
    more request issued and one more line printed. *)
Lemma fetch_soft_failure lat lon s e sd ed w :
  strptime s = Some sd -> strptime e = Some ed ->
  toordinal ed - toordinal sd <= max_period_days ->
  soft_failure (net (request_params lat lon s e)) ->
  exists diagnostic,
    get_daily_nasa_power_data net lat lon s e w =
    (Return None, said diagnostic (sent (request_params lat lon s e) w)).
Proof.
  intros Hs He Hle Hfail.
  rewrite (fetch_eval net lat lon s e sd ed w Hs He Hle).
  destruct Hfail as [[err ->] | (r & -> & ->)]; eexists; reflexivity.
Qed.

End MainFacts.

(** C6 (what the code does). When both fetches of [main] fail at the
    transport or on the HTTP status, two diagnostics are printed and no file
    is written, but the run does not end quietly: reading [daily_data], which
    no branch has assigned, raises [UnboundLocalError]. *)
Theorem main_raises_when_fetches_fail net describe nansum w :
  (forall rq, soft_failure (net rq)) ->
  exists w' d1 d2,
    main net describe nansum w = (Raise (UnboundLocalError "daily_data"), w') /\
    stdout w' = stdout w ++ [d1; d2] /\
    fs w' = fs w /\
    length (requests w') = (length (requests w) + 2)%nat.
Proof.
  intros Hfail. unfold main.
  destruct (fetch_soft_failure net (-1354 # 100) (-5882 # 100) "19940101" "20141231"
              (1994, 1, 1) (2014, 12, 31) w eq_refl eq_refl
              ltac:(now vm_compute) (Hfail _)) as [d1 H1].
  unfold bind at 1. rewrite H1. cbv beta iota. unfold bind at 1.
  match goal with
  | |- context [get_daily_nasa_power_data _ _ _ _ _ ?w1] =>
      destruct (fetch_soft_failure net (-1354 # 100) (-5882 # 100) "20150101" "20241231"
                  (2015, 1, 1) (2024, 12, 31) w1 eq_refl eq_refl
                  ltac:(now vm_compute) (Hfail _)) as [d2 H2]
  end.
  rewrite H2. cbv beta iota.
  do 3 eexists. split; [reflexivity |]. simpl.
  rewrite <- !app_assoc, !length_app. simpl. repeat split; lia.
Qed.


(** ** Instances on concrete inputs *)

Lemma fetch_index_is_full_range_witness :
  strptime "20200101" = Some (2020, 1, 1) /\
  strptime "20200104" = Some (2020, 1, 4) /\
  toordinal (2020, 1, 1) <= toordinal (2020, 1, 4) /\
  toordinal (2020, 1, 4) - toordinal (2020, 1, 1) <= max_period_days /\
  get_daily_nasa_power_data gap_service site_latitude site_longitude
    "20200101" "20200104" empty_world
  = (Return (Some gap_frame),
     sent (request_params site_latitude site_longitude "20200101" "20200104")
          empty_world) /\
  index gap_frame = date_range (ymd2ord 2020 1 1) (ymd2ord 2020 1 4) /\
  (forall row, (737426, row) ∈ rows gap_frame -> row = replicate 7 None).
Proof.
  assert (H1 : toordinal (2020, 1, 1) <= toordinal (2020, 1, 4)) by now vm_compute.
  assert (H2 : toordinal (2020, 1, 4) - toordinal (2020, 1, 1) <= max_period_days)
    by now vm_compute.
  assert (Hrun : get_daily_nasa_power_data gap_service site_latitude site_longitude
                   "20200101" "20200104" empty_world
                 = (Return (Some gap_frame),
                    sent (request_params site_latitude site_longitude
                            "20200101" "20200104") empty_world))
    by (vm_compute; reflexivity).
  pose proof (fetch_index_is_full_range gap_service site_latitude site_longitude
                "20200101" "20200104" (2020, 1, 1) (2020, 1, 4) empty_world gap_frame _
                eq_refl eq_refl H1 H2 Hrun) as (Hidx & _ & _ & _ & _ & _ & _ & Hmissing).
  split; [reflexivity |]. split; [reflexivity |].
  split; [exact H1 |]. split; [exact H2 |]. split; [exact Hrun |].
  split; [exact Hidx |].
  intros row Hrow. apply (Hmissing _ 737426 row eq_refl Hrow).
  intros (p & d & k & Hp & Hd & Hk & Hparse).
  assert (Hd' : d = two_days).
  { unfold resp_parameter in Hd. cbn [resp_json] in Hd.
    apply elem_of_list_to_map_2 in Hd.
    apply list_elem_of_fmap in Hd as (q & [= _ ->] & _). reflexivity. }
  subst d. unfold two_days in Hk.
  apply lookup_insert_is_Some in Hk as [<- | [_ [v Hk]]];
    [vm_compute in Hparse; discriminate |].
  apply lookup_singleton_Some in Hk as [<- _]. vm_compute in Hparse. discriminate.
Defined.

Lemma period_check_before_network_witness :
  strptime "19900101" = Some (1990, 1, 1) /\
  strptime "20200104" = Some (2020, 1, 4) /\
  max_period_days < toordinal (2020, 1, 4) - toordinal (1990, 1, 1) /\
  get_daily_nasa_power_data gap_service site_latitude site_longitude
    "19900101" "20200104" empty_world
  = (Raise (ValueError "maximum period is 30 years"), empty_world).
Proof.
  assert (Hgt : max_period_days < toordinal (2020, 1, 4) - toordinal (1990, 1, 1))
    by now vm_compute.
  split; [reflexivity |]. split; [reflexivity |]. split; [exact Hgt |].
  exact (proj1 (proj2 (period_check_before_network gap_service site_latitude
                         site_longitude "19900101" "20200104" (1990, 1, 1) (2020, 1, 4)
                         empty_world eq_refl eq_refl)) Hgt).
Defined.

Lemma dssat_date_is_yy_ddd_witness :
  valid_ymd 2020 3 5 /\
  String.length (dssat_date (ymd2ord 2020 3 5)) = 5%nat /\
  dssat_date (ymd2ord 2020 3 5) = yy_ddd 2020 65.
Proof.
  assert (Hv : valid_ymd 2020 3 5) by (repeat split; now vm_compute).
  pose proof (dssat_date_is_yy_ddd 2020 3 5 Hv) as (_ & _ & _ & Hlen & Htok & _).
  split; [exact Hv |]. split; [exact Hlen | exact Htok].
Defined.

Lemma transport_failure_returns_none_witness :
  strptime "20200101" = Some (2020, 1, 1) /\
  strptime "20200104" = Some (2020, 1, 4) /\
  toordinal (2020, 1, 4) - toordinal (2020, 1, 1) <= max_period_days /\
  soft_failure (not_found_service
                  (request_params site_latitude site_longitude "20200101" "20200104")) /\
  exists w' diagnostic,
    get_daily_nasa_power_data not_found_service site_latitude site_longitude
      "20200101" "20200104" empty_world = (Return None, w') /\
    requests w' =
      requests empty_world
        ++ [request_params site_latitude site_longitude "20200101" "20200104"] /\
    stdout w' = stdout empty_world ++ [diagnostic] /\
    fs w' = fs empty_world.
Proof.
  assert (Hle : toordinal (2020, 1, 4) - toordinal (2020, 1, 1) <= max_period_days)
    by now vm_compute.
  assert (Hfail : soft_failure
                    (not_found_service
                       (request_params site_latitude site_longitude
                          "20200101" "20200104")))
    by (right; eexists; split; reflexivity).
  split; [reflexivity |]. split; [reflexivity |].
  split; [exact Hle |]. split; [exact Hfail |].
  exact (transport_failure_returns_none not_found_service site_latitude site_longitude
           "20200101" "20200104" (2020, 1, 1) (2020, 1, 4) empty_world
           eq_refl eq_refl Hle Hfail).
Defined.

Lemma reversed_interval_not_rejected_witness :
  strptime "20200105" = Some (2020, 1, 5) /\
  strptime "20200104" = Some (2020, 1, 4) /\
  toordinal (2020, 1, 4) < toordinal (2020, 1, 5) /\
  get_daily_nasa_power_data gap_service site_latitude site_longitude
    "20200105" "20200104" empty_world
  = (Return (Some (mkDF parameters [])),
     sent (request_params site_latitude site_longitude "20200105" "20200104")
          empty_world) /\
  exists out w',
    get_daily_nasa_power_data gap_service site_latitude site_longitude
      "20200105" "20200104" empty_world = (out, w') /\
    out <> Raise (ValueError "maximum period is 30 years") /\
    requests w' =
      requests empty_world
        ++ [request_params site_latitude site_longitude "20200105" "20200104"] /\
    date_range (toordinal (2020, 1, 5)) (toordinal (2020, 1, 4)) = [] /\
    (forall df, out = Return (Some df) -> rows df = [] /\ columns df = parameters).
Proof.
  assert (Hrev : toordinal (2020, 1, 4) < toordinal (2020, 1, 5)) by now vm_compute.
  split; [reflexivity |]. split; [reflexivity |]. split; [exact Hrev |].
  split.
  - vm_compute. reflexivity.
  - exact (reversed_interval_not_rejected gap_service site_latitude site_longitude
             "20200105" "20200104" (2020, 1, 5) (2020, 1, 4) empty_world
             eq_refl eq_refl Hrev).
Defined.









Lemma main_raises_when_fetches_fail_witness :
  (forall rq, soft_failure (down_service rq)) /\
  exists w' d1 d2,
    main down_service (fun _ => ""%string) sequential_sum empty_world
    = (Raise (UnboundLocalError "daily_data"), w') /\
    stdout w' = stdout empty_world ++ [d1; d2] /\
    fs w' = fs empty_world /\
    length (requests w') = (length (requests empty_world) + 2)%nat.
Proof.
  assert (Hfail : forall rq, soft_failure (down_service rq))
    by (intros rq; left; eexists; reflexivity).
  split; [exact Hfail |].
  exact (main_raises_when_fetches_fail down_service (fun _ => ""%string)
           sequential_sum empty_world Hfail).
Defined.


(** * Further properties *)

(** Closed comparisons of integers, by evaluation. *)
Ltac zdecide := vm_compute; first [reflexivity | discriminate].

(** ** The fetcher: errors and effects *)

(** X1. An 8-digit start or end date that is not a date of the calendar makes
    the fetch raise [ValueError] with the world untouched: no request is
    issued and nothing is printed. *)
Theorem fetch_rejects_invalid_date net lat lon s e w :
  eight_digits s = true -> eight_digits e = true ->
  strptime s = None \/ strptime e = None ->
  exists msg,
    get_daily_nasa_power_data net lat lon s e w = (Raise (ValueError msg), w).
Proof.
  intros _ _ Hbad. unfold get_daily_nasa_power_data, parse_date.
  destruct (strptime s) as [sd |] eqn:Hs.
  - destruct Hbad as [Hbad | Hbad]; [discriminate |].
    rewrite Hbad, bind_ret. eexists. reflexivity.
  - eexists. reflexivity.
Qed.

Lemma select_parameters_first_missing data params k w :
  first_missing data params k ->
  select_parameters data params w = (Raise (KeyError k), w).
Proof.
  destruct data as [| | block]; simpl.
  - intros [Hne ->]. destruct params; [contradiction | reflexivity].
  - intros [Hne ->]. destruct params; [contradiction | reflexivity].
  - intros (before & after & -> & Hbefore & Hnone).
    induction Hbefore as [| q before [d Hq] _ IH]; cbn [app select_parameters].
    + unfold bind, parameter_values. now rewrite Hnone.
    + unfold bind at 1. unfold parameter_values at 1. rewrite Hq. cbn [ret].
      unfold bind at 1. now rewrite IH.
Qed.

Lemma fetch_key_error net lat lon s e sd ed w r k :
  strptime s = Some sd -> strptime e = Some ed ->
  toordinal ed - toordinal sd <= max_period_days ->
  net (request_params lat lon s e) = Response r -> bad_status r = false ->
  first_missing (resp_json r) parameters k ->
  get_daily_nasa_power_data net lat lon s e w =
    (Raise (KeyError k), sent (request_params lat lon s e) w).
Proof.
  intros Hs He Hle Hnet Hok Hmiss.
  rewrite (fetch_eval net lat lon s e sd ed w Hs He Hle). cbv zeta.
  rewrite Hnet, Hok. unfold process_response, bind.
  now rewrite (select_parameters_first_missing _ _ _ _ Hmiss).
Qed.

Lemma fetch_world net lat lon s e w :
  exists out w',
    get_daily_nasa_power_data net lat lon s e w = (out, w') /\
    fs w' = fs w /\
    (requests w' = requests w \/
     requests w' = requests w ++ [request_params lat lon s e]) /\
    (out = Return None -> exists line, stdout w' = stdout w ++ [line]) /\
    (out <> Return None -> stdout w' = stdout w).
Proof.
  destruct (strptime s) as [sd |] eqn:Hs.
  2:{ unfold get_daily_nasa_power_data, parse_date. rewrite Hs.
      do 2 eexists. split; [reflexivity |]. repeat split; auto. discriminate. }
  destruct (strptime e) as [ed |] eqn:He.
  2:{ unfold get_daily_nasa_power_data, parse_date. rewrite Hs, He, bind_ret.
      do 2 eexists. split; [reflexivity |]. repeat split; auto. discriminate. }
  destruct (Z.le_gt_cases (toordinal ed - toordinal sd) max_period_days) as [Hle | Hgt].
  - destruct (fetch_outcome net lat lon s e sd ed w Hs He Hle)
      as (out & w' & Hrun & Hreq & Hfs & Hout).
    exists out, w'. split; [exact Hrun |]. split; [exact Hfs |].
    split; [right; exact Hreq |]. split.
    + intros ->. destruct Hout as [(err & _ & Hp) | (r & _ & _ & Hp)]; eauto.
    + intros Hne. destruct out as [[df |] | ex]; [tauto | congruence |].
      rewrite (fetch_eval net lat lon s e sd ed w Hs He Hle) in Hrun. cbv zeta in Hrun.
      destruct (net (request_params lat lon s e)) as [err | r]; [discriminate |].
      destruct (bad_status r); [discriminate |].
      destruct (process_response_inv r (toordinal sd) (toordinal ed)
                  (sent (request_params lat lon s e) w)) as (o & Ho & _).
      rewrite Ho in Hrun. injection Hrun as _ <-. reflexivity.
  - unfold get_daily_nasa_power_data, parse_date. rewrite Hs, He, !bind_ret.
    destruct (Z.gtb_spec (toordinal ed - toordinal sd) max_period_days); [| lia].
    do 2 eexists. split; [reflexivity |]. repeat split; auto. discriminate.
Qed.

Lemma fetch_keeps_fs net lat lon s e w out w' :
  get_daily_nasa_power_data net lat lon s e w = (out, w') -> fs w' = fs w.
Proof.
  intros Hrun. destruct (fetch_world net lat lon s e w) as (o & w1 & Hrun' & Hfs & _).
  rewrite Hrun in Hrun'. injection Hrun' as <- <-. exact Hfs.
Qed.

(** X2. When the response passes the status check but its body lacks a key
    that the program reads, the [KeyError] is not caught: the fetch raises it
    with the first key missing ([properties], then [parameter], then the
    first of the seven parameters that the block lacks), after its one
    request and with nothing printed. *)
Theorem fetch_missing_parameter_raises net lat lon s e sd ed w r k :
  strptime s = Some sd -> strptime e = Some ed ->
  toordinal ed - toordinal sd <= max_period_days ->
  net (request_params lat lon s e) = Response r -> bad_status r = false ->
  first_missing (resp_json r) parameters k ->
  get_daily_nasa_power_data net lat lon s e w =
    (Raise (KeyError k), sent (request_params lat lon s e) w).
Proof. apply fetch_key_error. Qed.

(** X3. Whatever the inputs and the reply, a fetch leaves the file system as
    it was, issues at most its one request, and prints a line exactly when it
    returns the null result. *)
Theorem fetch_effects net lat lon s e w :
  exists out w',
    get_daily_nasa_power_data net lat lon s e w = (out, w') /\
    fs w' = fs w /\
    (requests w' = requests w \/
     requests w' = requests w ++ [request_params lat lon s e]) /\
    (out = Return None -> exists line, stdout w' = stdout w ++ [line]) /\
    (out <> Return None -> stdout w' = stdout w).
Proof. apply fetch_world. Qed.

(** ** The fetcher: the values of the service *)

(** X4. In a frame the fetch returns, the row of a date the service returned
    holds, parameter by parameter, the value the service gave under the key of
    that date (NaN for a parameter without that key): reindexing moves no
    value and changes none. *)
Theorem fetch_keeps_served_values net lat lon s e sd ed w df w' r p d k t row :
  strptime s = Some sd -> strptime e = Some ed ->
  toordinal ed - toordinal sd <= max_period_days ->
  get_daily_nasa_power_data net lat lon s e w = (Return (Some df), w') ->
  net (request_params lat lon s e) = Response r ->
  p ∈ parameters -> resp_parameter r !! p = Some d -> is_Some (d !! k) ->
  to_datetime k = Some t ->
  (t, row) ∈ rows df ->
  row = served_value r k <$> parameters.
Proof.
  intros Hs He Hle Hrun Hnet Hp Hd Hk Hparse Hin.
  destruct (fetch_outcome net lat lon s e sd ed w Hs He Hle)
    as (out & w1 & Hrun' & _ & _ & Hout).
  rewrite Hrun in Hrun'. injection Hrun' as <- <-.
  destruct Hout as (_ & r' & daily & df1 & Hnet' & _ & Hkeys & Hblock & _ & Hrows & Hre).
  rewrite Hnet in Hnet'. injection Hnet' as <-.
  rewrite Forall_forall in Hblock.
  (* the key [k] has a row in the frame built from the response *)
  assert (Hkv : exists kv, kv ∈ daily /\ kv.1 = p /\ kv.2 = d).
  { rewrite <- Hkeys in Hp. apply list_elem_of_fmap in Hp as (kv & -> & Hkv).
    exists kv. split; [exact Hkv |]. split; [reflexivity |].
    specialize (Hblock _ Hkv). congruence. }
  destruct Hkv as (kv & Hkv & _ & Hkv2).
  assert (Hrowk : (k, (fun kv => default None (kv.2 !! k)) <$> daily)
                    ∈ rows (from_dict daily))
    by (apply (from_dict_row daily kv k Hkv); now rewrite Hkv2).
  apply list_elem_of_lookup in Hrowk as [i Hi].
  destruct (Forall2_lookup_l _ _ _ _ _ Hrows Hi) as ([t' row'] & Hi' & Ht' & Hrow').
  simpl in Ht', Hrow'. rewrite Hparse in Ht'. injection Ht' as <-. subst row'.
  (* the row of [t] in the reindexed frame is that row *)
  pose proof (reindex_NoDup _ _ _ Hre) as Hnd.
  apply reindex_inv in Hre as (_ & _ & Hrow).
  destruct (Hrow t row Hin) as [Hold | [Habs _]].
  2:{ exfalso. apply Habs. unfold index. apply list_elem_of_fmap.
      eexists. split; [| eapply list_elem_of_lookup_2; exact Hi']. reflexivity. }
  apply list_elem_of_lookup in Hold as [j Hj].
  assert (Hij : i = j).
  { apply (NoDup_lookup (index df1) i j t Hnd); unfold index;
      rewrite list_lookup_fmap; [rewrite Hi' | rewrite Hj]; reflexivity. }
  subst j. rewrite Hi' in Hj. injection Hj as <-.
  (* and it lists the values of the service *)
  rewrite <- Hkeys, <- list_fmap_compose.
  apply list_fmap_ext. intros n kv' Hkv'. simpl.
  apply list_elem_of_lookup_2 in Hkv'. specialize (Hblock _ Hkv').
  unfold served_value. now rewrite Hblock.
Qed.

(** ** The writer: errors and edge cases *)

Section WriterEdgeFacts.

Variable nansum : list cell -> Q.

Lemma string_app_empty_r (s : string) : s +:+ "" = s.
Proof.
  induction s as [| c s IH]; [reflexivity |].
  change (String c (s +:+ "") = String c s). now rewrite IH.
Qed.

(** [os.makedirs] makes directories only: the regular files are those that
    were there. *)
Lemma made_files (folder : string) (t : tree) (p : list string) c :
  made folder t !! p = Some (File c) <-> t !! p = Some (File c).
Proof.
  unfold made.
  destruct (make_chain [] (components folder) t) as [t' | e] eqn:E; [| reflexivity].
  destruct (make_chain_grows _ _ _ _ E p) as [-> | (H1 & H2 & _)]; [reflexivity |].
  rewrite H1, H2. split; discriminate.
Qed.

(** A frame with the seven columns of the fetcher always has the three
    columns of the statistics once renamed. *)
Lemma statistics_of_parameters df w :
  columns df = parameters ->
  exists tav amp,
    header_statistics nansum (rename df required_columns) w = (Return (tav, amp), w).
Proof.
  intros Hc. rewrite header_statistics_eval. unfold getitem, rename. simpl.
  rewrite Hc. simpl. eauto.
Qed.

(** The outcome of the writer when the statistics raise. *)
Lemma save_wth_file_stats_raise df site lat lon elev folder w e :
  can_make folder (fs w) ->
  fst (header_statistics nansum (rename df required_columns) w) = Raise e ->
  save_wth_file nansum df site lat lon elev folder w = (Raise e, with_folder folder w).
Proof.
  intros (Hne & _ & Hfree) Hstats. rewrite save_wth_file_eval.
  destruct (makedirs_run folder w Hne Hfree) as [-> _]. now rewrite Hstats.
Qed.

(** Whatever the writer does, it prints at most its last line, and changes
    the file system only on its way to the file. *)
Lemma save_wth_file_world df site lat lon elev folder w :
  exists out w',
    save_wth_file nansum df site lat lon elev folder w = (out, w') /\
    requests w' = requests w /\
    (out <> Return tt ->
     stdout w' = stdout w /\ (fs w' = fs w \/ fs w' = made folder (fs w))).
Proof.
  rewrite save_wth_file_eval.
  destruct (makedirs_outcome folder w) as [(e & ->) | (-> & _)].
  { do 2 eexists. split; [reflexivity |]. auto. }
  destruct (fst (header_statistics nansum _ w)) as [[tav amp] | e].
  2:{ do 2 eexists. split; [reflexivity |]. auto. }
  unfold write_file.
  destruct (String.eqb _ ""); [do 2 eexists; split; [reflexivity |]; auto |].
  destruct (negb _); [do 2 eexists; split; [reflexivity |]; auto |].
  destruct (node_at _ (removelast _)) as [[| c] |];
    [| do 2 eexists; split; [reflexivity |]; auto
     | do 2 eexists; split; [reflexivity |]; auto].
  destruct (node_at _ _) as [[| c] |];
    [do 2 eexists; split; [reflexivity |]; auto | |];
    (do 2 eexists; split; [reflexivity |]; split; [reflexivity |];
     intros H; now destruct H).
Qed.

End WriterEdgeFacts.

(** X5. A frame that lacks one of the three columns of the header statistics
    (once renamed) makes the writer raise [KeyError] for the first one it
    misses, in the order in which it reads them; the output folder has been
    made by then, with the missing directories above it, but no file is
    written and nothing is printed. *)
Theorem save_missing_column_raises nansum df site lat lon elev folder w
    before name after :
  let df' := rename df required_columns in
  can_make folder (fs w) ->
  statistic_columns = before ++ name :: after ->
  Forall (fun c => is_Some (getitem df' c)) before ->
  getitem df' name = None ->
  save_wth_file nansum df site lat lon elev folder w =
    (Raise (KeyError name), with_folder folder w) /\
  requests (with_folder folder w) = requests w /\
  stdout (with_folder folder w) = stdout w /\
  fs (with_folder folder w) !! folder = Some Dir /\
  (forall (p : list string) c,
      fs (with_folder folder w) !! p = Some (File c) <-> fs w !! p = Some (File c)).
Proof.
  intros df' Hmake Hsplit Hbefore Hmiss.
  split; [| split; [reflexivity |]; split; [reflexivity |]; split].
  - apply save_wth_file_stats_raise; [exact Hmake |]. fold df'. clearbody df'.
    rewrite header_statistics_eval. cbn [fst]. unfold statistic_columns in Hsplit.
    destruct before as [| b1 [| b2 [| b3 before]]]; cbn [app] in Hsplit.
    + injection Hsplit as <- _. now rewrite Hmiss.
    + injection Hsplit as <- <- _.
      inversion Hbefore as [| ? ? [c1 H1] _]; subst. now rewrite H1, Hmiss.
    + injection Hsplit as <- <- <- _.
      inversion Hbefore as [| ? ? [c1 H1] Hrest]; subst.
      inversion Hrest as [| ? ? [c2 H2] _]; subst. now rewrite H1, H2, Hmiss.
    + exfalso. injection Hsplit as _ _ _ Hsplit. now destruct before.
  - destruct Hmake as (Hne & _ & Hfree). now apply makedirs_run.
  - intros p c. apply made_files.
Qed.

(** X6. The writer never issues a request, and a run that raises prints
    nothing and writes nothing: no regular file is changed or made, and the
    entries that are neither the output folder nor a directory above it are
    as they were.  An output file that exists is not touched by a failed
    write. *)
Theorem save_failure_keeps_files nansum df site lat lon elev folder w :
  acceptable folder = true ->
  exists out w',
    save_wth_file nansum df site lat lon elev folder w = (out, w') /\
    requests w' = requests w /\
    (out <> Return tt ->
     stdout w' = stdout w /\
     (forall (p : list string) c,
         fs w' !! p = Some (File c) <-> fs w !! p = Some (File c)) /\
     (forall p, (forall k, p <> take k (components folder)) ->
                fs w' !! p = fs w !! p)).
Proof.
  intros _.
  destruct (save_wth_file_world nansum df site lat lon elev folder w)
    as (out & w' & Hrun & Hreq & Hfail).
  exists out, w'. split; [exact Hrun |]. split; [exact Hreq |].
  intros Hout. destruct (Hfail Hout) as [Hstd [-> | ->]].
  - split; [exact Hstd |]. split; reflexivity.
  - split; [exact Hstd |]. split; [intros p c; apply made_files |].
    intros p Hp. now apply made_other.
Qed.

(** X7. Writing a frame that has the seven columns and no row (what a fetch
    over a reversed interval returns) succeeds when the file system lets it:
    the file holds the header alone, with [nan] for both statistics, and no
    data line. *)
Theorem save_empty_frame nansum df site lat lon elev folder w :
  let path := path_join folder (output_name site) in
  columns df = parameters -> rows df = [] ->
  writable folder site (fs w) ->
  exists w',
    save_wth_file nansum df site lat lon elev folder w = (Return tt, w') /\
    fs w' !! path = Some (File (header site lat lon elev None None)) /\
    format_f 4 1 None = " nan"%string /\
    data_lines (rename df required_columns) = [].
Proof.
  intros path Hc Hr Hw.
  assert (Hstats : fst (header_statistics nansum (rename df required_columns) w)
                   = Return (None, None)).
  { rewrite header_statistics_eval. unfold getitem, rename. simpl.
    rewrite Hc, Hr. reflexivity. }
  assert (Hlines : data_lines (rename df required_columns) = [])
    by (unfold data_lines, rename; simpl; now rewrite Hr).
  eexists. split; [| split; [| split; [reflexivity | exact Hlines]]].
  - exact (save_wth_file_run nansum df site lat lon elev folder w None None
             Hw Hstats).
  - rewrite Hlines. cbn [String.concat]. rewrite string_app_empty_r.
    now apply written_writable.
Qed.

(** X8. A series the fetch returned for a valid interval can always be
    written when the file system lets it: the statistics never miss a column,
    the body has one line per day of the interval, the lines begin with the
    tokens of the days in order, and no token comes twice. *)
Theorem fetched_series_is_writable net nansum lat lon s e sd ed w df w1
    site la lo elev folder :
  let path := path_join folder (output_name site) in
  let days := date_range (toordinal sd) (toordinal ed) in
  strptime s = Some sd -> strptime e = Some ed ->
  toordinal sd <= toordinal ed ->
  toordinal ed - toordinal sd <= max_period_days ->
  get_daily_nasa_power_data net lat lon s e w = (Return (Some df), w1) ->
  writable folder site (fs w1) ->
  exists tav amp body w2,
    save_wth_file nansum df site la lo elev folder w1 = (Return tt, w2) /\
    fs w2 !! path =
      Some (File (header site la lo elev tav amp +:+ String.concat newline body)) /\
    Z.of_nat (length body) = toordinal ed - toordinal sd + 1 /\
    substring 0 5 <$> body = dssat_date <$> days /\
    NoDup (substring 0 5 <$> body).
Proof.
  intros path days Hs He Hord Hle Hrun Hw.
  destruct (fetched_frame_shape net lat lon s e sd ed w df w1 Hs He Hle Hrun)
    as (Hc & Hidx & _ & Hfs & _).
  destruct (statistics_of_parameters nansum df w1 Hc) as (tav & amp & Hstats).
  exists tav, amp, (data_lines (rename df required_columns)).
  pose proof (strptime_ordinal_pos s sd Hs) as Hpos.
  assert (Htok : substring 0 5 <$> data_lines (rename df required_columns)
                 = dssat_date <$> days).
  { rewrite data_lines_tokens; rewrite index_rename, Hidx; [reflexivity |].
    apply Forall_forall. intros t Ht. apply date_range_elem in Ht. lia. }
  eexists. split; [| split].
  - apply save_wth_file_run; [exact Hw | now rewrite Hstats].
  - now apply written_writable.
  - split; [| split; [exact Htok |]].
    + unfold data_lines. rewrite length_fmap.
      change (rows (rename df required_columns)) with (rows df).
      rewrite <- (length_fmap fst). fold (index df). rewrite Hidx.
      rewrite date_range_length. lia.
    + rewrite Htok. apply tokens_NoDup; [exact Hpos |].
      unfold max_period_days in Hle. lia.
Qed.

(** X19. A site code with a slash puts the file in a directory of the output
    folder, which the writer does not make: when that directory is missing,
    [open] raises [FileNotFoundError]; the folder has been made by then, but
    no file is written and nothing is printed. *)
Theorem save_nested_site_code_raises nansum df a b lat lon elev folder w tav amp :
  can_make folder (fs w) ->
  no_slash a = true -> no_slash b = true ->
  acceptable (path_join folder (output_name (a +:+ "/" +:+ b))) = true ->
  fst (header_statistics nansum (rename df required_columns) w) = Return (tav, amp) ->
  node_at (fs w) (components folder ++ ["W" +:+ a]) = None ->
  save_wth_file nansum df (a +:+ "/" +:+ b) lat lon elev folder w
    = (Raise (OSError "FileNotFoundError"), with_folder folder w) /\
  stdout (with_folder folder w) = stdout w /\
  (forall (p : list string) c,
      fs (with_folder folder w) !! p = Some (File c) <-> fs w !! p = Some (File c)).
Proof.
  intros (Hne & _ & Hfree) Ha Hb _ Hstats Hmissing.
  split; [| split; [reflexivity | intros p c; apply made_files]].
  rewrite save_wth_file_eval, Hstats.
  destruct (makedirs_run folder w Hne Hfree) as [-> _].
  destruct (components_nested folder a b Hne Ha Hb) as (Hc & Hname & Hp).
  unfold write_file. rewrite Hname, Hc, removelast_last.
  destruct (String.eqb_spec (path_join folder (output_name (a +:+ "/" +:+ b))) "");
    [contradiction |].
  cbn [negb].
  apply node_at_None in Hmissing as [Hd Hraw].
  unfold node_at at 1. rewrite Hd. cbn [fs with_folder].
  rewrite made_other, Hraw; [reflexivity |].
  intros k H. apply (f_equal length) in H.
  rewrite length_app, length_take in H. simpl in H. lia.
Qed.

(** X20. When a regular file stands where the output folder or a directory
    above it has to be, [os.makedirs] raises, [FileExistsError] for the
    folder itself and [NotADirectoryError] for a directory above it, and the
    writer stops there: nothing is made, written or printed. *)
Theorem save_blocked_folder_raises nansum df site lat lon elev folder w
    (k : nat) c :
  folder <> ""%string -> acceptable folder = true ->
  (0 < k <= length (components folder))%nat ->
  node_at (fs w) (take k (components folder)) = Some (File c) ->
  (forall j c', (0 < j < k)%nat ->
                node_at (fs w) (take j (components folder)) <> Some (File c')) ->
  save_wth_file nansum df site lat lon elev folder w =
    (Raise (OSError (if (k =? length (components folder))%nat
                     then "FileExistsError" else "NotADirectoryError")), w).
Proof.
  intros Hne _ Hk Hfile Hfirst.
  rewrite save_wth_file_eval. unfold makedirs.
  destruct (String.eqb_spec folder ""); [contradiction |].
  now rewrite (make_chain_first_file (components folder) [] (fs w) k c Hk Hfile Hfirst).
Qed.

(** X9. In the body written for a fetched series, the line of a day the
    service did not return is the token of the day followed by six fields
    [nan]: the reindexed gaps reach the file as [nan], never as a number. *)
Theorem missing_day_line net lat lon s e sd ed w df w1 r t row :
  strptime s = Some sd -> strptime e = Some ed ->
  toordinal ed - toordinal sd <= max_period_days ->
  get_daily_nasa_power_data net lat lon s e w = (Return (Some df), w1) ->
  net (request_params lat lon s e) = Response r ->
  (t, row) ∈ rows df -> ~ served r t ->
  data_line (columns (rename df required_columns)) t row = nan_line t /\
  data_line (columns (rename df required_columns)) t row
    ∈ data_lines (rename df required_columns).
Proof.
  intros Hs He Hle Hrun Hnet Hin Habs.
  destruct (fetched_frame_shape net lat lon s e sd ed w df w1 Hs He Hle Hrun)
    as (Hc & _ & _ & _ & Hmissing).
  split.
  - rewrite (Hmissing r t row Hnet Hin Habs).
    unfold rename. simpl columns. rewrite Hc. reflexivity.
  - unfold data_lines. apply list_elem_of_fmap. exists (t, row). auto.
Qed.

(** ** The whole run, when fetches return *)

Section RunFacts.

Lemma lay_on_parameters (row : list cell) :
  length row = 7%nat ->
  (fun c => row_get parameters row c None) <$> parameters = row.
Proof.
  intros Hlen.
  do 7 (destruct row as [| ? row]; [discriminate |]).
  destruct row; [reflexivity | discriminate].
Qed.

(** Concatenating two frames of the fetcher appends their rows unchanged. *)
Lemma concat2_fetched (a b : DataFrame Z) :
  columns a = parameters -> columns b = parameters ->
  Forall (fun r => length r.2 = 7%nat) (rows a) ->
  Forall (fun r => length r.2 = 7%nat) (rows b) ->
  concat2 a b = mkDF parameters (rows a ++ rows b).
Proof.
  intros Ha Hb Fa Fb. unfold concat2. rewrite Ha, Hb.
  change (parameters ++ List.filter _ parameters) with parameters.
  f_equal. f_equal.
  - rewrite <- (list_fmap_id (rows a)) at 2. apply Forall_fmap_ext.
    eapply Forall_impl; [exact Fa |]. intros [t row] Hlen.
    change ((t, (fun c => row_get parameters row c None) <$> parameters) = (t, row)).
    f_equal. now apply lay_on_parameters.
  - rewrite <- (list_fmap_id (rows b)) at 2. apply Forall_fmap_ext.
    eapply Forall_impl; [exact Fb |]. intros [t row] Hlen.
    change ((t, (fun c => row_get parameters row c None) <$> parameters) = (t, row)).
    f_equal. now apply lay_on_parameters.
Qed.

(** A response with the seven parameters and no date gives the frame of the
    requested range with every cell missing. *)
Lemma fetch_of_silent_block net lat lon s e sd ed w r :
  strptime s = Some sd -> strptime e = Some ed ->
  toordinal ed - toordinal sd <= max_period_days ->
  net (request_params lat lon s e) = Response r -> bad_status r = false ->
  resp_json r = ParameterBlock silent_block ->
  get_daily_nasa_power_data net lat lon s e w =
    (Return (Some (blank_frame (toordinal sd) (toordinal ed))),
     sent (request_params lat lon s e) w).
Proof.
  intros Hs He Hle Hnet Hok Hblock.
  rewrite (fetch_eval net lat lon s e sd ed w Hs He Hle). cbv zeta.
  rewrite Hnet, Hok. unfold process_response. rewrite Hblock.
  generalize (toordinal sd) (toordinal ed). intros lo hi. reflexivity.
Qed.

(** The conditions of [main] on the file system are those of the writer. *)
Lemma output_writable (t : tree) :
  (forall c, t !! "./output"%string <> Some (File c)) ->
  t !! "./output/WBRMT01.WTH"%string <> Some Dir ->
  writable "./output" "BRMT" t.
Proof.
  intros Hfolder Hpath.
  split; [discriminate |]. split; [reflexivity |]. split; [reflexivity |].
  split; [| exact Hpath].
  intros [| [| k]] c; [discriminate | apply Hfolder | apply Hfolder].
Qed.

End RunFacts.

(** X10. When both fetches of [main] return a frame and the file system
    allows the write, [main] returns normally: the concatenation appends the
    rows of the second period to those of the first, unchanged; the file
    [./output/WBRMT01.WTH] holds the header and one line per day from
    1994-01-01 to 2024-12-31, in order and with no token twice; three lines
    are printed after those of the fetches. *)
Theorem main_writes_both_periods net describe nansum w p1 w1 p2 w2 :
  get_daily_nasa_power_data net site_latitude site_longitude
    "19940101" "20141231" w = (Return (Some p1), w1) ->
  get_daily_nasa_power_data net site_latitude site_longitude
    "20150101" "20241231" w1 = (Return (Some p2), w2) ->
  (forall c, fs w !! "./output"%string <> Some (File c)) ->
  fs w !! "./output/WBRMT01.WTH"%string <> Some Dir ->
  let df := mkDF parameters (rows p1 ++ rows p2) in
  let body := data_lines (rename df required_columns) in
  exists tav amp w3,
    main net describe nansum w = (Return tt, w3) /\
    concat2 p1 p2 = df /\
    fs w3 !! "./output/WBRMT01.WTH"%string =
      Some (File (header "BRMT" site_latitude site_longitude (370 # 1) tav amp
                    +:+ String.concat newline body)) /\
    stdout w3 =
      stdout w2 ++ ["WTH file created successfully: ./output/WBRMT01.WTH"%string;
                    newline +:+ "Summary of the collected data:";
                    describe df] /\
    requests w3 = requests w2 /\
    Z.of_nat (length body) = 11323 /\
    substring 0 5 <$> body
      = dssat_date <$> date_range (ymd2ord 1994 1 1) (ymd2ord 2024 12 31) /\
    NoDup (substring 0 5 <$> body).
Proof.
  intros H1 H2 Hfolder Hpath df body.
  destruct (fetched_frame_shape net site_latitude site_longitude
              "19940101" "20141231" (1994, 1, 1) (2014, 12, 31) w p1 w1
              eq_refl eq_refl ltac:(zdecide) H1)
    as (Hc1 & Hi1 & Hl1 & Hfs1 & _).
  destruct (fetched_frame_shape net site_latitude site_longitude
              "20150101" "20241231" (2015, 1, 1) (2024, 12, 31) w1 p2 w2
              eq_refl eq_refl ltac:(zdecide) H2)
    as (Hc2 & Hi2 & Hl2 & Hfs2 & _).
  assert (Hcat : concat2 p1 p2 = df) by now apply concat2_fetched.
  destruct (statistics_of_parameters nansum df w2 eq_refl) as (tav & amp & Hstats).
  assert (Hidx : index (rename df required_columns)
                 = date_range (ymd2ord 1994 1 1) (ymd2ord 2024 12 31)).
  { rewrite index_rename. unfold index, df. simpl rows. rewrite fmap_app.
    fold (index p1) (index p2). rewrite Hi1, Hi2.
    exact (date_range_app 727929 735598 739251 ltac:(zdecide) ltac:(zdecide)). }
  assert (Htok : substring 0 5 <$> body
                 = dssat_date <$> date_range (ymd2ord 1994 1 1) (ymd2ord 2024 12 31)).
  { unfold body. rewrite data_lines_tokens; rewrite Hidx; [reflexivity |].
    apply Forall_forall. intros t Ht. apply date_range_elem in Ht.
    change (ymd2ord 1994 1 1) with 727929 in Ht. lia. }
  assert (Hw : writable "./output" "BRMT" (fs w2))
    by (rewrite Hfs2, Hfs1; now apply output_writable).
  assert (Hsave := save_wth_file_run nansum df "BRMT" site_latitude site_longitude
                     (370 # 1) "./output" w2 tav amp Hw ltac:(now rewrite Hstats)).
  cbv zeta in Hsave.
  change (path_join "./output" (output_name "BRMT"))
    with "./output/WBRMT01.WTH"%string in Hsave.
  pose proof (written_writable "./output" "BRMT"
                (header "BRMT" site_latitude site_longitude (370 # 1) tav amp
                   +:+ String.concat newline body) w2 Hw) as (_ & _ & Hfile & _).
  change (path_join "./output" (output_name "BRMT"))
    with "./output/WBRMT01.WTH"%string in Hfile.
  eexists tav, amp, _. split.
  - unfold main. fold site_latitude site_longitude.
    unfold bind at 1. rewrite H1. cbv beta iota.
    unfold bind at 1. rewrite H2. cbv beta iota.
    unfold read_local. rewrite bind_ret, Hcat.
    unfold bind at 1. rewrite Hsave. cbv beta iota.
    unfold bind, print. cbv beta iota. reflexivity.
  - split; [exact Hcat |].
    split; [exact Hfile |].
    split; [simpl; rewrite <- !app_assoc; reflexivity |].
    split; [reflexivity |].
    split; [| split; [exact Htok |]].
    + unfold body, data_lines. rewrite length_fmap.
      rewrite <- (length_fmap fst). fold (index (rename df required_columns)).
      rewrite Hidx, date_range_length. reflexivity.
    + rewrite Htok. apply tokens_NoDup; zdecide.
Qed.

(** X11. When both fetches of [main] return and at least one of them returns
    the null result, the frame of the other period is discarded: no file is
    written and [main] raises [UnboundLocalError]. *)
Theorem main_one_failure_discards_other net describe nansum w o1 w1 o2 w2 :
  get_daily_nasa_power_data net site_latitude site_longitude
    "19940101" "20141231" w = (Return o1, w1) ->
  get_daily_nasa_power_data net site_latitude site_longitude
    "20150101" "20241231" w1 = (Return o2, w2) ->
  o1 = None \/ o2 = None ->
  main net describe nansum w = (Raise (UnboundLocalError "daily_data"), w2) /\
  fs w2 = fs w.
Proof.
  intros H1 H2 Hnone. split.
  - unfold main. fold site_latitude site_longitude.
    unfold bind at 1. rewrite H1. cbv beta iota.
    unfold bind at 1. rewrite H2. cbv beta iota.
    destruct Hnone as [-> | ->]; [reflexivity | now destruct o1].
  - rewrite (fetch_keeps_fs _ _ _ _ _ _ _ _ H2). apply (fetch_keeps_fs _ _ _ _ _ _ _ _ H1).
Qed.

(** X12. A response for the first period that passes the status check but
    whose body lacks a key that the program reads ends the run at once:
    [main] raises the [KeyError] of the first key missing, the request of the
    second period is never issued, and nothing is printed or written. *)
Theorem main_stops_on_missing_parameter net describe nansum w r k :
  net period1_request = Response r -> bad_status r = false ->
  first_missing (resp_json r) parameters k ->
  main net describe nansum w = (Raise (KeyError k), sent period1_request w) /\
  stdout (sent period1_request w) = stdout w /\
  fs (sent period1_request w) = fs w /\
  requests (sent period1_request w) = requests w ++ [period1_request].
Proof.
  intros Hnet Hok Hmiss.
  pose proof (fetch_key_error net site_latitude site_longitude "19940101" "20141231"
                (1994, 1, 1) (2014, 12, 31) w r k eq_refl eq_refl
                ltac:(zdecide) Hnet Hok Hmiss) as Hrun.
  split; [| repeat split].
  unfold main. fold site_latitude site_longitude.
  unfold bind at 1. rewrite Hrun. reflexivity.
Qed.

(** ** Tokens and periods *)

Section TokenEdgeFacts.

Lemma ord2ymd_of_valid y m d : valid_ymd y m d -> ord2ymd (ymd2ord y m d) = (y, m, d).
Proof. intros (Hy & Hm & Hd). apply ord2ymd_ymd2ord; [lia | exact Hm | exact Hd]. Qed.

Lemma year_of_ymd y m d : valid_ymd y m d -> year_of (ymd2ord y m d) = y.
Proof. intros H. unfold year_of. now rewrite ord2ymd_of_valid. Qed.

Lemma tm_yday_ymd y m d :
  valid_ymd y m d -> tm_yday (ymd2ord y m d) = days_before_month y m + d.
Proof.
  intros H. unfold tm_yday, year_of, month_of, day_of. now rewrite ord2ymd_of_valid.
Qed.

Lemma dssat_date_of_ymd y m d :
  valid_ymd y m d ->
  dssat_date (ymd2ord y m d) = yy_ddd y (days_before_month y m + d).
Proof.
  intros H. rewrite dssat_date_digits by now apply ymd2ord_pos.
  now rewrite year_of_ymd, tm_yday_ymd.
Qed.

Lemma days_in_thirty_years y :
  10956 <= days_before_year (y + 30) - days_before_year y <= 10958.
Proof. unfold days_before_year. Z.div_mod_to_equations. lia. Qed.

Lemma days_in_twenty_nine_years y :
  days_before_year (y + 29) - days_before_year y <= 10593.
Proof. unfold days_before_year. Z.div_mod_to_equations. lia. Qed.

Lemma last_day_ordinal y : ymd2ord y 12 31 = days_before_year (y + 1).
Proof.
  rewrite days_before_year_succ. unfold ymd2ord, days_in_year.
  rewrite days_before_month_leap.
  destruct (is_leap y);
    [change (dbm_l true 12) with 335 | change (dbm_l false 12) with 334]; lia.
Qed.

Lemma first_day_ordinal y : ymd2ord y 1 1 = days_before_year y + 1.
Proof.
  unfold ymd2ord. rewrite days_before_month_leap.
  change (dbm_l (is_leap y) 1) with 0. lia.
Qed.

End TokenEdgeFacts.

(** X13. The period check counts years of 365 days: an interval of thirty
    full calendar years, from a first of January to the 31 December 29 years
    later, always exceeds the bound and is refused without a request, while
    twenty-nine full calendar years always pass the check. *)
Theorem thirty_calendar_years_refused net lat lon s e y w :
  strptime s = Some (y, 1, 1) ->
  (strptime e = Some (y + 29, 12, 31) ->
   get_daily_nasa_power_data net lat lon s e w =
     (Raise (ValueError "maximum period is 30 years"), w)) /\
  (strptime e = Some (y + 28, 12, 31) ->
   exists out w',
     get_daily_nasa_power_data net lat lon s e w = (out, w') /\
     requests w' = requests w ++ [request_params lat lon s e]).
Proof.
  intros Hs. split; intros He.
  - unfold get_daily_nasa_power_data, parse_date. rewrite Hs, He, !bind_ret.
    unfold toordinal. rewrite last_day_ordinal, first_day_ordinal.
    replace (y + 29 + 1) with (y + 30) by lia.
    pose proof (days_in_thirty_years y).
    destruct (Z.gtb_spec (days_before_year (y + 30) - (days_before_year y + 1))
                max_period_days) as [_ | Hle]; [reflexivity |].
    unfold max_period_days in Hle. lia.
  - assert (Hle : toordinal (y + 28, 12, 31) - toordinal (y, 1, 1) <= max_period_days).
    { unfold toordinal. rewrite last_day_ordinal, first_day_ordinal.
      replace (y + 28 + 1) with (y + 29) by lia.
      pose proof (days_in_twenty_nine_years y). unfold max_period_days. lia. }
    destruct (fetch_outcome net lat lon s e _ _ w Hs He Hle)
      as (out & w' & Hrun & Hreq & _).
    eauto.
Qed.

(** X14. At the ends of a year: the token of a first of January ends in
    [001], the token of a 31 December ends in [365], or [366] in a leap year,
    and the day after a 31 December is the first of January that follows. *)
Theorem year_end_tokens y :
  1 <= y <= 9999 ->
  dssat_date (ymd2ord y 1 1) = format_0d 2 (y mod 100) +:+ "001" /\
  dssat_date (ymd2ord y 12 31)
    = format_0d 2 (y mod 100) +:+ (if is_leap y then "366" else "365") /\
  ymd2ord (y + 1) 1 1 = ymd2ord y 12 31 + 1.
Proof.
  intros Hy.
  assert (V1 : valid_ymd y 1 1) by (repeat split; try lia; now vm_compute).
  assert (V2 : valid_ymd y 12 31).
  { repeat split; try lia. rewrite days_in_month_leap.
    destruct (is_leap y); now vm_compute. }
  split; [| split].
  - unfold dssat_date. rewrite year_of_ymd, tm_yday_ymd by exact V1.
    rewrite days_before_month_leap. destruct (is_leap y); reflexivity.
  - unfold dssat_date. rewrite year_of_ymd, tm_yday_ymd by exact V2.
    rewrite days_before_month_leap. destruct (is_leap y); reflexivity.
  - rewrite first_day_ordinal, last_day_ordinal. reflexivity.
Qed.

(** X15. The token does not tell centuries apart: a date and the same month
    and day one hundred years later, when both fall on the same day of the
    year, are different dates with the same token. *)
Theorem century_shares_token y m d :
  valid_ymd y m d -> valid_ymd (y + 100) m d ->
  m <= 2 \/ is_leap (y + 100) = is_leap y ->
  dssat_date (ymd2ord (y + 100) m d) = dssat_date (ymd2ord y m d) /\
  ymd2ord y m d + 36524 <= ymd2ord (y + 100) m d.
Proof.
  intros V1 V2 Hsame.
  assert (Hdbm : days_before_month (y + 100) m = days_before_month y m).
  { rewrite !days_before_month_leap. unfold dbm_l.
    destruct Hsame as [Hm | ->]; [| reflexivity].
    destruct (Z.ltb_spec 2 m); [lia | reflexivity]. }
  split.
  - rewrite !dssat_date_of_ymd by assumption. rewrite Hdbm. unfold yy_ddd.
    replace ((y + 100) mod 100) with (y mod 100); [reflexivity |].
    replace (y + 100) with (y + 1 * 100) by lia. now rewrite Z_mod_plus_full.
  - unfold ymd2ord. rewrite Hdbm.
    pose proof (days_before_year_century y (y + 100) ltac:(lia)). lia.
Qed.

(** X17. For any series, contiguous or not, whose dates are distinct and lie
    less than a century apart, no date token comes twice in the body. *)
Theorem body_tokens_distinct df :
  NoDup (index df) ->
  Forall (fun t => 1 <= t) (index df) ->
  (forall t1 t2, t1 ∈ index df -> t2 ∈ index df -> Z.abs (t2 - t1) < 36524) ->
  NoDup (substring 0 5 <$> data_lines df).
Proof.
  intros Hnd Hpos Hspan. rewrite data_lines_tokens by exact Hpos.
  apply NoDup_fmap_2_strong; [| exact Hnd].
  intros t1 t2 H1 H2 Heq. rewrite Forall_forall in Hpos.
  apply dssat_date_inj_within_century; auto.
Qed.

(** X18. The header statistics of two concatenated fetcher frames are taken
    over the days of both: each of the three columns of the concatenation is
    the column of the first frame followed by that of the second, so TAV is
    the mean over all the days, not a mean of the two means. *)
Theorem statistics_cover_both_periods nansum (a b : DataFrame Z) w :
  columns a = parameters -> columns b = parameters ->
  Forall (fun r => length r.2 = 7%nat) (rows a) ->
  Forall (fun r => length r.2 = 7%nat) (rows b) ->
  exists ta tb xa xb na nb,
    getitem (rename a required_columns) "TAVG" = Some ta /\
    getitem (rename b required_columns) "TAVG" = Some tb /\
    getitem (rename a required_columns) "TMAX" = Some xa /\
    getitem (rename b required_columns) "TMAX" = Some xb /\
    getitem (rename a required_columns) "TMIN" = Some na /\
    getitem (rename b required_columns) "TMIN" = Some nb /\
    header_statistics nansum (rename (concat2 a b) required_columns) w =
      (Return (series_mean nansum (ta ++ tb),
               cell_div (cell_sub (series_max (xa ++ xb)) (series_min (na ++ nb))) 2),
       w).
Proof.
  intros Ha Hb Fa Fb. rewrite (concat2_fetched a b Ha Hb Fa Fb).
  rewrite header_statistics_eval. unfold getitem, rename. simpl columns.
  rewrite Ha, Hb. simpl position. simpl rows.
  do 6 eexists. repeat (split; [reflexivity |]).
  rewrite !fmap_app. reflexivity.
Qed.


(** ** Instances of the further properties *)

Lemma fetch_rejects_invalid_date_witness :
  eight_digits "20200230" = true /\ eight_digits "20200301" = true /\
  (strptime "20200230" = None \/ strptime "20200301" = None) /\
  exists msg,
    get_daily_nasa_power_data gap_service site_latitude site_longitude
      "20200230" "20200301" empty_world = (Raise (ValueError msg), empty_world).
Proof.
  split; [reflexivity |]. split; [reflexivity |].
  split; [left; reflexivity |].
  exact (fetch_rejects_invalid_date gap_service site_latitude site_longitude
           "20200230" "20200301" empty_world eq_refl eq_refl (or_introl eq_refl)).
Defined.

Lemma fetch_missing_parameter_raises_witness :
  strptime "20200101" = Some (2020, 1, 1) /\
  strptime "20200104" = Some (2020, 1, 4) /\
  toordinal (2020, 1, 4) - toordinal (2020, 1, 1) <= max_period_days /\
  first_missing
    (ParameterBlock (list_to_map ((fun p => (p, two_days)) <$> take 6 parameters)))
    parameters "WS2M" /\
  get_daily_nasa_power_data no_wind_service site_latitude site_longitude
    "20200101" "20200104" empty_world
  = (Raise (KeyError "WS2M"),
     sent (request_params site_latitude site_longitude "20200101" "20200104")
          empty_world) /\
  first_missing NoProperties parameters "properties" /\
  get_daily_nasa_power_data bare_service site_latitude site_longitude
    "20200101" "20200104" empty_world
  = (Raise (KeyError "properties"),
     sent (request_params site_latitude site_longitude "20200101" "20200104")
          empty_world).
Proof.
  assert (Hle : toordinal (2020, 1, 4) - toordinal (2020, 1, 1) <= max_period_days)
    by zdecide.
  assert (H1 : first_missing
                 (ParameterBlock
                    (list_to_map ((fun p => (p, two_days)) <$> take 6 parameters)))
                 parameters "WS2M").
  { exists (take 6 parameters), []. split; [reflexivity |].
    split; [| vm_compute; reflexivity].
    repeat constructor; exists two_days; vm_compute; reflexivity. }
  assert (H2 : first_missing NoProperties parameters "properties")
    by (split; [discriminate | reflexivity]).
  split; [reflexivity |]. split; [reflexivity |]. split; [exact Hle |].
  split; [exact H1 |]. split; [| split; [exact H2 |]].
  - exact (fetch_missing_parameter_raises no_wind_service site_latitude site_longitude
             "20200101" "20200104" (2020, 1, 1) (2020, 1, 4) empty_world _ "WS2M"
             eq_refl eq_refl Hle eq_refl eq_refl H1).
  - exact (fetch_missing_parameter_raises bare_service site_latitude site_longitude
             "20200101" "20200104" (2020, 1, 1) (2020, 1, 4) empty_world _
             "properties" eq_refl eq_refl Hle eq_refl eq_refl H2).
Defined.

Lemma fetch_keeps_served_values_witness :
  strptime "20200101" = Some (2020, 1, 1) /\
  strptime "20200104" = Some (2020, 1, 4) /\
  toordinal (2020, 1, 4) - toordinal (2020, 1, 1) <= max_period_days /\
  get_daily_nasa_power_data gap_service site_latitude site_longitude
    "20200101" "20200104" empty_world
  = (Return (Some gap_frame),
     sent (request_params site_latitude site_longitude "20200101" "20200104")
          empty_world) /\
  to_datetime "20200103" = Some 737427 /\
  forall row, (737427, row) ∈ rows gap_frame ->
    row = served_value
            (mkResponse 200 "OK" base_url
               (ParameterBlock
                  (list_to_map ((fun p => (p, two_days)) <$> parameters))))
            "20200103" <$> parameters.
Proof.
  assert (Hle : toordinal (2020, 1, 4) - toordinal (2020, 1, 1) <= max_period_days)
    by zdecide.
  assert (Hrun : get_daily_nasa_power_data gap_service site_latitude site_longitude
                   "20200101" "20200104" empty_world
                 = (Return (Some gap_frame),
                    sent (request_params site_latitude site_longitude
                            "20200101" "20200104") empty_world))
    by (vm_compute; reflexivity).
  split; [reflexivity |]. split; [reflexivity |]. split; [exact Hle |].
  split; [exact Hrun |]. split; [reflexivity |].
  intros row Hrow.
  exact (fetch_keeps_served_values gap_service site_latitude site_longitude
           "20200101" "20200104" (2020, 1, 1) (2020, 1, 4) empty_world gap_frame _ _
           "T2M" two_days "20200103" 737427 row
           eq_refl eq_refl Hle Hrun eq_refl
           ltac:(unfold parameters; repeat constructor)
           ltac:(vm_compute; reflexivity)
           ltac:(eexists; vm_compute; reflexivity)
           eq_refl Hrow).
Defined.

Lemma save_missing_column_raises_witness :
  can_make "./output" (fs empty_world) /\
  statistic_columns = ["TAVG"; "TMAX"]%string ++ "TMIN"%string :: [] /\
  Forall (fun c => is_Some (getitem (rename two_column_frame required_columns) c))
         ["TAVG"; "TMAX"]%string /\
  getitem (rename two_column_frame required_columns) "TMIN" = None /\
  save_wth_file sequential_sum two_column_frame "BRMT" site_latitude
    site_longitude (370 # 1) "./output" empty_world
  = (Raise (KeyError "TMIN"), with_folder "./output" empty_world) /\
  fs (with_folder "./output" empty_world) !! "./output"%string = Some Dir.
Proof.
  assert (H1 : can_make "./output" (fs empty_world)).
  { split; [discriminate |]. split; [reflexivity |].
    intros [| [| k]] c; vm_compute; discriminate. }
  assert (H2 : Forall (fun c => is_Some (getitem (rename two_column_frame
                                                    required_columns) c))
                      ["TAVG"; "TMAX"]%string)
    by (repeat constructor; eexists; reflexivity).
  split; [exact H1 |]. split; [reflexivity |]. split; [exact H2 |].
  split; [reflexivity |].
  destruct (save_missing_column_raises sequential_sum two_column_frame "BRMT"
              site_latitude site_longitude (370 # 1) "./output" empty_world
              ["TAVG"; "TMAX"]%string "TMIN" [] H1 eq_refl H2 eq_refl)
    as (Hrun & _ & _ & Hdir & _).
  split; [exact Hrun | exact Hdir].
Defined.

Lemma save_failure_keeps_files_witness :
  acceptable "./output" = true /\
  exists out w',
    save_wth_file sequential_sum two_column_frame "BRMT" site_latitude
      site_longitude (370 # 1) "./output" world_with_old_file = (out, w') /\
    requests w' = requests world_with_old_file /\
    (out <> Return tt ->
     stdout w' = stdout world_with_old_file /\
     (forall (p : list string) c,
         fs w' !! p = Some (File c) <-> fs world_with_old_file !! p = Some (File c)) /\
     (forall p, (forall k, p <> take k (components "./output")) ->
                fs w' !! p = fs world_with_old_file !! p)).
Proof.
  split; [reflexivity |].
  exact (save_failure_keeps_files sequential_sum two_column_frame "BRMT"
           site_latitude site_longitude (370 # 1) "./output" world_with_old_file
           eq_refl).
Defined.

Lemma save_empty_frame_witness :
  columns empty_frame = parameters /\
  rows empty_frame = [] /\
  writable "./output" "BRMT" (fs world_with_old_file) /\
  fs world_with_old_file !! "./output/WBRMT01.WTH"%string = Some (File "old") /\
  exists w',
    save_wth_file sequential_sum empty_frame "BRMT" site_latitude site_longitude
      (370 # 1) "./output" world_with_old_file = (Return tt, w') /\
    fs w' !! "./output/WBRMT01.WTH"%string
    = Some (File (header "BRMT" site_latitude site_longitude (370 # 1) None None)).
Proof.
  assert (H1 : writable "./output" "BRMT" (fs world_with_old_file)).
  { split; [discriminate |]. split; [reflexivity |]. split; [reflexivity |].
    split; [| vm_compute; discriminate].
    intros [| [| k]] c; vm_compute; discriminate. }
  split; [reflexivity |]. split; [reflexivity |]. split; [exact H1 |].
  split; [reflexivity |].
  destruct (save_empty_frame sequential_sum empty_frame "BRMT" site_latitude
              site_longitude (370 # 1) "./output" world_with_old_file
              eq_refl eq_refl H1) as (w' & Hrun & Hfile & _).
  exists w'. split; [exact Hrun | exact Hfile].
Defined.

Lemma fetched_series_is_writable_witness :
  strptime "20200101" = Some (2020, 1, 1) /\
  strptime "20200104" = Some (2020, 1, 4) /\
  toordinal (2020, 1, 1) <= toordinal (2020, 1, 4) /\
  toordinal (2020, 1, 4) - toordinal (2020, 1, 1) <= max_period_days /\
  get_daily_nasa_power_data gap_service site_latitude site_longitude
    "20200101" "20200104" empty_world
  = (Return (Some gap_frame),
     sent (request_params site_latitude site_longitude "20200101" "20200104")
          empty_world) /\
  writable "./output" "BRMT"
    (fs (sent (request_params site_latitude site_longitude "20200101" "20200104")
              empty_world)) /\
  exists tav amp body w2,
    save_wth_file sequential_sum gap_frame "BRMT" site_latitude site_longitude
      (370 # 1) "./output"
      (sent (request_params site_latitude site_longitude "20200101" "20200104")
            empty_world)
    = (Return tt, w2) /\
    fs w2 !! path_join "./output" (output_name "BRMT") =
      Some (File (header "BRMT" site_latitude site_longitude (370 # 1) tav amp
                    +:+ String.concat newline body)) /\
    Z.of_nat (length body) = toordinal (2020, 1, 4) - toordinal (2020, 1, 1) + 1 /\
    substring 0 5 <$> body
      = dssat_date <$> date_range (toordinal (2020, 1, 1)) (toordinal (2020, 1, 4)) /\
    NoDup (substring 0 5 <$> body).
Proof.
  assert (H1 : toordinal (2020, 1, 1) <= toordinal (2020, 1, 4)) by zdecide.
  assert (H2 : toordinal (2020, 1, 4) - toordinal (2020, 1, 1) <= max_period_days)
    by zdecide.
  assert (Hrun : get_daily_nasa_power_data gap_service site_latitude site_longitude
                   "20200101" "20200104" empty_world
                 = (Return (Some gap_frame),
                    sent (request_params site_latitude site_longitude
                            "20200101" "20200104") empty_world))
    by (vm_compute; reflexivity).
  assert (H3 : writable "./output" "BRMT"
                 (fs (sent (request_params site_latitude site_longitude
                              "20200101" "20200104") empty_world))).
  { split; [discriminate |]. split; [reflexivity |]. split; [reflexivity |].
    split; [| vm_compute; discriminate].
    intros [| [| k]] c; vm_compute; discriminate. }
  split; [reflexivity |]. split; [reflexivity |]. split; [exact H1 |].
  split; [exact H2 |]. split; [exact Hrun |]. split; [exact H3 |].
  exact (fetched_series_is_writable gap_service sequential_sum site_latitude
           site_longitude "20200101" "20200104" (2020, 1, 1) (2020, 1, 4)
           empty_world gap_frame _ "BRMT" site_latitude site_longitude (370 # 1)
           "./output" eq_refl eq_refl H1 H2 Hrun H3).
Defined.

Lemma missing_day_line_witness :
  strptime "20200101" = Some (2020, 1, 1) /\
  strptime "20200104" = Some (2020, 1, 4) /\
  toordinal (2020, 1, 4) - toordinal (2020, 1, 1) <= max_period_days /\
  get_daily_nasa_power_data silent_service site_latitude site_longitude
    "20200101" "20200104" empty_world
  = (Return (Some (blank_frame 737425 737428)),
     sent (request_params site_latitude site_longitude "20200101" "20200104")
          empty_world) /\
  (737426, replicate 7 None) ∈ rows (blank_frame 737425 737428) /\
  ~ served (mkResponse 200 "OK" base_url (ParameterBlock silent_block)) 737426 /\
  data_line (columns (rename (blank_frame 737425 737428) required_columns))
    737426 (replicate 7 None) = nan_line 737426 /\
  nan_line 737426 = "20002   nan   nan   nan   nan   nan   nan"%string.
Proof.
  assert (Hle : toordinal (2020, 1, 4) - toordinal (2020, 1, 1) <= max_period_days)
    by zdecide.
  assert (Hrun : get_daily_nasa_power_data silent_service site_latitude site_longitude
                   "20200101" "20200104" empty_world
                 = (Return (Some (blank_frame 737425 737428)),
                    sent (request_params site_latitude site_longitude
                            "20200101" "20200104") empty_world))
    by (vm_compute; reflexivity).
  assert (Hin : (737426, replicate 7 None) ∈ rows (blank_frame 737425 737428))
    by (vm_compute; repeat constructor).
  assert (Habs : ~ served (mkResponse 200 "OK" base_url (ParameterBlock silent_block))
                     737426).
  { intros (p & d & k & _ & Hd & Hk & _). unfold resp_parameter in Hd.
    cbn [resp_json] in Hd. unfold silent_block in Hd.
    apply elem_of_list_to_map_2 in Hd.
    apply list_elem_of_fmap in Hd as (q & [= _ ->] & _).
    rewrite lookup_empty in Hk. now destruct Hk. }
  split; [reflexivity |]. split; [reflexivity |]. split; [exact Hle |].
  split; [exact Hrun |]. split; [exact Hin |]. split; [exact Habs |].
  split; [| reflexivity].
  exact (proj1 (missing_day_line silent_service site_latitude site_longitude
                  "20200101" "20200104" (2020, 1, 1) (2020, 1, 4) empty_world
                  (blank_frame 737425 737428) _ _ 737426 (replicate 7 None)
                  eq_refl eq_refl Hle Hrun eq_refl Hin Habs)).
Defined.

Lemma main_writes_both_periods_witness :
  get_daily_nasa_power_data silent_service site_latitude site_longitude
    "19940101" "20141231" empty_world
  = (Return (Some (blank_frame 727929 735598)), sent period1_request empty_world) /\
  get_daily_nasa_power_data silent_service site_latitude site_longitude
    "20150101" "20241231" (sent period1_request empty_world)
  = (Return (Some (blank_frame 735599 739251)),
     sent period2_request (sent period1_request empty_world)) /\
  (forall c, fs empty_world !! "./output"%string <> Some (File c)) /\
  fs empty_world !! "./output/WBRMT01.WTH"%string <> Some Dir /\
  exists w3,
    main silent_service (fun _ => "summary"%string) sequential_sum empty_world
    = (Return tt, w3) /\
    requests w3 = [period1_request; period2_request] /\
    Z.of_nat (length (data_lines
                        (rename (mkDF parameters
                                   (rows (blank_frame 727929 735598)
                                      ++ rows (blank_frame 735599 739251)))
                                required_columns))) = 11323.
Proof.
  assert (H1 : get_daily_nasa_power_data silent_service site_latitude site_longitude
                 "19940101" "20141231" empty_world
               = (Return (Some (blank_frame 727929 735598)),
                  sent period1_request empty_world))
    by exact (fetch_of_silent_block silent_service site_latitude site_longitude
                "19940101" "20141231" (1994, 1, 1) (2014, 12, 31) empty_world _
                eq_refl eq_refl ltac:(zdecide) eq_refl eq_refl eq_refl).
  assert (H2 : get_daily_nasa_power_data silent_service site_latitude site_longitude
                 "20150101" "20241231" (sent period1_request empty_world)
               = (Return (Some (blank_frame 735599 739251)),
                  sent period2_request (sent period1_request empty_world)))
    by exact (fetch_of_silent_block silent_service site_latitude site_longitude
                "20150101" "20241231" (2015, 1, 1) (2024, 12, 31)
                (sent period1_request empty_world) _
                eq_refl eq_refl ltac:(zdecide) eq_refl eq_refl eq_refl).
  assert (H3 : forall c, fs empty_world !! "./output"%string <> Some (File c))
    by (intros c; vm_compute; discriminate).
  assert (H4 : fs empty_world !! "./output/WBRMT01.WTH"%string <> Some Dir)
    by (vm_compute; discriminate).
  split; [exact H1 |]. split; [exact H2 |]. split; [exact H3 |]. split; [exact H4 |].
  destruct (main_writes_both_periods silent_service (fun _ => "summary"%string)
              sequential_sum empty_world _ _ _ _ H1 H2 H3 H4)
    as (tav & amp & w3 & Hrun & _ & _ & _ & Hreq & Hlen & _).
  exists w3. split; [exact Hrun |]. split; [exact Hreq | exact Hlen].
Defined.

Lemma main_one_failure_discards_other_witness :
  get_daily_nasa_power_data first_period_service site_latitude site_longitude
    "19940101" "20141231" empty_world
  = (Return (Some (blank_frame 727929 735598)), sent period1_request empty_world) /\
  get_daily_nasa_power_data first_period_service site_latitude site_longitude
    "20150101" "20241231" (sent period1_request empty_world)
  = (Return None,
     said "Erro na requisição: Connection refused"
       (sent period2_request (sent period1_request empty_world))) /\
  main first_period_service (fun _ => "summary"%string) sequential_sum empty_world
  = (Raise (UnboundLocalError "daily_data"),
     said "Erro na requisição: Connection refused"
       (sent period2_request (sent period1_request empty_world))).
Proof.
  assert (H1 : get_daily_nasa_power_data first_period_service site_latitude
                 site_longitude "19940101" "20141231" empty_world
               = (Return (Some (blank_frame 727929 735598)),
                  sent period1_request empty_world))
    by exact (fetch_of_silent_block first_period_service site_latitude site_longitude
                "19940101" "20141231" (1994, 1, 1) (2014, 12, 31) empty_world _
                eq_refl eq_refl ltac:(zdecide) eq_refl eq_refl eq_refl).
  assert (H2 : get_daily_nasa_power_data first_period_service site_latitude
                 site_longitude "20150101" "20241231" (sent period1_request empty_world)
               = (Return None,
                  said "Erro na requisição: Connection refused"
                    (sent period2_request (sent period1_request empty_world))))
    by (vm_compute; reflexivity).
  split; [exact H1 |]. split; [exact H2 |].
  exact (proj1 (main_one_failure_discards_other first_period_service
                  (fun _ => "summary"%string) sequential_sum empty_world _ _ _ _
                  H1 H2 (or_intror eq_refl))).
Defined.

Lemma main_stops_on_missing_parameter_witness :
  bad_status (mkResponse 200 "OK" base_url NoProperties) = false /\
  first_missing NoProperties parameters "properties" /\
  main bare_service (fun _ => "summary"%string) sequential_sum empty_world
  = (Raise (KeyError "properties"), sent period1_request empty_world) /\
  requests (sent period1_request empty_world) = [period1_request].
Proof.
  assert (H : first_missing NoProperties parameters "properties")
    by (split; [discriminate | reflexivity]).
  split; [reflexivity |]. split; [exact H |].
  destruct (main_stops_on_missing_parameter bare_service (fun _ => "summary"%string)
              sequential_sum empty_world _ "properties" eq_refl eq_refl H)
    as (Hrun & _ & _ & Hreq).
  split; [exact Hrun | exact Hreq].
Defined.

Lemma thirty_calendar_years_refused_witness :
  strptime "19900101" = Some (1990, 1, 1) /\
  strptime "20191231" = Some (1990 + 29, 12, 31) /\
  get_daily_nasa_power_data gap_service site_latitude site_longitude
    "19900101" "20191231" empty_world
  = (Raise (ValueError "maximum period is 30 years"), empty_world).
Proof.
  split; [reflexivity |]. split; [reflexivity |].
  exact (proj1 (thirty_calendar_years_refused gap_service site_latitude site_longitude
                  "19900101" "20191231" 1990 empty_world eq_refl) eq_refl).
Defined.

Lemma year_end_tokens_witness :
  1 <= 2020 <= 9999 /\
  dssat_date (ymd2ord 2020 12 31)
    = format_0d 2 (2020 mod 100) +:+ (if is_leap 2020 then "366" else "365") /\
  dssat_date (ymd2ord 2020 12 31) = "20366"%string.
Proof.
  assert (H : 1 <= 2020 <= 9999) by (split; zdecide).
  split; [exact H |]. split; [| reflexivity].
  exact (proj1 (proj2 (year_end_tokens 2020 H))).
Defined.

Lemma century_shares_token_witness :
  valid_ymd 1900 1 1 /\ valid_ymd (1900 + 100) 1 1 /\
  (1 <= 2 \/ is_leap (1900 + 100) = is_leap 1900) /\
  dssat_date (ymd2ord (1900 + 100) 1 1) = dssat_date (ymd2ord 1900 1 1) /\
  ymd2ord 1900 1 1 + 36524 <= ymd2ord (1900 + 100) 1 1.
Proof.
  assert (V1 : valid_ymd 1900 1 1) by (repeat split; zdecide).
  assert (V2 : valid_ymd (1900 + 100) 1 1) by (repeat split; zdecide).
  assert (Hm : 1 <= 2 \/ is_leap (1900 + 100) = is_leap 1900) by (left; zdecide).
  split; [exact V1 |]. split; [exact V2 |]. split; [exact Hm |].
  exact (century_shares_token 1900 1 1 V1 V2 Hm).
Defined.


Lemma body_tokens_distinct_witness :
  NoDup (index shuffled_frame) /\
  Forall (fun t => 1 <= t) (index shuffled_frame) /\
  (forall t1 t2, t1 ∈ index shuffled_frame -> t2 ∈ index shuffled_frame ->
                 Z.abs (t2 - t1) < 36524) /\
  NoDup (substring 0 5 <$> data_lines shuffled_frame).
Proof.
  assert (H1 : NoDup (index shuffled_frame))
    by (apply (bool_decide_unpack _); vm_compute; exact I).
  assert (H2 : Forall (fun t => 1 <= t) (index shuffled_frame))
    by (repeat constructor; zdecide).
  assert (H3 : forall t1 t2, t1 ∈ index shuffled_frame -> t2 ∈ index shuffled_frame ->
                             Z.abs (t2 - t1) < 36524).
  { intros t1 t2 Ht1 Ht2.
    assert (B : forall t, t ∈ index shuffled_frame -> 737425 <= t <= 737430).
    { intros t Ht. change (index shuffled_frame) with [737427; 737425; 737430] in Ht.
      repeat (apply elem_of_cons in Ht as [-> | Ht]; [lia |]).
      now apply elem_of_nil in Ht. }
    apply B in Ht1. apply B in Ht2. lia. }
  split; [exact H1 |]. split; [exact H2 |]. split; [exact H3 |].
  exact (body_tokens_distinct shuffled_frame H1 H2 H3).
Defined.

Lemma statistics_cover_both_periods_witness :
  columns stats_example = parameters /\ columns gap_frame = parameters /\
  Forall (fun r => length r.2 = 7%nat) (rows stats_example) /\
  Forall (fun r => length r.2 = 7%nat) (rows gap_frame) /\
  exists tav amp,
    header_statistics sequential_sum
      (rename (concat2 stats_example gap_frame) required_columns) empty_world
    = (Return (tav, amp), empty_world) /\
    format_f 4 1 tav = "22.4"%string /\ amp = Some 15%Q.
Proof.
  assert (F1 : Forall (fun r => length r.2 = 7%nat) (rows stats_example))
    by (repeat constructor).
  assert (F2 : Forall (fun r => length r.2 = 7%nat) (rows gap_frame))
    by (repeat constructor).
  split; [reflexivity |]. split; [reflexivity |]. split; [exact F1 |].
  split; [exact F2 |].
  destruct (statistics_cover_both_periods sequential_sum stats_example gap_frame
              empty_world eq_refl eq_refl F1 F2)
    as (ta & tb & xa & xb & na & nb & E1 & E2 & E3 & E4 & E5 & E6 & Hrun).
  injection E1 as <-. injection E2 as <-. injection E3 as <-.
  injection E4 as <-. injection E5 as <-. injection E6 as <-.
  do 2 eexists. split; [exact Hrun |]. split; vm_compute; reflexivity.
Defined.

Lemma save_nested_site_code_raises_witness :
  can_make "./output" (fs empty_world) /\
  no_slash "a" = true /\ no_slash "b" = true /\
  acceptable (path_join "./output" (output_name ("a" +:+ "/" +:+ "b"))) = true /\
  fst (header_statistics sequential_sum (rename stats_example required_columns)
         empty_world)
  = Return (Some 20%Q, Some 15%Q) /\
  node_at (fs empty_world) (components "./output" ++ ["W" +:+ "a"]) = None /\
  path_join "./output" (output_name "a/b") = "./output/Wa/b01.WTH"%string /\
  save_wth_file sequential_sum stats_example "a/b" site_latitude site_longitude
    (370 # 1) "./output" empty_world
  = (Raise (OSError "FileNotFoundError"), with_folder "./output" empty_world).
Proof.
  assert (H1 : can_make "./output" (fs empty_world)).
  { split; [discriminate |]. split; [reflexivity |].
    intros [| [| k]] c; vm_compute; discriminate. }
  assert (H2 : fst (header_statistics sequential_sum
                      (rename stats_example required_columns) empty_world)
               = Return (Some 20%Q, Some 15%Q))
    by (vm_compute; reflexivity).
  split; [exact H1 |]. split; [reflexivity |]. split; [reflexivity |].
  split; [reflexivity |]. split; [exact H2 |]. split; [reflexivity |].
  split; [reflexivity |].
  exact (proj1 (save_nested_site_code_raises sequential_sum stats_example "a" "b"
                  site_latitude site_longitude (370 # 1) "./output" empty_world
                  _ _ H1 eq_refl eq_refl eq_refl H2 eq_refl)).
Defined.

Lemma save_blocked_folder_raises_witness :
  "./output"%string <> ""%string /\
  acceptable "./output" = true /\
  (0 < 1 <= length (components "./output"))%nat /\
  node_at (fs world_with_blocked_folder) (take 1 (components "./output"))
  = Some (File "notes") /\
  save_wth_file sequential_sum stats_example "BRMT" site_latitude site_longitude
    (370 # 1) "./output" world_with_blocked_folder
  = (Raise (OSError "FileExistsError"), world_with_blocked_folder).
Proof.
  assert (H1 : "./output"%string <> ""%string) by discriminate.
  assert (H2 : (0 < 1 <= length (components "./output"))%nat)
    by (vm_compute; split; constructor).
  assert (H3 : node_at (fs world_with_blocked_folder)
                 (take 1 (components "./output")) = Some (File "notes"))
    by (vm_compute; reflexivity).
  split; [exact H1 |]. split; [reflexivity |]. split; [exact H2 |].
  split; [exact H3 |].
  exact (save_blocked_folder_raises sequential_sum stats_example "BRMT"
           site_latitude site_longitude (370 # 1) "./output"
           world_with_blocked_folder 1%nat "notes" H1 eq_refl H2 H3
           ltac:(intros j c' Hj; lia)).
Defined.
